(** * dxfuse: the metadata index and its callers, embedded in Rocq

    The development follows metadata_db.go and util.go of the package
    [dxfuse].

    - Tables of the sqlite database are finite maps keyed by their primary
      key: [data_objects] and [directories] by inode, [namespace] by
      (parent, name).  An INSERT on a key that is present is the UNIQUE
      constraint failure; an UPDATE rewrites the rows its WHERE selects.
      Statements are modelled by their effect on rows, for interpolated
      strings that hold no quote character.
    - A transaction is a working copy of the database: Commit installs it,
      Rollback drops it.  [fsys.inodeCnt] lives outside the database and is
      not rolled back.
    - Go's [panic] is the outcome [Panic]; an [error] return is [Err].
    - Remote calls (describe-folder, describe-project, file-new), the POSIX
      fix-up and the manifest's directory skeleton are defined in other
      files of the package; they are fields of an environment record.
      Every remote call made is appended to [remoteLog]. *)

From Stdlib Require Import ZArith String Ascii List Lia Permutation.
From stdpp Require Import gmap strings list fin_maps.

Local Open Scope string_scope.
Local Open Scope Z_scope.

(** ** Go runtime pieces *)

Definition wrap64 (z : Z) : Z := (z + 2 ^ 63) mod 2 ^ 64 - 2 ^ 63.

Definition maxInt64 : Z := 2 ^ 63 - 1.

(** [strings.HasPrefix s prefix]. *)
Definition HasPrefix (s p : string) : bool := String.prefix p s.

(** [s[n:]] on bytes. *)
Fixpoint sliceFrom (n : nat) (s : string) : string :=
  match n, s with
  | O, _ => s
  | S n', String _ s' => sliceFrom n' s'
  | S _, EmptyString => EmptyString
  end.

Definition isSlash (c : ascii) : bool := Ascii.eqb c "/"%char.

Fixpoint hasSlash (s : string) : bool :=
  match s with
  | EmptyString => false
  | String c s' => isSlash c || hasSlash s'
  end.

Fixpoint allSlashes (s : string) : bool :=
  match s with
  | EmptyString => true
  | String c s' => isSlash c && allSlashes s'
  end.

(** [time.Time], as seconds since the Unix epoch.  The zero value of the
    struct is 1 January of year 1, 00:00:00 UTC. *)
Definition GoTime := Z.
Definition zeroTime : GoTime := -62135596800.

(** [time.Unix(t, 0)] *)
Definition SecondsToTime (t : Z) : GoTime := t.
Definition secondsToTime (t : Z) : GoTime := t.

Definition MaxInt64 (x y : Z) : Z := if x <? y then y else x.
Definition MinInt64 (x y : Z) : Z := if x >? y then y else x.

Definition boolToInt (b : bool) : Z := if b then 1 else 0.

(** ** path/filepath on a Unix system *)

Module filepath.

(** [strings.Split(s, "/")] *)
Fixpoint splitSlash (s : string) : list string :=
  match s with
  | EmptyString => [EmptyString]
  | String c s' =>
      if isSlash c then EmptyString :: splitSlash s'
      else match splitSlash s' with
           | [] => [String c EmptyString]
           | h :: t => String c h :: t
           end
  end.

(** [strings.Join(cs, "/")] *)
Fixpoint joinSlash (cs : list string) : string :=
  match cs with
  | [] => ""
  | [c] => c
  | c :: cs' => c ++ "/" ++ joinSlash cs'
  end.

(** One path element of Clean's scan; [stack] holds the elements kept so
    far, last one first. *)
Definition cleanStep (rooted : bool) (stack : list string) (c : string)
  : list string :=
  if String.eqb c "" || String.eqb c "." then stack
  else if String.eqb c ".." then
    match stack with
    | top :: rest => if String.eqb top ".." then c :: stack else rest
    | [] => if rooted then [] else [c]
    end
  else c :: stack.

Definition Clean (path : string) : string :=
  if String.eqb path "" then "."
  else
    let rooted := HasPrefix path "/" in
    let out := rev (fold_left (cleanStep rooted) (splitSlash path) []) in
    let r := (if rooted then "/" else "") ++ joinSlash out in
    if String.eqb r "" then "." else r.

(** The part of [s] up to and including its last slash. *)
Fixpoint uptoLastSlash (s : string) : string :=
  match s with
  | EmptyString => EmptyString
  | String c s' => if hasSlash s then String c (uptoLastSlash s') else EmptyString
  end.

Fixpoint afterLastSlash (s : string) : string :=
  match s with
  | EmptyString => EmptyString
  | String c s' => if hasSlash s then afterLastSlash s' else s
  end.

Fixpoint stripTrailingSlashes (s : string) : string :=
  match s with
  | EmptyString => EmptyString
  | String c s' => if allSlashes s then EmptyString else String c (stripTrailingSlashes s')
  end.

Definition Dir (path : string) : string := Clean (uptoLastSlash path).

Definition Base (path : string) : string :=
  if String.eqb path "" then "."
  else
    let p := afterLastSlash (stripTrailingSlashes path) in
    if String.eqb p "" then "/" else p.

Definition Join (a b : string) : string :=
  match String.eqb a "", String.eqb b "" with
  | true, true => ""
  | true, false => Clean b
  | false, true => Clean a
  | false, false => Clean (a ++ "/" ++ b)
  end.

End filepath.

(** ** Constants of util.go and metadata_db.go *)

Definition InodeInvalid : Z := 0.
Definition InodeRoot : Z := 1.

Definition nsDirType : Z := 1.
Definition nsDataObjType : Z := 2.

Definition dirDoesNotExist : Z := 1.
Definition dirExistsButNotPopulated : Z := 2.
Definition dirExistAndPopulated : Z := 3.

Definition FK_Regular : Z := 10.
Definition FK_Symlink : Z := 11.
Definition FK_Applet : Z := 12.
Definition FK_Workflow : Z := 13.
Definition FK_Record : Z := 14.
Definition FK_Database : Z := 15.
Definition FK_Other : Z := 16.

(** [os.ModeDir] is bit 31 of a FileMode. *)
Definition os_ModeDir : Z := Z.shiftl 1 31.

(** ** Structs *)

Module Options.
Record t := mk {
  ReadOnly : bool;
  Verbose : bool;
  VerboseLevel : Z;
  Uid : Z;
  Gid : Z
}.
End Options.

(** [fuseops.InodeAttributes] *)
Module InodeAttributes.
Record t := mk {
  Size : Z;
  Nlink : Z;
  Mode : Z;
  Atime : GoTime;
  Mtime : GoTime;
  Ctime : GoTime;
  Crtime : GoTime;
  Uid : Z;
  Gid : Z
}.
(** The zero value a named result starts from. *)
Definition zero : t := mk 0 0 0 zeroTime zeroTime zeroTime zeroTime 0 0.
Definition setSize (a : t) v := mk v (Nlink a) (Mode a) (Atime a) (Mtime a) (Ctime a) (Crtime a) (Uid a) (Gid a).
Definition setNlink (a : t) v := mk (Size a) v (Mode a) (Atime a) (Mtime a) (Ctime a) (Crtime a) (Uid a) (Gid a).
Definition setMode (a : t) v := mk (Size a) (Nlink a) v (Atime a) (Mtime a) (Ctime a) (Crtime a) (Uid a) (Gid a).
Definition setMtime (a : t) v := mk (Size a) (Nlink a) (Mode a) (Atime a) v (Ctime a) (Crtime a) (Uid a) (Gid a).
Definition setCtime (a : t) v := mk (Size a) (Nlink a) (Mode a) (Atime a) (Mtime a) v (Crtime a) (Uid a) (Gid a).
Definition setCrtime (a : t) v := mk (Size a) (Nlink a) (Mode a) (Atime a) (Mtime a) (Ctime a) v (Uid a) (Gid a).
Definition setUid (a : t) v := mk (Size a) (Nlink a) (Mode a) (Atime a) (Mtime a) (Ctime a) (Crtime a) v (Gid a).
Definition setGid (a : t) v := mk (Size a) (Nlink a) (Mode a) (Atime a) (Mtime a) (Ctime a) (Crtime a) (Uid a) v.
End InodeAttributes.

Module Dir.
Record t := mk {
  Parent : string;
  Dname : string;
  FullPath : string;
  Inode : Z;
  Ctime : GoTime;
  Mtime : GoTime;
  Mode : Z;
  Uid : Z;
  Gid : Z;
  ProjId : string;
  ProjFolder : string;
  Populated : bool
}.

(** util.go, [func (d Dir) GetAttrs() (a fuseops.InodeAttributes)]: the
    statements in order, on the named result [a]. *)
Definition GetAttrs (d : t) : InodeAttributes.t :=
  let a := InodeAttributes.zero in
  let a := InodeAttributes.setSize a 4096 in
  let a := InodeAttributes.setNlink a 1 in
  let a := InodeAttributes.setMtime a (InodeAttributes.Mtime a) in
  let a := InodeAttributes.setCtime a (InodeAttributes.Ctime a) in
  let a := InodeAttributes.setMode a (Z.lor os_ModeDir (Mode d)) in
  let a := InodeAttributes.setCrtime a (InodeAttributes.Ctime a) in
  let a := InodeAttributes.setUid a (Uid d) in
  let a := InodeAttributes.setGid a (Gid d) in
  a.

(** [fuseops.InodeID(d.Inode)]: Go's conversion of an int64 to a uint64. *)
Definition GetInode (d : t) : Z := Inode d mod 2 ^ 64.
End Dir.

Module File.
Record t := mk {
  Kind : Z;
  Id : string;
  ProjId : string;
  Name : string;
  Size : Z;
  Inode : Z;
  Ctime : GoTime;
  Mtime : GoTime;
  Mode : Z;
  Nlink : Z;
  Uid : Z;
  Gid : Z;
  InlineData : string
}.

(** [uint64(f.Size)] and [uint32(f.Nlink)] are the conversions of Go. *)
Definition GetAttrs (f : t) : InodeAttributes.t :=
  let a := InodeAttributes.zero in
  let a := InodeAttributes.setSize a (Size f mod 2 ^ 64) in
  let a := InodeAttributes.setNlink a (Nlink f mod 2 ^ 32) in
  let a := InodeAttributes.setMtime a (Mtime f) in
  let a := InodeAttributes.setCtime a (Ctime f) in
  let a := InodeAttributes.setMode a (Mode f) in
  let a := InodeAttributes.setCrtime a (Ctime f) in
  let a := InodeAttributes.setUid a (Uid f) in
  let a := InodeAttributes.setGid a (Gid f) in
  a.

(** [fuseops.InodeID(f.Inode)]: Go's conversion of an int64 to a uint64. *)
Definition GetInode (f : t) : Z := Inode f mod 2 ^ 64.
End File.

(** The [Node] interface, with its two implementations. *)
Inductive Node : Type :=
| NodeDir (d : Dir.t)
| NodeFile (f : File.t).

Definition Node_GetAttrs (n : Node) : InodeAttributes.t :=
  match n with
  | NodeDir d => Dir.GetAttrs d
  | NodeFile f => File.GetAttrs f
  end.

Definition Node_GetInode (n : Node) : Z :=
  match n with
  | NodeDir d => Dir.GetInode d
  | NodeFile f => File.GetInode f
  end.

Module DirInfo.
Record t := mk {
  inode : Z;
  projId : string;
  projFolder : string;
  ctime : Z;
  mtime : Z
}.
End DirInfo.

(** The description of a remote data object.  The struct is declared in
    dx_describe.go; these are the fields metadata_db.go reads. *)
Module DxDescribeDataObject.
Record t := mk {
  Id : string;
  ProjId : string;
  Name : string;
  Size : Z;
  CtimeSeconds : Z;
  MtimeSeconds : Z;
  SymlinkPath : string
}.
End DxDescribeDataObject.

(** The result of describing a folder: [dataObjects] and [subdirs]. *)
Module DxFolder.
Record t := mk {
  dataObjects : list DxDescribeDataObject.t;
  subdirs : list string
}.
End DxFolder.

(** The result of the POSIX fix-up.  [fauxSubdirs] is a Go map; it is
    carried as its entries in the order [range] yields them. *)
Module PosixDir.
Record t := mk {
  dataObjects : list DxDescribeDataObject.t;
  subdirs : list string;
  fauxSubdirs : list (string * list DxDescribeDataObject.t)
}.
End PosixDir.

(** ** The database *)

Record DataObjRow := mkDataObjRow {
  do_kind : Z;
  do_id : string;
  do_proj_id : string;
  do_size : Z;
  do_ctime : Z;
  do_mtime : Z;
  do_nlink : Z;
  do_inline_data : string
}.

Record NsRow := mkNsRow {
  ns_obj_type : Z;
  ns_inode : Z
}.

Record DirRow := mkDirRow {
  dr_proj_id : string;
  dr_proj_folder : string;
  dr_populated : Z;
  dr_ctime : Z;
  dr_mtime : Z
}.

Record DB := mkDB {
  data_objects : gmap Z DataObjRow;
  namespace : gmap (string * string) NsRow;
  directories : gmap Z DirRow
}.

Definition emptyDB : DB := mkDB ∅ ∅ ∅.

#[global] Instance DataObjRow_eq_dec : EqDecision DataObjRow.
Proof. solve_decision. Defined.
#[global] Instance NsRow_eq_dec : EqDecision NsRow.
Proof. solve_decision. Defined.
#[global] Instance DirRow_eq_dec : EqDecision DirRow.
Proof. solve_decision. Defined.

(** ** Outcomes *)

Inductive Error : Type :=
| ENOENT
| EEXIST
| EPERM
| SqlUnique (table : string)
| RemoteError (msg : string)
| OtherError (msg : string).

Inductive Res (A : Type) : Type :=
| Ok (a : A)
| Err (e : Error)
| Panic (msg : string).
Arguments Ok {A} a.
Arguments Err {A} e.
Arguments Panic {A} msg.

Definition isOk {A} (r : Res A) : bool :=
  match r with Ok _ => true | _ => false end.

(** State passing with early exit on an error or a panic. *)
Definition M (S A : Type) : Type := S -> Res A * S.

Definition ret {S A} (a : A) : M S A := fun s => (Ok a, s).

Definition bind {S A B} (c : M S A) (k : A -> M S B) : M S B :=
  fun s =>
    match c s with
    | (Ok a, s') => k a s'
    | (Err e, s') => (Err e, s')
    | (Panic m, s') => (Panic m, s')
    end.

Definition fail {S A} (e : Error) : M S A := fun s => (Err e, s).
Definition panic {S A} (m : string) : M S A := fun s => (Panic m, s).

(** A computation that only reads the state. *)
Definition liftRes {S A} (r : S -> Res A) : M S A := fun s => (r s, s).

Notation "'do' x <- c ; k" := (bind c (fun x => k))
  (at level 10, x name, c at level 100, k at level 200).

(** [for _, x := range xs { if err := body x; err != nil { return err } }] *)
Fixpoint forEach {S A} (body : A -> M S unit) (xs : list A) : M S unit :=
  match xs with
  | [] => ret tt
  | x :: xs' => do _ <- body x; forEach body xs'
  end.

(** ** Statements on the tables *)

(** Every statement is built with [fmt.Sprintf], each string between
    single quotes.  The definitions below are what sqlite makes of the
    statement when every string put into it is [sqlText]: one with no
    quote character, which would end the literal, and no NUL, which would
    end the statement.  For other strings the statement of the code is
    another one, or none. *)
Definition sqlChar (c : ascii) : bool :=
  negb (Ascii.eqb c "'"%char) && negb (Ascii.eqb c "000"%char).

Definition sqlText (s : string) : bool :=
  forallb sqlChar (list_ascii_of_string s).

(** The column [inline_data] is declared [string], which gives it NUMERIC
    affinity (the other columns of strings are declared [text]): a text
    that reads as a number (digits with an optional sign, point and
    exponent, blanks around them) is stored as that number, and read back
    as the number prints.  The rows below hold the text as it was written.
    That is what the column gives back for every text that is
    [keptAsText]: one with no digit, or with a character that no number
    has. *)
Definition isDigit (c : ascii) : bool :=
  (48 <=? nat_of_ascii c)%nat && (nat_of_ascii c <=? 57)%nat.

Definition numberChar (c : ascii) : bool :=
  isDigit c
  || existsb (Ascii.eqb c)
       ["+"; "-"; "."; "e"; "E"; " "; "009"; "010"; "011"; "012"; "013"]%char.

Definition keptAsText (s : string) : bool :=
  negb (forallb numberChar (list_ascii_of_string s)
        && existsb isDigit (list_ascii_of_string s)).

(** The three INSERTs, for [sqlText] strings: the one failure left is the
    UNIQUE constraint of the primary key. *)
Definition insert_data_objects (inode : Z) (r : DataObjRow) (d : DB) : Res DB :=
  match data_objects d !! inode with
  | Some _ => Err (SqlUnique "data_objects")
  | None => Ok (mkDB (<[inode := r]> (data_objects d)) (namespace d) (directories d))
  end.

Definition insert_namespace (parent name : string) (r : NsRow) (d : DB) : Res DB :=
  match namespace d !! (parent, name) with
  | Some _ => Err (SqlUnique "namespace")
  | None => Ok (mkDB (data_objects d) (<[(parent, name) := r]> (namespace d)) (directories d))
  end.

Definition insert_directories (inode : Z) (r : DirRow) (d : DB) : Res DB :=
  match directories d !! inode with
  | Some _ => Err (SqlUnique "directories")
  | None => Ok (mkDB (data_objects d) (namespace d) (<[inode := r]> (directories d)))
  end.

Definition set_nlink (n : Z) (r : DataObjRow) : DataObjRow :=
  mkDataObjRow (do_kind r) (do_id r) (do_proj_id r) (do_size r) (do_ctime r)
    (do_mtime r) n (do_inline_data r).

(** [UPDATE data_objects SET nlink = n WHERE id = fId] *)
Definition update_nlink_by_id (fId : string) (n : Z) (d : DB) : DB :=
  mkDB ((fun r => if decide (do_id r = fId) then set_nlink n r else r) <$> data_objects d)
    (namespace d) (directories d).

Definition set_populated (r : DirRow) : DirRow :=
  mkDirRow (dr_proj_id r) (dr_proj_folder r) 1 (dr_ctime r) (dr_mtime r).

(** [UPDATE directories SET populated = '1' WHERE inode = dinode] *)
Definition update_populated (dinode : Z) (d : DB) : DB :=
  mkDB (data_objects d) (namespace d) (alter set_populated dinode (directories d)).

Definition set_size_mtime (sz mt : Z) (r : DataObjRow) : DataObjRow :=
  mkDataObjRow (do_kind r) (do_id r) (do_proj_id r) sz (do_ctime r)
    mt (do_nlink r) (do_inline_data r).

(** [UPDATE data_objects SET size = sz, mtime = mt WHERE inode = i] *)
Definition update_size_mtime (i sz mt : Z) (d : DB) : DB :=
  mkDB (alter (set_size_mtime sz mt) i (data_objects d)) (namespace d) (directories d).

(** [SELECT ... FROM data_objects WHERE id = fId] *)
Definition select_by_id (fId : string) (d : DB) : list (Z * DataObjRow) :=
  map_to_list (filter (fun kr => do_id kr.2 = fId) (data_objects d)).

(** ** metadata_db.go *)

Definition splitPath (fullPath : string) : string * string :=
  if String.eqb fullPath "/" then ("", "/")
  else (filepath.Dir fullPath, filepath.Base fullPath).

(** The tables after [metadataDbInitCore] ran on a new database file:
    the root directory, not populated, stamped with [time.Now()]. *)
Definition metadataDbInitCore (now : Z) : DB :=
  mkDB ∅
    {[ ("", "/") := mkNsRow nsDirType InodeRoot ]}
    {[ InodeRoot := mkDirRow "" "" (boolToInt false) now now ]}.

(** What an open transaction works on: its copy of the tables, and
    [fsys.inodeCnt], which the calls below advance. *)
Record TxState := mkTx {
  tx : DB;
  cnt : Z
}.

Definition allocInodeNum : M TxState Z :=
  fun st => let c := wrap64 (cnt st + 1) in (Ok c, mkTx (tx st) c).

(** One statement of the transaction. *)
Definition exec (stmt : DB -> Res DB) : M TxState unit :=
  fun st =>
    match stmt (tx st) with
    | Ok d => (Ok tt, mkTx d (cnt st))
    | Err e => (Err e, st)
    | Panic m => (Panic m, st)
    end.

(** The SELECT by Id, for an [sqlText] Id.  The code returns the error of
    a query that sqlite refuses, which it does for an Id that breaks the
    statement. *)
Definition lookupDataObjectInodeById (txn : DB) (fId : string) : Res (Z * Z) :=
  match select_by_id fId txn with
  | [] => Ok (InodeInvalid, 0)
  | [(inode, r)] => Ok (inode, do_nlink r)
  | _ => Panic "Found several data-objects with one Id"
  end.

Definition createDataObject (kind : Z) (projId objId : string)
    (size ctime mtime : Z) (parentDir fname inlineData : string) : M TxState Z :=
  do found <- liftRes (fun st => lookupDataObjectInodeById (tx st) objId);
  let '(inode, nlink) := found in
  do inode <-
    (if inode =? InodeInvalid then
       do inode <- allocInodeNum;
       do _ <- exec (insert_data_objects inode
                       (mkDataObjRow kind objId projId size ctime mtime 1 inlineData));
       ret inode
     else
       do _ <- exec (fun d => Ok (update_nlink_by_id objId (wrap64 (nlink + 1)) d));
       ret inode);
  do _ <- exec (insert_namespace parentDir fname (mkNsRow nsDataObjType inode));
  ret inode.

Definition createEmptyDir (projId projFolder : string) (ctime mtime : Z)
    (dirPath : string) (populated : bool) : M TxState Z :=
  match dirPath with
  | EmptyString => panic "index out of range"
  | String c _ =>
      if negb (isSlash c) then panic "directory must start with a slash"
      else
        do inode <- allocInodeNum;
        let '(parentDir, basename) := splitPath dirPath in
        do _ <- exec (insert_namespace parentDir basename (mkNsRow nsDirType inode));
        do _ <- exec (insert_directories inode
                        (mkDirRow projId projFolder (boolToInt populated) ctime mtime));
        ret inode
  end.

Definition setDirectoryToPopulated (dinode : Z) : M TxState unit :=
  exec (fun d => Ok (update_populated dinode d)).

Definition kindOfFile (o : DxDescribeDataObject.t) : Z :=
  let kind := 0 in
  let kind :=
    if HasPrefix (DxDescribeDataObject.Id o) "file-" then FK_Regular
    else if HasPrefix (DxDescribeDataObject.Id o) "applet-" then FK_Applet
    else if HasPrefix (DxDescribeDataObject.Id o) "workflow-" then FK_Workflow
    else if HasPrefix (DxDescribeDataObject.Id o) "record-" then FK_Record
    else if HasPrefix (DxDescribeDataObject.Id o) "database-" then FK_Database
    else kind in
  let kind := if kind =? 0 then FK_Other else kind in
  if (kind =? FK_Regular) && (0 <? String.length (DxDescribeDataObject.SymlinkPath o))%nat
  then FK_Symlink else kind.

Definition inlineDataOfFile (kind : Z) (o : DxDescribeDataObject.t) : string :=
  let kind :=
    if (kind =? FK_Regular) && (0 <? String.length (DxDescribeDataObject.SymlinkPath o))%nat
    then FK_Symlink else kind in
  if kind =? FK_Symlink then DxDescribeDataObject.SymlinkPath o else "".

(** The body of populateDir's first loop. *)
Definition populateDir_object (dirPath : string) (o : DxDescribeDataObject.t)
  : M TxState unit :=
  let kind := kindOfFile o in
  let inlineData := inlineDataOfFile kind o in
  do _ <- createDataObject kind
            (DxDescribeDataObject.ProjId o) (DxDescribeDataObject.Id o)
            (DxDescribeDataObject.Size o)
            (DxDescribeDataObject.CtimeSeconds o) (DxDescribeDataObject.MtimeSeconds o)
            dirPath (DxDescribeDataObject.Name o) inlineData;
  ret tt.

(** The body of its second loop. *)
Definition populateDir_subdir (projId projFolder : string) (ctime mtime : Z)
    (dirPath subDirName : string) : M TxState unit :=
  do _ <- createEmptyDir projId (filepath.Clean (projFolder ++ "/" ++ subDirName))
            ctime mtime (filepath.Clean (dirPath ++ "/" ++ subDirName)) false;
  ret tt.

(** The result of [setDirectoryToPopulated] is dropped at the end. *)
Definition populateDir (dinode : Z) (projId projFolder : string) (ctime mtime : Z)
    (dirPath : string) (dxObjs : list DxDescribeDataObject.t) (subdirs : list string)
  : M TxState unit :=
  do _ <- forEach (populateDir_object dirPath) dxObjs;
  do _ <- forEach (populateDir_subdir projId projFolder ctime mtime dirPath) subdirs;
  fun st => (Ok tt, snd (setDirectoryToPopulated dinode st)).

(** ** The filesystem object and its environment *)

(** Modelled from the spec: the description of a project, whose type is
    declared in dx_describe.go.  Of the project's permission only whether
    the project is read-only is kept, which is what section 4.4 of the
    spec tests. *)
Module DxDescribePrj.
Record t := mk {
  Id : string;
  ReadOnly : bool
}.
End DxDescribePrj.

(** The manifest.  The structs are declared in manifest.go; these are the
    fields MetadataDbPopulateRoot reads. *)
Module ManifestFile.
Record t := mk {
  ProjId : string;
  FileId : string;
  Parent : string;
  Fname : string;
  Size : Z;
  CtimeSeconds : Z;
  MtimeSeconds : Z
}.
End ManifestFile.

Module ManifestDir.
Record t := mk {
  ProjId : string;
  Folder : string;
  Dirname : string;
  CtimeSeconds : Z;
  MtimeSeconds : Z
}.
End ManifestDir.

Module Manifest.
Record t := mk {
  Files : list ManifestFile.t;
  Directories : list ManifestDir.t
}.
End Manifest.

Inductive RemoteCall : Type :=
| CallDescribeFolder (projId projFolder : string)
| CallDescribeProject (projId : string)
| CallFileNew (nonce projId fname folder : string).

(** The answer of a function defined elsewhere in the package: a value,
    or an [error] of its own making (never one of the errno values
    above). *)
Inductive Reply (A : Type) : Type :=
| Got (a : A)
| Failed (msg : string).
Arguments Got {A} a.
Arguments Failed {A} msg.

Definition ofReply {A} (wrap : string -> Error) (r : Reply A) : Res A :=
  match r with
  | Got a => Ok a
  | Failed msg => Err (wrap msg)
  end.

(** What the code obtains from elsewhere. [rangeOrder] is the order in
    which [range] walks a Go map, which the language leaves open. *)
Record Env := mkEnv {
  DxDescribeFolder : string -> string -> Reply DxFolder.t;
  PosixFixDir : DxFolder.t -> Reply PosixDir.t;
  DxFileNew : string -> string -> string -> string -> Reply string;
  DxDescribeProject : string -> Reply DxDescribePrj.t;
  DirSkeleton : Manifest.t -> Reply (list string);
  nonceString : string;
  timeNow : Z;
  rangeOrder : gmap string string -> list (string * string)
}.

Record Filesys := mkFilesys {
  options : Options.t;
  db : DB;
  inodeCnt : Z;
  baseDir2ProjectId : gmap string string;
  projId2Desc : gmap string DxDescribePrj.t;
  remoteLog : list RemoteCall
}.

Definition logCall (c : RemoteCall) (fsys : Filesys) : Filesys :=
  mkFilesys (options fsys) (db fsys) (inodeCnt fsys) (baseDir2ProjectId fsys)
    (projId2Desc fsys) (remoteLog fsys ++ [c]).

(** [txn.Commit()]: the working copy becomes the database. *)
Definition commit (st : TxState) (fsys : Filesys) : Filesys :=
  mkFilesys (options fsys) (tx st) (cnt st) (baseDir2ProjectId fsys)
    (projId2Desc fsys) (remoteLog fsys).

(** [txn.Rollback()]: the working copy is dropped; the inode counter
    keeps the value the transaction left. *)
Definition rollback (st : TxState) (fsys : Filesys) : Filesys :=
  mkFilesys (options fsys) (db fsys) (cnt st) (baseDir2ProjectId fsys)
    (projId2Desc fsys) (remoteLog fsys).

(** [txn, _ := fsys.db.Begin()], the calls of [body] on [txn], then
    Rollback on an error and Commit otherwise.  A panic ends the process
    with the transaction open, which leaves the database as it was. *)
Definition inTxn {A} (body : M TxState A) : M Filesys A :=
  fun fsys =>
    match body (mkTx (db fsys) (inodeCnt fsys)) with
    | (Ok a, st) => (Ok a, commit st fsys)
    | (Err e, st) => (Err e, rollback st fsys)
    | (Panic m, st) => (Panic m, rollback st fsys)
    end.

(** A call to the platform: logged, its result passed on. *)
Definition remote {A} (c : RemoteCall) (r : Reply A) : M Filesys A :=
  fun fsys => (ofReply RemoteError r, logCall c fsys).

(** The body of the loop over [posixDir.fauxSubdirs]. *)
Definition fauxSubdir (projId : string) (ctimeApprox mtimeApprox : Z)
    (dirFullName : string) (entry : string * list DxDescribeDataObject.t)
  : M TxState unit :=
  let fauxDirPath := filepath.Clean (dirFullName ++ "/" ++ entry.1) in
  do fauxDirInode <- createEmptyDir projId "" ctimeApprox mtimeApprox fauxDirPath true;
  populateDir fauxDirInode projId "" ctimeApprox mtimeApprox fauxDirPath entry.2 [].

Definition ctimeApproxOf (ctime : Z) (objs : list DxDescribeDataObject.t) : Z :=
  fold_left (fun acc f => MinInt64 acc (DxDescribeDataObject.CtimeSeconds f)) objs ctime.

Definition mtimeApproxOf (mtime : Z) (objs : list DxDescribeDataObject.t) : Z :=
  fold_left (fun acc f => MaxInt64 acc (DxDescribeDataObject.MtimeSeconds f)) objs mtime.

Definition directoryReadFromDNAx (env : Env) (dinode : Z) (projId projFolder : string)
    (ctime mtime : Z) (dirFullName : string) : M Filesys unit :=
  do dxDir <- remote (CallDescribeFolder projId projFolder)
                (DxDescribeFolder env projId projFolder);
  let ctimeApprox := ctimeApproxOf ctime (DxFolder.dataObjects dxDir) in
  let mtimeApprox := mtimeApproxOf mtime (DxFolder.dataObjects dxDir) in
  do posixDir <- liftRes (fun _ => ofReply OtherError (PosixFixDir env dxDir));
  inTxn
    (do _ <- populateDir dinode projId projFolder ctimeApprox mtimeApprox dirFullName
               (PosixDir.dataObjects posixDir) (PosixDir.subdirs posixDir);
     forEach (fauxSubdir projId ctimeApprox mtimeApprox dirFullName)
       (PosixDir.fauxSubdirs posixDir)).

(** The two SELECTs, for a path whose parts are [sqlText].  The code
    panics on a query that sqlite refuses, which it does for a path that
    breaks the statement. *)
Definition directoryLookup (fsys : Filesys) (dirPath : string)
  : Res (Z * option DirInfo.t) :=
  let '(parentDir, basename) := splitPath dirPath in
  match namespace (db fsys) !! (parentDir, basename) with
  | None => Ok (dirDoesNotExist, None)
  | Some r =>
      if negb (ns_obj_type r =? nsDirType) then Ok (dirDoesNotExist, None)
      else
        match directories (db fsys) !! ns_inode r with
        | None => Panic "directory found in namespace but not in table"
        | Some dr =>
            let dInfo := DirInfo.mk (ns_inode r) (dr_proj_id dr) (dr_proj_folder dr)
                           (dr_ctime dr) (dr_mtime dr) in
            if dr_populated dr =? 0 then Ok (dirExistsButNotPopulated, Some dInfo)
            else if dr_populated dr =? 1 then Ok (dirExistAndPopulated, Some dInfo)
            else Panic "illegal value for populated field"
        end
  end.

(** [directoryReadFromDNAx] on the fields of a [*DirInfo]. *)
Definition readFromDNAxOf (env : Env) (dInfo : option DirInfo.t) (dirPath : string)
  : M Filesys unit :=
  match dInfo with
  | None => panic "nil pointer dereference"
  | Some i =>
      directoryReadFromDNAx env (DirInfo.inode i) (DirInfo.projId i)
        (DirInfo.projFolder i) (DirInfo.ctime i) (DirInfo.mtime i) dirPath
  end.

Definition directoryExists (env : Env) (dirPath : string)
  : M Filesys (Z * option DirInfo.t) :=
  if String.eqb dirPath "/" then liftRes (fun fsys => directoryLookup fsys dirPath)
  else
    let parentDir := filepath.Dir dirPath in
    do found <- liftRes (fun fsys => directoryLookup fsys parentDir);
    let '(retCode, parentDirInfo) := found in
    if retCode =? dirDoesNotExist then
      panic "Accessing directory even though parent has not been accessed"
    else
      do _ <-
        (if retCode =? dirExistsButNotPopulated then
           if String.eqb parentDir "/" then
             panic "The subdirectory should not inherit ctime/mtime from root"
           else readFromDNAxOf env parentDirInfo parentDir
         else ret tt);
      liftRes (fun fsys => directoryLookup fsys dirPath).

Definition dirOfRow (dirFullName dname : string) (inode : Z) (dr : DirRow) : Dir.t :=
  Dir.mk dirFullName dname (filepath.Join dirFullName dname) inode
    (secondsToTime (dr_ctime dr)) (secondsToTime (dr_mtime dr))
    0 0 0 "" "" false.

Definition fileOfRow (oname : string) (inode : Z) (r : DataObjRow) : File.t :=
  File.mk (do_kind r) (do_id r) (do_proj_id r) oname (do_size r) inode
    (secondsToTime (do_ctime r)) (secondsToTime (do_mtime r))
    0 (do_nlink r) 0 0 (do_inline_data r).

(** The two joins of [directoryReadAllEntries], over the namespace rows
    under [dirFullName]. *)
Definition directoryReadAllEntries (fsys : Filesys) (dirFullName : string)
  : Res (gmap string File.t * gmap string Dir.t) :=
  let rows := map_to_list (namespace (db fsys)) in
  let subdirs : gmap string Dir.t :=
    list_to_map (omap (fun kr : (string * string) * NsRow =>
      if String.eqb kr.1.1 dirFullName && (ns_obj_type kr.2 =? nsDirType) then
        match directories (db fsys) !! ns_inode kr.2 with
        | Some dr => Some (kr.1.2, dirOfRow dirFullName kr.1.2 (ns_inode kr.2) dr)
        | None => None
        end
      else None) rows) in
  let files : gmap string File.t :=
    list_to_map (omap (fun kr : (string * string) * NsRow =>
      if String.eqb kr.1.1 dirFullName && (ns_obj_type kr.2 =? nsDataObjType) then
        match data_objects (db fsys) !! ns_inode kr.2 with
        | Some r => Some (kr.1.2, fileOfRow kr.1.2 (ns_inode kr.2) r)
        | None => None
        end
      else None) rows) in
  Ok (files, subdirs).

Definition MetadataDbReadDirAll (env : Env) (dirFullName : string)
  : M Filesys (gmap string File.t * gmap string Dir.t) :=
  do found <- directoryExists env dirFullName;
  let '(retCode, dInfo) := found in
  do _ <-
    (if retCode =? dirDoesNotExist then fail ENOENT
     else if retCode =? dirExistsButNotPopulated then
       readFromDNAxOf env dInfo dirFullName
     else if retCode =? dirExistAndPopulated then ret tt
     else panic "Bad return code");
  liftRes (fun fsys => directoryReadAllEntries fsys dirFullName).

Definition lookupDir (fsys : Filesys) (dirFullName dname : string) (dinode : Z)
  : Res Dir.t :=
  match directories (db fsys) !! dinode with
  | None => Panic "Directory should exist in the directories table, but doesn't exist"
  | Some dr => Ok (dirOfRow dirFullName dname dinode dr)
  end.

Definition lookupDataObjectShouldExist (fsys : Filesys) (dirFullName oname : string)
    (inode : Z) : Res File.t :=
  match data_objects (db fsys) !! inode with
  | None => Panic "File should exist in the data_objects table, but doesn't exist"
  | Some r => Ok (fileOfRow oname inode r)
  end.

(** The SELECT on the namespace, for [sqlText] names.  The code returns
    the error of a query that sqlite refuses, which it does for a name
    that breaks the statement. *)
Definition fastLookup (fsys : Filesys) (dirFullName dirOrFileName : string)
  : Res Node :=
  match namespace (db fsys) !! (dirFullName, dirOrFileName) with
  | None => Err ENOENT
  | Some r =>
      if ns_obj_type r =? nsDirType then
        match lookupDir fsys dirFullName dirOrFileName (ns_inode r) with
        | Ok d => Ok (NodeDir d)
        | Err e => Err e
        | Panic m => Panic m
        end
      else if ns_obj_type r =? nsDataObjType then
        match lookupDataObjectShouldExist fsys dirFullName dirOrFileName (ns_inode r) with
        | Ok f => Ok (NodeFile f)
        | Err e => Err e
        | Panic m => Panic m
        end
      else Panic "Invalid object type"
  end.

Definition MetadataDbLookupInDir (env : Env) (parentDir dirOrFileName : string)
  : M Filesys Node :=
  do found <- directoryExists env parentDir;
  let '(retCode, _) := found in
  do _ <-
    (if retCode =? dirDoesNotExist then fail ENOENT
     else if retCode =? dirExistsButNotPopulated then
       do _ <- MetadataDbReadDirAll env parentDir; ret tt
     else if retCode =? dirExistAndPopulated then ret tt
     else panic "Bad return code");
  liftRes (fun fsys => fastLookup fsys parentDir dirOrFileName).

(** The loop of [projectIdAndFolder] over the entries of
    [fsys.baseDir2ProjectId], in the order [range] yields them. *)
Fixpoint projectIdAndFolder_range (entries : list (string * string))
    (dirname : string) : Res (string * string) :=
  match entries with
  | [] => Panic "directory does not belong to any project"
  | (baseDir, projId) :: rest =>
      if HasPrefix dirname baseDir then
        let folderInProject := sliceFrom (String.length baseDir) dirname in
        let folderInProject :=
          if negb (HasPrefix folderInProject "/") then "/" ++ folderInProject
          else folderInProject in
        Ok (projId, folderInProject)
      else projectIdAndFolder_range rest dirname
  end.

Definition projectIdAndFolder (env : Env) (fsys : Filesys) (dirname : string)
  : Res (string * string) :=
  projectIdAndFolder_range (rangeOrder env (baseDir2ProjectId fsys)) dirname.

Definition CreateFile (env : Env) (dir : Dir.t) (fname localPath : string)
  : M Filesys File.t :=
  fun fsys =>
    match MetadataDbLookupInDir env (Dir.FullPath dir) fname fsys with
    | (Ok _, fsys1) => (Err EEXIST, fsys1)
    | (Panic m, fsys1) => (Panic m, fsys1)
    | (Err e, fsys1) =>
        match e with
        | ENOENT =>
            (do target <- liftRes (fun fsys => projectIdAndFolder env fsys (Dir.FullPath dir));
             let '(projId, folder) := target in
             do fileId <- remote (CallFileNew (nonceString env) projId fname folder)
                            (DxFileNew env (nonceString env) projId fname folder);
             let nowSeconds := timeNow env in
             do inode <- inTxn (createDataObject FK_Regular projId fileId 0
                                  nowSeconds nowSeconds (Dir.FullPath dir) fname localPath);
             ret (File.mk FK_Regular fileId projId fname 0 inode
                    (secondsToTime nowSeconds) (secondsToTime nowSeconds)
                    0 1 0 0 localPath)) fsys1
        | _ => (Err e, fsys1)
        end
    end.

(** [fInfo.Size()] and [fInfo.ModTime().Unix()] are the two numbers. *)
Definition MetadataDbUpdateFile (f : File.t) (fInfoSize fInfoModTime : Z)
  : M Filesys unit :=
  inTxn (exec (fun d => Ok (update_size_mtime (File.Inode f) fInfoSize fInfoModTime d))).

Definition setBaseDirs (m : gmap string string) (fsys : Filesys) : Filesys :=
  mkFilesys (options fsys) (db fsys) (inodeCnt fsys) m (projId2Desc fsys) (remoteLog fsys).

Definition setProjDesc (pDesc : DxDescribePrj.t) (fsys : Filesys) : Filesys :=
  mkFilesys (options fsys) (db fsys) (inodeCnt fsys) (baseDir2ProjectId fsys)
    (<[DxDescribePrj.Id pDesc := pDesc]> (projId2Desc fsys)) (remoteLog fsys).

(** The body of MetadataDbPopulateRoot's loop over [manifest.Files]. *)
Definition populateRoot_file (fl : ManifestFile.t) : M TxState unit :=
  do _ <- createDataObject FK_Regular (ManifestFile.ProjId fl)
            (ManifestFile.FileId fl) (ManifestFile.Size fl)
            (ManifestFile.CtimeSeconds fl) (ManifestFile.MtimeSeconds fl)
            (ManifestFile.Parent fl) (ManifestFile.Fname fl) "";
  ret tt.

Definition MetadataDbPopulateRoot (env : Env) (manifest : Manifest.t)
  : M Filesys unit :=
  fun fsys =>
    let fsys :=
      setBaseDirs
        (fold_left (fun m d => <[ManifestDir.Dirname d := ManifestDir.ProjId d]> m)
           (Manifest.Directories manifest) (baseDir2ProjectId fsys)) fsys in
    (do _ <- forEach (fun entry : string * string =>
               do pDesc <- remote (CallDescribeProject entry.2)
                             (DxDescribeProject env entry.2);
               fun fsys => (Ok tt, setProjDesc pDesc fsys))
             (rangeOrder env (baseDir2ProjectId fsys));
     do dirSkel <- liftRes (fun _ => ofReply OtherError (DirSkeleton env manifest));
     let nowSeconds := timeNow env in
     inTxn
       (do _ <- forEach (fun d =>
                  do _ <- createEmptyDir "" "" nowSeconds nowSeconds d true; ret tt)
                dirSkel;
        do _ <- forEach populateRoot_file (Manifest.Files manifest);
        do _ <- forEach (fun d =>
                  do _ <- createEmptyDir (ManifestDir.ProjId d) (ManifestDir.Folder d)
                            (ManifestDir.CtimeSeconds d) (ManifestDir.MtimeSeconds d)
                            (ManifestDir.Dirname d) false;
                  ret tt)
                (Manifest.Directories manifest);
        setDirectoryToPopulated InodeRoot)) fsys.

(** ** The longest-prefix match, as the spec words it

    Among the base directories that are a prefix of [dirname], the longest;
    the folder is what follows it in [dirname], with a leading slash. *)
Definition longestPrefixEntry (entries : list (string * string)) (dirname : string)
  : option (string * string) :=
  fold_left
    (fun best entry =>
       if HasPrefix dirname entry.1 then
         match best with
         | Some b => if (String.length b.1 <? String.length entry.1)%nat
                     then Some entry else best
         | None => Some entry
         end
       else best)
    entries None.

Definition longestPrefixProjectAndFolder (m : gmap string string) (dirname : string)
  : option (string * string) :=
  match longestPrefixEntry (map_to_list m) dirname with
  | Some (baseDir, projId) =>
      let rest := sliceFrom (String.length baseDir) dirname in
      Some (projId, if HasPrefix rest "/" then rest else "/" ++ rest)
  | None => None
  end.

(** ** The dispatch layer's create *)

(** Modelled from the spec: whether a create under the directory targets
    a read-only project.  Section 4.4 of the spec derives the target
    project from the parent "via longest-prefix match against the
    manifest's base-directory -> project map"; the project's description
    is the one MetadataDbPopulateRoot keeps in [projId2Desc].  The check
    is part of the create entry point of dxfuse.go, which is missing
    here. *)
Definition projectIsReadOnly (fsys : Filesys) (dir : Dir.t) : bool :=
  match longestPrefixProjectAndFolder (baseDir2ProjectId fsys) (Dir.FullPath dir) with
  | Some (projId, _) =>
      match projId2Desc fsys !! projId with
      | Some pDesc => DxDescribePrj.ReadOnly pDesc
      | None => false
      end
  | None => false
  end.

(** Modelled from the spec: the create entry point of the dispatch layer
    (dxfuse.go), which is missing here; only [CreateFile], which it
    calls, is at hand.  Section 4.4 of the spec: [Create(parent_inode,
    name, mode)] denies on read-only projects or a read-only mount, and
    otherwise goes on to the remote file-new and the metadata insert,
    which is [CreateFile]. *)
Definition Create (env : Env) (dir : Dir.t) (name localPath : string)
  : M Filesys File.t :=
  fun fsys =>
    if Options.ReadOnly (options fsys) || projectIsReadOnly fsys dir
    then (Err EPERM, fsys)
    else CreateFile env dir name localPath fsys.

(** ** The root directory *)

(** [SELECT parent, name, obj_type FROM namespace WHERE inode = i] *)
Definition select_namespace_by_inode (i : Z) (d : DB)
  : list ((string * string) * NsRow) :=
  map_to_list (filter (fun kr : (string * string) * NsRow => ns_inode kr.2 = i)
                 (namespace d)).

Definition MetadataDbRoot (fsys : Filesys) : Res Dir.t :=
  match select_namespace_by_inode InodeRoot (db fsys) with
  | [] => Err (OtherError "Could not find root directory")
  | [(_, r)] =>
      if negb (ns_obj_type r =? nsDirType) then Panic "root node has the wrong type"
      else lookupDir fsys "/" "/" InodeRoot
  | _ => Err (OtherError "Found more than one root directory")
  end.

(** ** The command line (cli/main.go) *)

(** [strings.HasSuffix s suffix]:
    [len(s) >= len(suffix) && s[len(s)-len(suffix):] == suffix]. *)
Definition HasSuffix (s suffix : string) : bool :=
  (String.length suffix <=? String.length s)%nat
  && String.eqb (sliceFrom (String.length s - String.length suffix) s) suffix.

(** What main.go obtains from the package: the search of a project by
    name, the reading of a manifest file, the completion of its fields and
    the manifest made of a list of projects. *)
Record CliEnv := mkCliEnv {
  DxFindProject : string -> Reply string;
  ReadManifest : string -> Reply Manifest.t;
  FillInMissingFields : Manifest.t -> Reply Manifest.t;
  MakeManifestFromProjectIds : list string -> Reply Manifest.t
}.

Definition lookupProject (env : CliEnv) (projectIdOrName : string) : Res string :=
  if HasPrefix projectIdOrName "project-" then Ok projectIdOrName
  else ofReply RemoteError (DxFindProject env projectIdOrName).

(** The loop of [parseManifest] over [flag.Arg(1)], [flag.Arg(2)], ... *)
Fixpoint parseManifest_projects (env : CliEnv) (args : list string)
  : Res (list string) :=
  match args with
  | [] => Ok []
  | projectIdOrName :: rest =>
      match lookupProject env projectIdOrName with
      | Ok projId =>
          if String.eqb projId "" then
            Err (OtherError ("no project with name " ++ projectIdOrName))
          else
            match parseManifest_projects env rest with
            | Ok projectIds => Ok (projId :: projectIds)
            | Err e => Err e
            | Panic m => Panic m
            end
      | Err e => Err e
      | Panic m => Panic m
      end
  end.

(** [args] are the arguments left after the flags: [flag.NArg()] is their
    number and [flag.Arg(i)] the i-th of them, the empty string when there
    is none. *)
Definition parseManifest (env : CliEnv) (args : list string) : Res Manifest.t :=
  if (length args =? 2)%nat && HasSuffix (nth 1 args "") ".json" then
    match ofReply OtherError (ReadManifest env (nth 1 args "")) with
    | Ok manifest => ofReply RemoteError (FillInMissingFields env manifest)
    | Err e => Err e
    | Panic m => Panic m
    end
  else
    match parseManifest_projects env (tl args) with
    | Ok projectIds => ofReply RemoteError (MakeManifestFromProjectIds env projectIds)
    | Err e => Err e
    | Panic m => Panic m
    end.

(** * The vocabulary of the statements *)

(** ** Link counts and the inode allocator *)

(** The number of namespace rows that bear inode [i]. *)
Definition nsCount (d : DB) (i : Z) : nat :=
  size (filter (fun kr : (string * string) * NsRow => ns_inode kr.2 = i) (namespace d)).



(** No table mentions an inode above the counter. *)
Definition inodes_below (st : TxState) : Prop :=
  (forall k r, namespace (tx st) !! k = Some r -> ns_inode r <= cnt st)
  /\ (forall i r, data_objects (tx st) !! i = Some r -> i <= cnt st)
  /\ (forall i r, directories (tx st) !! i = Some r -> i <= cnt st).

(** The two invariants, as checks that run. *)
Definition nlink_inv_b (d : DB) : bool :=
  forallb (fun ir : Z * DataObjRow => do_nlink ir.2 =? Z.of_nat (nsCount d ir.1))
    (map_to_list (data_objects d)).


(** ** What the writers never undo

    Rows are only added; a directory row changes at most in [populated],
    which goes to 1; a data-object row changes at most in [nlink], [size]
    and [mtime]. *)

Definition dir_row_le (r r' : DirRow) : Prop := r' = r \/ r' = set_populated r.

Definition obj_row_le (r r' : DataObjRow) : Prop :=
  exists n sz mt,
    r' = mkDataObjRow (do_kind r) (do_id r) (do_proj_id r) sz (do_ctime r) mt n
           (do_inline_data r).

Record db_le (d d' : DB) : Prop := mk_db_le {
  le_namespace : forall k r, namespace d !! k = Some r -> namespace d' !! k = Some r;
  le_directories : forall i r, directories d !! i = Some r ->
                     exists r', directories d' !! i = Some r' /\ dir_row_le r r';
  le_data_objects : forall i r, data_objects d !! i = Some r ->
                     exists r', data_objects d' !! i = Some r' /\ obj_row_le r r'
}.

Definition tx_le (st st' : TxState) : Prop := db_le (tx st) (tx st').

(** The namespace has a data-object row at [key] for the object [id]. *)
Definition has_obj_row (d : DB) (key : string * string) (id : string) : Prop :=
  exists i r,
    namespace d !! key = Some (mkNsRow nsDataObjType i)
    /\ data_objects d !! i = Some r /\ do_id r = id.

(** The namespace has a directory row at [key], whose directory record
    carries the given project, folder and times. *)
Definition has_dir_row (d : DB) (key : string * string) (projId projFolder : string)
    (ctime mtime : Z) : Prop :=
  exists i r,
    namespace d !! key = Some (mkNsRow nsDirType i)
    /\ directories d !! i = Some r
    /\ dr_proj_id r = projId /\ dr_proj_folder r = projFolder
    /\ dr_ctime r = ctime /\ dr_mtime r = mtime.

(** ** Paths and times *)

(** A name that can be one element of a path. *)
Definition isSimpleName (n : string) : bool :=
  negb (String.eqb n "") && negb (String.eqb n ".") && negb (String.eqb n "..")
  && negb (hasSlash n).

(** The absolute path with the elements [cs]. *)
Definition absPath (cs : list string) : string := "/" ++ filepath.joinSlash cs.

Definition is_min (m : Z) (l : list Z) : Prop := In m l /\ forall x, In x l -> m <= x.

Definition is_max (m : Z) (l : list Z) : Prop := In m l /\ forall x, In x l -> x <= m.

(** ** Errors and settled directories *)






(** ** Requests, one after the other *)

(** The calls the dispatch layer makes on the index. *)
Inductive Request : Type :=
| ReqReadDirAll (dirFullName : string)
| ReqLookupInDir (parentDir dirOrFileName : string)
| ReqCreateFile (dir : Dir.t) (fname localPath : string)
| ReqUpdateFile (f : File.t) (fInfoSize fInfoModTime : Z)
| ReqPopulateRoot (manifest : Manifest.t).

(** The filesystem object after a request, whatever the request answered. *)
Definition afterRequest (env : Env) (fsys : Filesys) (req : Request) : Filesys :=
  match req with
  | ReqReadDirAll p => snd (MetadataDbReadDirAll env p fsys)
  | ReqLookupInDir p n => snd (MetadataDbLookupInDir env p n fsys)
  | ReqCreateFile dir fname localPath => snd (CreateFile env dir fname localPath fsys)
  | ReqUpdateFile f sz mt => snd (MetadataDbUpdateFile f sz mt fsys)
  | ReqPopulateRoot manifest => snd (MetadataDbPopulateRoot env manifest fsys)
  end.

Definition afterRequests (env : Env) (fsys : Filesys) (reqs : list Request) : Filesys :=
  fold_left (afterRequest env) reqs fsys.

(** ** Remote calls *)


(** ** Rows that point somewhere *)

(** A namespace row of a directory has its record in [directories], with
    a populated flag of 0 or 1; a namespace row of a data object has its
    row in [data_objects]. *)
Definition ns_row_ok (d : DB) (r : NsRow) : Prop :=
  (ns_obj_type r = nsDirType
   /\ exists dr, directories d !! ns_inode r = Some dr
                 /\ (dr_populated dr = 0 \/ dr_populated dr = 1))
  \/ (ns_obj_type r = nsDataObjType
      /\ exists o, data_objects d !! ns_inode r = Some o).

Definition index_closed (d : DB) : Prop :=
  forall k r, namespace d !! k = Some r -> ns_row_ok d r.

(** What every writer does to the tables: rows are only added or changed
    as [db_le] allows, and rows that point somewhere still do. *)
Definition db_grows (d d' : DB) : Prop :=
  db_le d d' /\ (index_closed d -> index_closed d').

Definition tx_grows (st st' : TxState) : Prop := db_grows (tx st) (tx st').

Definition grows (fsys fsys' : Filesys) : Prop := db_grows (db fsys) (db fsys').

(** Whatever the computation returns, it moves the state along [R]. *)
Definition keeps {S A} (R : S -> S -> Prop) (c : M S A) : Prop :=
  forall s r s', c s = (r, s') -> R s s'.


(** No two data-object rows have the same Id. *)
Definition ids_unique (d : DB) : Prop :=
  forall i j ri rj,
    data_objects d !! i = Some ri -> data_objects d !! j = Some rj ->
    do_id ri = do_id rj -> i = j.

(** The allocator's invariant and the uniqueness of Ids, as checks that
    run. *)
Definition inodes_below_b (st : TxState) : bool :=
  forallb (fun kr : (string * string) * NsRow => ns_inode kr.2 <=? cnt st)
    (map_to_list (namespace (tx st)))
  && forallb (fun ir : Z * DataObjRow => ir.1 <=? cnt st)
       (map_to_list (data_objects (tx st)))
  && forallb (fun ir : Z * DirRow => ir.1 <=? cnt st)
       (map_to_list (directories (tx st))).

Definition ids_unique_b (d : DB) : bool :=
  forallb (fun x : Z * DataObjRow =>
             forallb (fun y : Z * DataObjRow =>
                        negb (String.eqb (do_id x.2) (do_id y.2)) || (x.1 =? y.1))
               (map_to_list (data_objects d)))
    (map_to_list (data_objects d)).


Definition isNodeDir (n : Node) : bool :=
  match n with
  | NodeDir _ => true
  | NodeFile _ => false
  end.

(** * Concrete inputs *)

(** A mount with one project directory [/proj], not yet populated, whose
    directory record carries ctime 10 and mtime 200. *)
Definition fsys_proj : Filesys :=
  mkFilesys (Options.mk false false 0 0 0)
    (mkDB ∅
       (<[("/", "proj") := mkNsRow nsDirType 2]>
          {[ ("", "/") := mkNsRow nsDirType InodeRoot ]})
       (<[2 := mkDirRow "project-1" "/" 0 10 200]>
          {[ InodeRoot := mkDirRow "" "" 1 7 7 ]}))
    2 {[ "/proj" := "project-1" ]} ∅ [].

(** What the lookup of [/proj] returns for it. *)
Definition dInfo_proj : DirInfo.t := DirInfo.mk 2 "project-1" "/" 10 200.

Definition dir_proj : Dir.t :=
  Dir.mk "/" "proj" "/proj" 2 (secondsToTime 10) (secondsToTime 200) 0 0 0 "" "" false.

Definition st_proj : TxState := mkTx (db fsys_proj) (inodeCnt fsys_proj).

(** Two projects mounted side by side, [foo] and [foobar], and a range
    over the map of base directories that yields [/foo] first. *)
Definition baseDirs_foo : gmap string string :=
  <["/foobar" := "project-2"]> {[ "/foo" := "project-1" ]}.

Definition env_foo_first : Env :=
  mkEnv (fun _ _ => Failed "unused") (fun _ => Failed "unused")
    (fun _ _ _ _ => Failed "unused") (fun _ => Failed "unused")
    (fun _ => Got []) "nonce" 0
    (fun _ => [("/foo", "project-1"); ("/foobar", "project-2")]).

Definition fsys_foo : Filesys :=
  mkFilesys (Options.mk false false 0 0 0) (metadataDbInitCore 0) 1 baseDirs_foo ∅ [].

(** The folder behind [/proj]: two files, two files that share the name
    [data.bin], and one subfolder. *)
Definition obj_a : DxDescribeDataObject.t :=
  DxDescribeDataObject.mk "file-A" "project-1" "a.txt" 10 50 250 "".

Definition obj_b : DxDescribeDataObject.t :=
  DxDescribeDataObject.mk "file-B" "project-1" "b.txt" 20 60 300 "".

Definition obj_d1 : DxDescribeDataObject.t :=
  DxDescribeDataObject.mk "file-D1" "project-1" "data.bin" 5 55 260 "".

Definition obj_d2 : DxDescribeDataObject.t :=
  DxDescribeDataObject.mk "file-D2" "project-1" "data.bin" 6 65 270 "".

Definition folder_demo : DxFolder.t :=
  DxFolder.mk [obj_a; obj_b; obj_d1; obj_d2] ["sub"].

(** What a fix-up makes of it: the two [data.bin] move into a faux
    subdirectory, under names of their own. *)
Definition posix_demo : PosixDir.t :=
  PosixDir.mk [obj_a; obj_b] ["sub"]
    [("data.bin",
      [DxDescribeDataObject.mk "file-D1" "project-1" "1_data.bin" 5 55 260 "";
       DxDescribeDataObject.mk "file-D2" "project-1" "2_data.bin" 6 65 270 ""])].

(** A symbolic link and an applet of the platform. *)
Definition obj_link : DxDescribeDataObject.t :=
  DxDescribeDataObject.mk "file-L" "project-1" "hosts" 0 70 280 "/etc/hosts".

Definition obj_applet : DxDescribeDataObject.t :=
  DxDescribeDataObject.mk "applet-X" "project-1" "tool" 0 70 280 "".

(** A platform that serves the folder of project-1, answers file-new with
    [file-NEW], and knows [project-ro] as read-only. *)
Definition env_demo : Env :=
  mkEnv
    (fun projId folder =>
       if String.eqb projId "project-1" && String.eqb folder "/" then Got folder_demo
       else Failed "describe failed")
    (fun _ => Got posix_demo)
    (fun _ _ _ _ => Got "file-NEW")
    (fun projId => Got (DxDescribePrj.mk projId (String.eqb projId "project-ro")))
    (fun _ => Got [])
    "nonce-1" 1000
    (fun m => map_to_list m).

(** A platform that answers nothing. *)
Definition env_down : Env :=
  mkEnv (fun _ _ => Failed "no route") (fun _ => Failed "no fix-up")
    (fun _ _ _ _ => Failed "no route") (fun _ => Failed "no route")
    (fun _ => Got []) "nonce-2" 2000
    (fun m => map_to_list m).

(** The mount after [/proj] was populated from [env_demo]. *)
Definition fsys_proj_populated : Filesys :=
  snd (readFromDNAxOf env_demo (Some dInfo_proj) "/proj" fsys_proj).

Definition st_linked : TxState :=
  mkTx (db fsys_proj_populated) (inodeCnt fsys_proj_populated).

(** The same mount, read-only. *)
Definition fsys_proj_ro_mount : Filesys :=
  mkFilesys (Options.mk true false 0 0 0) (db fsys_proj_populated)
    (inodeCnt fsys_proj_populated) (baseDir2ProjectId fsys_proj) ∅ [].


(** The mount of [fsys_proj] with the name [/proj/b.txt] taken. *)
Definition fsys_taken : Filesys :=
  mkFilesys (options fsys_proj)
    (mkDB (data_objects (db fsys_proj))
       (<[("/proj", "b.txt") := mkNsRow nsDirType 2]> (namespace (db fsys_proj)))
       (directories (db fsys_proj)))
    2 (baseDir2ProjectId fsys_proj) ∅ [].

(** A new database, and a manifest with one project directory and one
    file. *)
Definition fsys_new : Filesys :=
  mkFilesys (Options.mk false false 0 0 0) (metadataDbInitCore 7) 1 ∅ ∅ [].

Definition manifest_demo : Manifest.t :=
  Manifest.mk
    [ManifestFile.mk "project-1" "file-M" "/" "m.txt" 3 40 41]
    [ManifestDir.mk "project-1" "/" "/proj" 10 200].

(** A platform that serves an empty folder for every project, knows
    [project-ro] as read-only and refuses every file-new; a new mount of
    that project after its bootstrap, and the directory that the index
    returns for it. *)
Definition env_ro : Env :=
  mkEnv (fun _ _ => Got (DxFolder.mk [] [])) (fun _ => Got (PosixDir.mk [] [] []))
    (fun _ _ _ _ => Failed "PermissionDenied")
    (fun projId => Got (DxDescribePrj.mk projId (String.eqb projId "project-ro")))
    (fun _ => Got [])
    "nonce-3" 3000
    (fun m => map_to_list m).

Definition manifest_ro : Manifest.t :=
  Manifest.mk [] [ManifestDir.mk "project-ro" "/" "/readonly" 10 200].

Definition fsys_ro_mounted : Filesys :=
  snd (MetadataDbPopulateRoot env_ro manifest_ro fsys_new).

Definition dir_ro_found : Dir.t :=
  Dir.mk "/" "readonly" "/readonly" 2 (secondsToTime 10) (secondsToTime 200)
    0 0 0 "" "" false.






Definition fsys_mounted : Filesys :=
  afterRequests env_demo fsys_new [ReqPopulateRoot manifest_demo; ReqReadDirAll "/proj"].

(** * Properties *)


(** ** Go's path functions on the examples of their documentation *)

Example Clean_examples :
  filepath.Clean "/A//B/./C/.." = "/A/B" /\ filepath.Clean "/.." = "/"
  /\ filepath.Clean "a/../.." = ".." /\ filepath.Clean "//x" = "/x"
  /\ filepath.Clean "/proj/" = "/proj".
Proof. repeat split; reflexivity. Qed.

Example Dir_Base_examples :
  filepath.Dir "/A/B/C" = "/A/B" /\ filepath.Base "/A/B/C" = "C"
  /\ filepath.Dir "/A" = "/" /\ filepath.Dir "/" = "/" /\ filepath.Base "/" = "/"
  /\ filepath.Dir "x" = "." /\ filepath.Join "/" "/" = "/"
  /\ filepath.Join "/A" "b" = "/A/b".
Proof. repeat split; reflexivity. Qed.

Example Clean_more_examples :
  filepath.Clean "" = "." /\ filepath.Clean "a//b/" = "a/b"
  /\ filepath.Clean "/a/../.." = "/" /\ filepath.Clean "../a" = "../a"
  /\ filepath.Clean "a/../../b" = "../b" /\ filepath.Clean "./" = "."
  /\ filepath.Clean "/." = "/" /\ filepath.Clean "abc/def/../ghi" = "abc/ghi".
Proof. repeat split; reflexivity. Qed.

Example Dir_Base_Join_more_examples :
  filepath.Dir "/a/b/" = "/a/b" /\ filepath.Dir "a/b" = "a" /\ filepath.Dir "" = "."
  /\ filepath.Base "a/b/" = "b" /\ filepath.Base "//" = "/" /\ filepath.Base "" = "."
  /\ filepath.Join "a" "" = "a" /\ filepath.Join "" "" = ""
  /\ filepath.Join "/" "a" = "/a" /\ filepath.Join "a" "../b" = "b".
Proof. repeat split; reflexivity. Qed.

Example splitPath_examples :
  splitPath "/A/B/C" = ("/A/B", "C") /\ splitPath "/" = ("", "/")
  /\ splitPath "/A" = ("/", "A").
Proof. repeat split; reflexivity. Qed.

(** ** kindOfFile *)

Lemma HasPrefix_head s a p :
  HasPrefix s (String a p) = true -> exists s', s = String a s'.
Proof.
  unfold HasPrefix. destruct s as [|b s]; simpl; [discriminate|].
  destruct (ascii_dec a b) as [->|]; [eauto|discriminate].
Qed.

Lemma HasPrefix_head_ne s a b p q :
  a <> b -> HasPrefix s (String a p) = true -> HasPrefix s (String b q) = false.
Proof.
  intros Hne [s' ->]%HasPrefix_head. unfold HasPrefix. simpl.
  destruct (ascii_dec b a); congruence.
Qed.

Ltac prefix_clash :=
  match goal with
  | H1 : HasPrefix ?s (String ?a ?p) = true,
    H2 : HasPrefix ?s (String ?b ?q) = true |- _ =>
      exfalso;
      pose proof (HasPrefix_head_ne s a b p q ltac:(discriminate) H1);
      congruence
  end.

Lemma length_pos_iff (s : string) : (0 <? String.length s)%nat = true <-> s <> "".
Proof.
  destruct s; simpl; split; intros H; try congruence; try reflexivity.
  discriminate.
Qed.

(** C10.  kindOfFile classifies a descriptor by the typed prefix of its
    Id: Symlink exactly for a "file-" Id with a non-empty SymlinkPath;
    Regular for the other "file-" Ids; Applet, Workflow, Record, Database
    for "applet-", "workflow-", "record-", "database-"; Other for an Id
    with none of the five prefixes. *)
Theorem kindOfFile_classifies (o : DxDescribeDataObject.t) :
  (kindOfFile o = FK_Symlink <->
     HasPrefix (DxDescribeDataObject.Id o) "file-" = true
     /\ DxDescribeDataObject.SymlinkPath o <> "")
  /\ (HasPrefix (DxDescribeDataObject.Id o) "file-" = true ->
      DxDescribeDataObject.SymlinkPath o = "" -> kindOfFile o = FK_Regular)
  /\ (HasPrefix (DxDescribeDataObject.Id o) "applet-" = true -> kindOfFile o = FK_Applet)
  /\ (HasPrefix (DxDescribeDataObject.Id o) "workflow-" = true -> kindOfFile o = FK_Workflow)
  /\ (HasPrefix (DxDescribeDataObject.Id o) "record-" = true -> kindOfFile o = FK_Record)
  /\ (HasPrefix (DxDescribeDataObject.Id o) "database-" = true -> kindOfFile o = FK_Database)
  /\ (HasPrefix (DxDescribeDataObject.Id o) "file-" = false ->
      HasPrefix (DxDescribeDataObject.Id o) "applet-" = false ->
      HasPrefix (DxDescribeDataObject.Id o) "workflow-" = false ->
      HasPrefix (DxDescribeDataObject.Id o) "record-" = false ->
      HasPrefix (DxDescribeDataObject.Id o) "database-" = false ->
      kindOfFile o = FK_Other).
Proof.
  destruct o as [id pj nm sz ct mt sl]; simpl.
  unfold kindOfFile; simpl.
  pose proof (length_pos_iff sl) as Hl.
  destruct (HasPrefix id "file-") eqn:Hf;
    destruct (HasPrefix id "applet-") eqn:Ha;
    destruct (HasPrefix id "workflow-") eqn:Hw;
    destruct (HasPrefix id "record-") eqn:Hr;
    destruct (HasPrefix id "database-") eqn:Hd;
    try prefix_clash;
    destruct (0 <? String.length sl)%nat; simpl;
    repeat match goal with
           | |- _ /\ _ => split
           | |- _ <-> _ => split
           end;
    intros;
    repeat match goal with H : _ /\ _ |- _ => destruct H end;
    try discriminate; try reflexivity;
    try (split; [reflexivity | apply Hl; reflexivity]);
    try (exfalso; match goal with H : _ <> "" |- _ => apply Hl in H; discriminate end);
    try (exfalso; subst; apply (proj1 Hl); reflexivity).
Qed.

(** ** Dir.GetAttrs *)

Lemma Dir_GetAttrs_eq (d : Dir.t) :
  Dir.GetAttrs d =
  InodeAttributes.mk 4096 1 (Z.lor os_ModeDir (Dir.Mode d))
    zeroTime zeroTime zeroTime zeroTime (Dir.Uid d) (Dir.Gid d).
Proof. reflexivity. Qed.

Lemma File_GetAttrs_times (f : File.t) :
  InodeAttributes.Ctime (File.GetAttrs f) = File.Ctime f
  /\ InodeAttributes.Mtime (File.GetAttrs f) = File.Mtime f.
Proof. split; reflexivity. Qed.

(** C7, at the failing input.  The directory [/proj] is looked up from the
    index with Ctime 10 and Mtime 200; the attributes GetAttrs returns for
    it carry the zero time in Ctime and Mtime, because the two assignments
    read the result [a] and not the receiver [d]. *)
Theorem Dir_GetAttrs_loses_times :
  fastLookup fsys_proj "/" "proj" = Ok (NodeDir dir_proj)
  /\ Dir.Ctime dir_proj = secondsToTime 10
  /\ Dir.Mtime dir_proj = secondsToTime 200
  /\ InodeAttributes.Ctime (Node_GetAttrs (NodeDir dir_proj)) = zeroTime
  /\ InodeAttributes.Mtime (Node_GetAttrs (NodeDir dir_proj)) = zeroTime
  /\ zeroTime <> secondsToTime 10
  /\ zeroTime <> secondsToTime 200.
Proof. vm_compute. repeat split; congruence. Qed.

(** ** projectIdAndFolder *)

(** C6, at the failing input.  With base directories [/foo] and [/foobar]
    and a range that yields [/foo] first (a permutation of the map's
    entries), the directory [/foobar/x] is attributed to [/foo]'s project
    with folder [/bar/x]; the longest base directory that is a prefix is
    [/foobar], which gives project-2 and folder [/x]. *)
Theorem projectIdAndFolder_first_match :
  Permutation (rangeOrder env_foo_first (baseDir2ProjectId fsys_foo))
    (map_to_list (baseDir2ProjectId fsys_foo))
  /\ projectIdAndFolder env_foo_first fsys_foo "/foobar/x" = Ok ("project-1", "/bar/x")
  /\ longestPrefixProjectAndFolder (baseDir2ProjectId fsys_foo) "/foobar/x"
     = Some ("project-2", "/x").
Proof.
  split; [|split]; [|reflexivity|vm_compute; reflexivity].
  assert (E : map_to_list (baseDir2ProjectId fsys_foo)
              = [("/foobar", "project-2"); ("/foo", "project-1")]
              \/ map_to_list (baseDir2ProjectId fsys_foo)
              = [("/foo", "project-1"); ("/foobar", "project-2")]).
  { vm_compute. auto. }
  destruct E as [-> | ->]; simpl; [apply perm_swap | reflexivity].
Qed.

(** When it returns, [projectIdAndFolder] answers with an entry whose base
    directory is a prefix of the directory: the first one in range order. *)
Lemma projectIdAndFolder_range_some_prefix entries dirname projId folder :
  projectIdAndFolder_range entries dirname = Ok (projId, folder) ->
  exists baseDir,
    In (baseDir, projId) entries /\ HasPrefix dirname baseDir = true
    /\ (folder = sliceFrom (String.length baseDir) dirname
        \/ folder = "/" ++ sliceFrom (String.length baseDir) dirname).
Proof.
  induction entries as [|[b p] rest IH]; simpl; [discriminate|].
  destruct (HasPrefix dirname b) eqn:Hp.
  - intros [= <- <-]. exists b. split; [left; reflexivity|]. split; [exact Hp|].
    destruct (HasPrefix (sliceFrom (String.length b) dirname) "/"); simpl; auto.
  - intros H. destruct (IH H) as (b' & Hin & Hpre & Hf).
    exists b'. split; [right; exact Hin|]. split; assumption.
Qed.

(** ** The read-only gate of the dispatch layer *)

(** C5, as amended.  A create request on a read-only mount, or under a
    directory whose project (the one its path belongs to by the
    longest-prefix match) is read-only, is answered by the create entry
    point with the permission error, before CreateFile is called, and
    leaves the filesystem object as it was; in particular the log of
    remote calls gains no entry, so no file-new is issued. *)
Theorem Create_read_only_denied (env : Env) (fsys : Filesys) (dir : Dir.t)
    (name localPath : string) :
  Options.ReadOnly (options fsys) = true \/ projectIsReadOnly fsys dir = true ->
  Create env dir name localPath fsys = (Err EPERM, fsys)
  /\ remoteLog (snd (Create env dir name localPath fsys)) = remoteLog fsys.
Proof.
  intros H. unfold Create.
  assert (E : Options.ReadOnly (options fsys) || projectIsReadOnly fsys dir = true).
  { destruct H as [-> | ->]; [reflexivity | apply orb_true_r]. }
  rewrite E. split; reflexivity.
Qed.

(** ** Running the state-passing code *)

Lemma bind_Ok {S A B} (c : M S A) (k : A -> M S B) s b s' :
  bind c k s = (Ok b, s') ->
  exists a s1, c s = (Ok a, s1) /\ k a s1 = (Ok b, s').
Proof.
  unfold bind. destruct (c s) as [[a|e|m] s1]; intros H; try discriminate.
  exists a, s1. split; [reflexivity | exact H].
Qed.

Lemma bind_cases {S A B} (c : M S A) (k : A -> M S B) s r s' :
  bind c k s = (r, s') ->
  (exists a s1, c s = (Ok a, s1) /\ k a s1 = (r, s'))
  \/ (c s = (match r with Err e => Err e | Panic m => Panic m | Ok _ => Panic "" end, s')
      /\ isOk r = false).
Proof.
  unfold bind. destruct (c s) as [[a|e|m] s1]; intros H.
  - left. eauto.
  - right. inversion H; subst. split; reflexivity.
  - right. inversion H; subst. split; reflexivity.
Qed.

Lemma exec_Ok stmt st u st' :
  exec stmt st = (Ok u, st') ->
  exists d, stmt (tx st) = Ok d /\ st' = mkTx d (cnt st).
Proof.
  unfold exec. destruct (stmt (tx st)) as [d|e|m]; intros H; inversion H; eauto.
Qed.

Section forEach_facts.

Context {S A : Type} (body : A -> M S unit).

(** A loop whose body moves the state along a preorder [R] and leaves a
    fact [Q x] that [R] keeps: after the loop, every element's fact holds. *)
Lemma forEach_Ok (R : S -> S -> Prop) (Q : A -> S -> Prop) :
  (forall s, R s s) ->
  (forall s1 s2 s3, R s1 s2 -> R s2 s3 -> R s1 s3) ->
  (forall x s s', body x s = (Ok tt, s') -> R s s' /\ Q x s') ->
  (forall x s s', Q x s -> R s s' -> Q x s') ->
  forall xs s s',
    forEach body xs s = (Ok tt, s') ->
    R s s' /\ Forall (fun x => Q x s') xs.
Proof.
  intros Hrefl Htrans Hbody Hstable.
  induction xs as [|x xs IH]; simpl; intros s s' H.
  - inversion H; subst. split; [apply Hrefl | constructor].
  - apply bind_Ok in H as (u & s1 & H1 & H2). destruct u.
    apply Hbody in H1 as [HR HQ]. apply IH in H2 as [HR' HQ'].
    split; [eapply Htrans; eassumption|].
    constructor; [eapply Hstable; eassumption | exact HQ'].
Qed.

End forEach_facts.

(** ** The statements, row by row *)

Lemma insert_namespace_Ok parent name r d d' :
  insert_namespace parent name r d = Ok d' ->
  namespace d !! (parent, name) = None
  /\ d' = mkDB (data_objects d) (<[(parent, name) := r]> (namespace d)) (directories d).
Proof.
  unfold insert_namespace. destruct (namespace d !! (parent, name)); [discriminate|].
  intros [= <-]. split; reflexivity.
Qed.

Lemma insert_data_objects_Ok i r d d' :
  insert_data_objects i r d = Ok d' ->
  data_objects d !! i = None
  /\ d' = mkDB (<[i := r]> (data_objects d)) (namespace d) (directories d).
Proof.
  unfold insert_data_objects. destruct (data_objects d !! i); [discriminate|].
  intros [= <-]. split; reflexivity.
Qed.

Lemma insert_directories_Ok i r d d' :
  insert_directories i r d = Ok d' ->
  directories d !! i = None
  /\ d' = mkDB (data_objects d) (namespace d) (<[i := r]> (directories d)).
Proof.
  unfold insert_directories. destruct (directories d !! i); [discriminate|].
  intros [= <-]. split; reflexivity.
Qed.


(** The rows a SELECT by Id returns, when there is exactly one. *)
Lemma select_by_id_single fId d i r :
  select_by_id fId d = [(i, r)] ->
  data_objects d !! i = Some r /\ do_id r = fId
  /\ forall j r', data_objects d !! j = Some r' -> do_id r' = fId -> j = i.
Proof.
  unfold select_by_id. intros H.
  assert (Hin : forall j r', (j, r') ∈ map_to_list
                  (filter (fun kr : Z * DataObjRow => do_id kr.2 = fId) (data_objects d))
                <-> (j, r') = (i, r)).
  { intros j r'. rewrite H. rewrite list_elem_of_singleton. reflexivity. }
  assert (Hi : data_objects d !! i = Some r /\ do_id r = fId).
  { specialize (Hin i r). rewrite elem_of_map_to_list in Hin.
    rewrite map_lookup_filter_Some in Hin. simpl in Hin. apply Hin. reflexivity. }
  destruct Hi as [Hi1 Hi2]. split; [exact Hi1|]. split; [exact Hi2|].
  intros j r' Hj Hid.
  specialize (Hin j r'). rewrite elem_of_map_to_list in Hin.
  rewrite map_lookup_filter_Some in Hin. simpl in Hin.
  destruct Hin as [Hin _]. specialize (Hin (conj Hj Hid)). congruence.
Qed.

Lemma select_by_id_nil fId d :
  select_by_id fId d = [] ->
  forall j r', data_objects d !! j = Some r' -> do_id r' <> fId.
Proof.
  unfold select_by_id. intros H j r' Hj Hid.
  assert (Hin : (j, r') ∈ map_to_list
            (filter (fun kr : Z * DataObjRow => do_id kr.2 = fId) (data_objects d))).
  { rewrite elem_of_map_to_list, map_lookup_filter_Some. simpl. split; assumption. }
  rewrite H in Hin. inversion Hin.
Qed.

(** The UPDATE of the link count touches the single row of that Id. *)
Lemma update_nlink_single fId n d i r :
  data_objects d !! i = Some r -> do_id r = fId ->
  (forall j r', data_objects d !! j = Some r' -> do_id r' = fId -> j = i) ->
  data_objects (update_nlink_by_id fId n d) = <[i := set_nlink n r]> (data_objects d).
Proof.
  intros Hi Hid Huniq. unfold update_nlink_by_id; simpl.
  apply map_eq. intros j. rewrite lookup_fmap.
  destruct (decide (i = j)) as [<-|Hne].
  - rewrite lookup_insert_eq, Hi. simpl. rewrite decide_True by exact Hid. reflexivity.
  - rewrite lookup_insert_ne by exact Hne.
    destruct (data_objects d !! j) as [r'|] eqn:Hj; simpl; [|reflexivity].
    rewrite decide_False; [reflexivity|].
    intros Hid'. apply Hne. symmetry. eapply Huniq; eassumption.
Qed.

(** ** createDataObject and createEmptyDir, when they succeed *)

Lemma createDataObject_Ok kind projId objId size ctime mtime parentDir fname
    inlineData st inode st' :
  createDataObject kind projId objId size ctime mtime parentDir fname inlineData st
    = (Ok inode, st') ->
  namespace (tx st) !! (parentDir, fname) = None
  /\ namespace (tx st')
     = <[(parentDir, fname) := mkNsRow nsDataObjType inode]> (namespace (tx st))
  /\ directories (tx st') = directories (tx st)
  /\ ((inode = wrap64 (cnt st + 1) /\ cnt st' = inode
       /\ data_objects (tx st) !! inode = None
       /\ data_objects (tx st')
          = <[inode := mkDataObjRow kind objId projId size ctime mtime 1 inlineData]>
              (data_objects (tx st)))
      \/ (exists r,
            cnt st' = cnt st
            /\ data_objects (tx st) !! inode = Some r /\ do_id r = objId
            /\ (forall j r', data_objects (tx st) !! j = Some r' ->
                             do_id r' = objId -> j = inode)
            /\ data_objects (tx st')
               = <[inode := set_nlink (wrap64 (do_nlink r + 1)) r]>
                   (data_objects (tx st)))).
Proof.
  unfold createDataObject. intros H.
  apply bind_Ok in H as ([i0 n0] & s0 & Hlook & H).
  unfold liftRes in Hlook. inversion Hlook as [[Hl Hs]]. subst s0. clear Hlook.
  apply bind_Ok in H as (i1 & s1 & Hmid & H).
  apply bind_Ok in H as (u & s2 & Hns & H).
  inversion H; subst i1 s2. clear H.
  apply exec_Ok in Hns as (d2 & Hns & ->).
  apply insert_namespace_Ok in Hns as [Hnone ->]. simpl.
  destruct (i0 =? InodeInvalid) eqn:Hinv.
  - (* a new inode *)
    apply bind_Ok in Hmid as (i2 & s3 & Halloc & Hmid).
    unfold allocInodeNum in Halloc. inversion Halloc; subst i2 s3. clear Halloc.
    apply bind_Ok in Hmid as (u' & s4 & Hins & Hmid).
    inversion Hmid; subst inode s1. clear Hmid.
    apply exec_Ok in Hins as (d4 & Hins & ->).
    apply insert_data_objects_Ok in Hins as [Hfresh ->]. simpl in *.
    split; [exact Hnone|]. split; [reflexivity|]. split; [reflexivity|].
    left. repeat split; try reflexivity. exact Hfresh.
  - (* one more link to a known object *)
    apply bind_Ok in Hmid as (u' & s4 & Hupd & Hmid).
    inversion Hmid; subst inode s1. clear Hmid.
    apply exec_Ok in Hupd as (d4 & Hupd & ->).
    inversion Hupd; subst d4. clear Hupd. simpl in *.
    unfold lookupDataObjectInodeById in Hl.
    destruct (select_by_id objId (tx st)) as [|[i r] [|? ?]] eqn:Hsel;
      try discriminate.
    { inversion Hl; subst. discriminate. }
    inversion Hl; subst i0 n0. clear Hl.
    apply select_by_id_single in Hsel as (Hi & Hid & Huniq).
    split; [exact Hnone|]. split; [reflexivity|]. split; [reflexivity|].
    right. exists r. repeat split; try assumption.
    apply update_nlink_single; assumption.
Qed.

Lemma createEmptyDir_Ok projId projFolder ctime mtime dirPath populated st inode st' :
  createEmptyDir projId projFolder ctime mtime dirPath populated st = (Ok inode, st') ->
  inode = wrap64 (cnt st + 1) /\ cnt st' = inode
  /\ namespace (tx st) !! splitPath dirPath = None
  /\ namespace (tx st') = <[splitPath dirPath := mkNsRow nsDirType inode]> (namespace (tx st))
  /\ directories (tx st) !! inode = None
  /\ directories (tx st')
     = <[inode := mkDirRow projId projFolder (boolToInt populated) ctime mtime]>
         (directories (tx st))
  /\ data_objects (tx st') = data_objects (tx st).
Proof.
  unfold createEmptyDir. destruct dirPath as [|c rest]; [discriminate|].
  destruct (negb (isSlash c)); [discriminate|].
  intros H.
  apply bind_Ok in H as (i & s1 & Halloc & H).
  unfold allocInodeNum in Halloc. inversion Halloc; subst i s1. clear Halloc.
  destruct (splitPath (String c rest)) as [parentDir basename] eqn:Hsp.
  apply bind_Ok in H as (u & s2 & Hns & H).
  apply bind_Ok in H as (u' & s3 & Hd & H).
  inversion H; subst inode s3. clear H.
  apply exec_Ok in Hns as (d2 & Hns & ->).
  apply insert_namespace_Ok in Hns as [Hnone ->].
  apply exec_Ok in Hd as (d3 & Hd & ->).
  apply insert_directories_Ok in Hd as [Hdnone ->]. simpl in *.
  repeat split; try reflexivity; assumption.
Qed.

(** ** The link count *)

Lemma wrap64_id z : - 2 ^ 63 <= z < 2 ^ 63 -> wrap64 z = z.
Proof.
  intros H. unfold wrap64.
  rewrite Z.mod_small by lia. lia.
Qed.





(** The allocator's invariant is kept by the two calls that allocate. *)
Lemma createDataObject_inodes_below kind projId objId size ctime mtime parentDir fname
    inlineData st inode st' :
  0 <= cnt st < maxInt64 ->
  inodes_below st ->
  createDataObject kind projId objId size ctime mtime parentDir fname inlineData st
    = (Ok inode, st') ->
  inodes_below st' /\ cnt st <= cnt st'.
Proof.
  intros Hcnt (Hn & Ho & Hd) H.
  apply createDataObject_Ok in H as (_ & Hns & Hdirs & Hcase).
  assert (Hw : wrap64 (cnt st + 1) = cnt st + 1)
    by (apply wrap64_id; unfold maxInt64 in Hcnt; lia).
  assert (Hi : inode <= cnt st' /\ cnt st <= cnt st'
               /\ forall i r, data_objects (tx st') !! i = Some r -> i <= cnt st').
  { destruct Hcase as [(Hi & Hc & _ & Hdo) | (r & Hc & Hr & _ & _ & Hdo)].
    - rewrite Hw in Hi. split; [lia|]. split; [lia|].
      intros i r. rewrite Hdo. intros [[<- _] | [_ Hir]]%lookup_insert_Some; [lia|].
      apply Ho in Hir. lia.
    - apply Ho in Hr as Hle. split; [lia|]. split; [lia|].
      intros i r'. rewrite Hdo. intros [[<- _] | [_ Hir]]%lookup_insert_Some; [lia|].
      apply Ho in Hir. lia. }
  destruct Hi as (Hi1 & Hi2 & Hi3).
  split; [|exact Hi2]. split; [|split; [exact Hi3|]].
  - intros k r. rewrite Hns. intros [[_ <-] | [_ Hkr]]%lookup_insert_Some; [exact Hi1|].
    apply Hn in Hkr. lia.
  - intros i r. rewrite Hdirs. intros Hir. apply Hd in Hir. lia.
Qed.

Lemma createEmptyDir_inodes_below projId projFolder ctime mtime dirPath populated
    st inode st' :
  0 <= cnt st < maxInt64 ->
  inodes_below st ->
  createEmptyDir projId projFolder ctime mtime dirPath populated st = (Ok inode, st') ->
  inodes_below st' /\ cnt st' = cnt st + 1.
Proof.
  intros Hcnt (Hn & Ho & Hd) H.
  apply createEmptyDir_Ok in H as (Hi & Hc & _ & Hns & _ & Hdirs & Hobjs).
  assert (Hw : wrap64 (cnt st + 1) = cnt st + 1)
    by (apply wrap64_id; unfold maxInt64 in Hcnt; lia).
  rewrite Hw in Hi. split; [|lia]. split; [|split].
  - intros k r. rewrite Hns. intros [[_ <-] | [_ Hkr]]%lookup_insert_Some; [simpl; lia|].
    apply Hn in Hkr. lia.
  - intros i r. rewrite Hobjs. intros Hir. apply Ho in Hir. lia.
  - intros i r. rewrite Hdirs. intros [[<- _] | [_ Hir]]%lookup_insert_Some; [lia|].
    apply Hd in Hir. lia.
Qed.

(** ** What the writers never undo *)

Lemma dir_row_le_refl r : dir_row_le r r.
Proof. left. reflexivity. Qed.

Lemma dir_row_le_trans r1 r2 r3 : dir_row_le r1 r2 -> dir_row_le r2 r3 -> dir_row_le r1 r3.
Proof.
  intros [->| ->] [->| ->]; unfold dir_row_le; auto.
Qed.

Lemma obj_row_le_refl r : obj_row_le r r.
Proof. exists (do_nlink r), (do_size r), (do_mtime r). destruct r; reflexivity. Qed.

Lemma obj_row_le_trans r1 r2 r3 : obj_row_le r1 r2 -> obj_row_le r2 r3 -> obj_row_le r1 r3.
Proof.
  intros (n & sz & mt & ->) (n' & sz' & mt' & ->). simpl.
  exists n', sz', mt'. reflexivity.
Qed.

Lemma obj_row_le_set_nlink n r : obj_row_le r (set_nlink n r).
Proof. exists n, (do_size r), (do_mtime r). reflexivity. Qed.

Lemma db_le_refl d : db_le d d.
Proof.
  constructor; intros; eauto using dir_row_le_refl, obj_row_le_refl.
Qed.

Lemma db_le_trans d1 d2 d3 : db_le d1 d2 -> db_le d2 d3 -> db_le d1 d3.
Proof.
  intros [N1 D1 O1] [N2 D2 O2]. constructor.
  - intros k r H. apply N2, N1, H.
  - intros i r H. apply D1 in H as (r' & H & Hle).
    apply D2 in H as (r'' & H & Hle'). exists r''. split; [exact H|].
    eapply dir_row_le_trans; eassumption.
  - intros i r H. apply O1 in H as (r' & H & Hle).
    apply O2 in H as (r'' & H & Hle'). exists r''. split; [exact H|].
    eapply obj_row_le_trans; eassumption.
Qed.

Lemma tx_le_refl st : tx_le st st.
Proof. apply db_le_refl. Qed.

Lemma tx_le_trans s1 s2 s3 : tx_le s1 s2 -> tx_le s2 s3 -> tx_le s1 s3.
Proof. apply db_le_trans. Qed.

Lemma lookup_insert_fresh {K} `{Countable K} {V} (m : gmap K V) k v j r :
  m !! k = None -> m !! j = Some r -> <[k := v]> m !! j = Some r.
Proof.
  intros Hk Hj. rewrite lookup_insert_ne; [exact Hj|]. congruence.
Qed.

Lemma createDataObject_le kind projId objId size ctime mtime parentDir fname
    inlineData st inode st' :
  createDataObject kind projId objId size ctime mtime parentDir fname inlineData st
    = (Ok inode, st') ->
  tx_le st st'.
Proof.
  intros H. apply createDataObject_Ok in H as (Hnone & Hns & Hdirs & Hcase).
  constructor.
  - intros k r Hk. rewrite Hns. apply lookup_insert_fresh; assumption.
  - intros i r Hi. rewrite Hdirs. eauto using dir_row_le_refl.
  - intros i r Hi.
    destruct Hcase as [(_ & _ & Hfresh & ->) | (r0 & _ & Hr0 & _ & _ & ->)].
    + exists r. split; [|apply obj_row_le_refl].
      apply lookup_insert_fresh; assumption.
    + destruct (decide (inode = i)) as [<-|Hne].
      * rewrite lookup_insert_eq. rewrite Hr0 in Hi. inversion Hi; subst r0.
        eauto using obj_row_le_set_nlink.
      * rewrite lookup_insert_ne by exact Hne. eauto using obj_row_le_refl.
Qed.

Lemma createEmptyDir_le projId projFolder ctime mtime dirPath populated st inode st' :
  createEmptyDir projId projFolder ctime mtime dirPath populated st = (Ok inode, st') ->
  tx_le st st'.
Proof.
  intros H. apply createEmptyDir_Ok in H as (_ & _ & Hnone & Hns & Hdnone & Hd & Ho).
  constructor.
  - intros k r Hk. rewrite Hns. apply lookup_insert_fresh; assumption.
  - intros i r Hi. rewrite Hd. exists r. split; [|apply dir_row_le_refl].
    apply lookup_insert_fresh; assumption.
  - intros i r Hi. rewrite Ho. eauto using obj_row_le_refl.
Qed.

Lemma update_populated_le dinode d : db_le d (update_populated dinode d).
Proof.
  constructor; simpl.
  - auto.
  - intros i r Hi. rewrite lookup_alter.
    destruct (decide (dinode = i)) as [<-|Hne].
    + rewrite Hi. simpl. exists (set_populated r). split; [reflexivity|right; reflexivity].
    + exists r. split; [exact Hi|apply dir_row_le_refl].
  - eauto using obj_row_le_refl.
Qed.

Lemma update_size_mtime_le i sz mt d : db_le d (update_size_mtime i sz mt d).
Proof.
  constructor; simpl.
  - auto.
  - eauto using dir_row_le_refl.
  - intros j r Hj. rewrite lookup_alter.
    destruct (decide (i = j)) as [<-|Hne].
    + rewrite Hj. simpl. eexists. split; [reflexivity|].
      exists (do_nlink r), sz, mt. reflexivity.
    + exists r. split; [exact Hj|apply obj_row_le_refl].
Qed.

(** ** populateDir and directoryReadFromDNAx, when they succeed *)

Lemma has_obj_row_le d d' key id :
  has_obj_row d key id -> db_le d d' -> has_obj_row d' key id.
Proof.
  intros (i & r & Hn & Ho & Hid) [N _ O].
  apply O in Ho as (r' & Ho & (n & sz & mt & ->)).
  eexists i, _. split; [apply N, Hn|]. split; [exact Ho|]. exact Hid.
Qed.

Lemma has_dir_row_le d d' key p f c m :
  has_dir_row d key p f c m -> db_le d d' -> has_dir_row d' key p f c m.
Proof.
  intros (i & r & Hn & Hd & H1 & H2 & H3 & H4) [N D _].
  apply D in Hd as (r' & Hd & Hle).
  exists i, r'. split; [apply N, Hn|]. split; [exact Hd|].
  destruct Hle as [-> | ->]; simpl; auto.
Qed.

Lemma populateDir_object_Ok dirPath o st st' :
  populateDir_object dirPath o st = (Ok tt, st') ->
  tx_le st st'
  /\ has_obj_row (tx st') (dirPath, DxDescribeDataObject.Name o) (DxDescribeDataObject.Id o).
Proof.
  unfold populateDir_object. intros H.
  apply bind_Ok in H as (inode & s1 & H & Hret). inversion Hret; subst s1. clear Hret.
  split; [eapply createDataObject_le; exact H|].
  apply createDataObject_Ok in H as (_ & Hns & _ & Hcase).
  destruct Hcase as [(_ & _ & _ & Hdo) | (r & _ & Hr & Hid & _ & Hdo)].
  - eexists inode, _. rewrite Hns, Hdo, !lookup_insert_eq. auto.
  - eexists inode, _. rewrite Hns, Hdo, !lookup_insert_eq. auto.
Qed.

Lemma populateDir_subdir_Ok projId projFolder ctime mtime dirPath n st st' :
  populateDir_subdir projId projFolder ctime mtime dirPath n st = (Ok tt, st') ->
  tx_le st st'
  /\ has_dir_row (tx st') (splitPath (filepath.Clean (dirPath ++ "/" ++ n)))
       projId (filepath.Clean (projFolder ++ "/" ++ n)) ctime mtime.
Proof.
  unfold populateDir_subdir. intros H.
  apply bind_Ok in H as (inode & s1 & H & Hret). inversion Hret; subst s1. clear Hret.
  split; [eapply createEmptyDir_le; exact H|].
  apply createEmptyDir_Ok in H as (_ & _ & _ & Hns & _ & Hd & _).
  eexists inode, _. rewrite Hns, Hd, !lookup_insert_eq. simpl. auto 10.
Qed.

Lemma populateDir_Ok dinode projId projFolder ctime mtime dirPath objs subdirs st st' :
  populateDir dinode projId projFolder ctime mtime dirPath objs subdirs st = (Ok tt, st') ->
  tx_le st st'
  /\ Forall (fun o => has_obj_row (tx st')
                        (dirPath, DxDescribeDataObject.Name o)
                        (DxDescribeDataObject.Id o)) objs
  /\ Forall (fun n => has_dir_row (tx st')
                        (splitPath (filepath.Clean (dirPath ++ "/" ++ n)))
                        projId (filepath.Clean (projFolder ++ "/" ++ n)) ctime mtime)
       subdirs
  /\ (forall r, directories (tx st) !! dinode = Some r ->
                directories (tx st') !! dinode = Some (set_populated r)).
Proof.
  unfold populateDir. intros H.
  apply bind_Ok in H as ([] & s1 & Hobjs & H).
  apply bind_Ok in H as ([] & s2 & Hsubs & H).
  inversion H; subst st'. clear H. simpl.
  apply (forEach_Ok _ tx_le
           (fun o s => has_obj_row (tx s) (dirPath, DxDescribeDataObject.Name o)
                         (DxDescribeDataObject.Id o))
           tx_le_refl tx_le_trans) in Hobjs as [Hle1 Hq1];
    [| intros; eapply populateDir_object_Ok; eassumption
     | intros; eapply has_obj_row_le; eassumption ].
  apply (forEach_Ok _ tx_le
           (fun n s => has_dir_row (tx s)
                         (splitPath (filepath.Clean (dirPath ++ "/" ++ n)))
                         projId (filepath.Clean (projFolder ++ "/" ++ n)) ctime mtime)
           tx_le_refl tx_le_trans) in Hsubs as [Hle2 Hq2];
    [| intros; eapply populateDir_subdir_Ok; eassumption
     | intros; eapply has_dir_row_le; eassumption ].
  pose proof (update_populated_le dinode (tx s2)) as Hle3.
  assert (Hle12 : db_le (tx st) (tx s2)) by (eapply db_le_trans; eassumption).
  split; [eapply db_le_trans; eassumption|].
  split.
  { eapply Forall_impl; [exact Hq1|]. intros o Ho. simpl in Ho.
    eapply has_obj_row_le; [exact Ho|]. eapply db_le_trans; eassumption. }
  split.
  { eapply Forall_impl; [exact Hq2|]. intros n Hn. simpl in Hn.
    eapply has_dir_row_le; eassumption. }
  intros r Hr. destruct Hle12 as [_ D _]. apply D in Hr as (r' & Hr' & Hle).
  rewrite lookup_alter, decide_True by reflexivity. rewrite Hr'. simpl.
  destruct Hle as [-> | ->]; reflexivity.
Qed.

Lemma fauxSubdir_Ok projId cA mA dirFullName entry st st' :
  fauxSubdir projId cA mA dirFullName entry st = (Ok tt, st') ->
  tx_le st st'
  /\ has_dir_row (tx st') (splitPath (filepath.Clean (dirFullName ++ "/" ++ entry.1)))
       projId "" cA mA.
Proof.
  unfold fauxSubdir. intros H.
  apply bind_Ok in H as (inode & s1 & Hdir & Hpop).
  pose proof (createEmptyDir_le _ _ _ _ _ _ _ _ _ Hdir) as Hle1.
  apply createEmptyDir_Ok in Hdir as (_ & _ & _ & Hns & _ & Hd & _).
  apply populateDir_Ok in Hpop as (Hle2 & _ & _ & _).
  split; [eapply tx_le_trans; eassumption|].
  eapply has_dir_row_le; [|exact Hle2].
  eexists inode, _. rewrite Hns, Hd, !lookup_insert_eq. simpl. auto 10.
Qed.

Lemma inTxn_Ok {A} (body : M TxState A) fsys a fsys' :
  inTxn body fsys = (Ok a, fsys') ->
  exists st', body (mkTx (db fsys) (inodeCnt fsys)) = (Ok a, st')
              /\ fsys' = commit st' fsys.
Proof.
  unfold inTxn. destruct (body _) as [[a'|e|m] st']; intros H; inversion H; eauto.
Qed.

(** A transaction that does not succeed leaves the tables as they were. *)
Lemma inTxn_not_Ok {A} (body : M TxState A) fsys r fsys' :
  inTxn body fsys = (r, fsys') -> isOk r = false ->
  db fsys' = db fsys /\ options fsys' = options fsys
  /\ baseDir2ProjectId fsys' = baseDir2ProjectId fsys
  /\ projId2Desc fsys' = projId2Desc fsys /\ remoteLog fsys' = remoteLog fsys.
Proof.
  unfold inTxn. destruct (body _) as [[a'|e|m] st']; intros H Hr; inversion H; subst;
    try discriminate; simpl; auto.
Qed.

Lemma directoryReadFromDNAx_Ok env dinode projId projFolder ctime mtime P fsys fsys' :
  directoryReadFromDNAx env dinode projId projFolder ctime mtime P fsys = (Ok tt, fsys') ->
  exists dxDir posixDir,
    DxDescribeFolder env projId projFolder = Got dxDir
    /\ PosixFixDir env dxDir = Got posixDir
    /\ db_le (db fsys) (db fsys')
    /\ options fsys' = options fsys
    /\ baseDir2ProjectId fsys' = baseDir2ProjectId fsys
    /\ projId2Desc fsys' = projId2Desc fsys
    /\ remoteLog fsys' = (remoteLog fsys ++ [CallDescribeFolder projId projFolder])%list
    /\ Forall (fun o => has_obj_row (db fsys')
                          (P, DxDescribeDataObject.Name o) (DxDescribeDataObject.Id o))
         (PosixDir.dataObjects posixDir)
    /\ Forall (fun n => has_dir_row (db fsys')
                          (splitPath (filepath.Clean (P ++ "/" ++ n)))
                          projId (filepath.Clean (projFolder ++ "/" ++ n))
                          (ctimeApproxOf ctime (DxFolder.dataObjects dxDir))
                          (mtimeApproxOf mtime (DxFolder.dataObjects dxDir)))
         (PosixDir.subdirs posixDir)
    /\ Forall (fun e => has_dir_row (db fsys')
                          (splitPath (filepath.Clean (P ++ "/" ++ e.1)))
                          projId ""
                          (ctimeApproxOf ctime (DxFolder.dataObjects dxDir))
                          (mtimeApproxOf mtime (DxFolder.dataObjects dxDir)))
         (PosixDir.fauxSubdirs posixDir)
    /\ (forall r, directories (db fsys) !! dinode = Some r ->
                  directories (db fsys') !! dinode = Some (set_populated r)).
Proof.
  unfold directoryReadFromDNAx. intros H.
  apply bind_Ok in H as (dxDir & f1 & Hdesc & H).
  unfold remote in Hdesc. inversion Hdesc as [[Hd Hf1]]. clear Hdesc.
  destruct (DxDescribeFolder env projId projFolder) as [dx|] eqn:Edx; [|discriminate].
  simpl in Hd. inversion Hd; subst dx. clear Hd. pose proof Edx as Hd.
  apply bind_Ok in H as (posixDir & f2 & Hfix & H).
  unfold liftRes in Hfix. inversion Hfix as [[Hp Hf2]]. subst f2. clear Hfix.
  destruct (PosixFixDir env dxDir) as [px|] eqn:Epx; [|discriminate].
  simpl in Hp. inversion Hp; subst px. clear Hp. pose proof Epx as Hp.
  apply inTxn_Ok in H as (st2 & Hbody & ->).
  apply bind_Ok in Hbody as ([] & st1 & Hpop & Hfaux).
  apply populateDir_Ok in Hpop as (Hle1 & Hobjs & Hsubs & Hdin).
  set (cA := ctimeApproxOf ctime (DxFolder.dataObjects dxDir)) in *.
  set (mA := mtimeApproxOf mtime (DxFolder.dataObjects dxDir)) in *.
  apply (forEach_Ok _ tx_le
           (fun e s => has_dir_row (tx s)
                         (splitPath (filepath.Clean (P ++ "/" ++ e.1))) projId "" cA mA)
           tx_le_refl tx_le_trans) in Hfaux as [Hle2 Hq];
    [| intros; eapply fauxSubdir_Ok; eassumption
     | intros; eapply has_dir_row_le; eassumption ].
  exists dxDir, posixDir. subst f1. simpl in *.
  split; [first [reflexivity | assumption]|].
  split; [first [reflexivity | assumption]|].
  split; [eapply db_le_trans; eassumption|].
  do 4 (split; [reflexivity|]).
  split.
  { eapply Forall_impl; [exact Hobjs|]. intros o Ho. simpl in Ho.
    eapply has_obj_row_le; eassumption. }
  split.
  { eapply Forall_impl; [exact Hsubs|]. intros n Hn. simpl in Hn.
    eapply has_dir_row_le; eassumption. }
  split; [exact Hq|].
  intros r Hr. apply Hdin in Hr. destruct Hle2 as [_ D _].
  apply D in Hr as (r' & Hr' & [-> | ->]); exact Hr'.
Qed.

(** When it does not succeed, the tables are as before, and only the log
    of remote calls has grown by the describe. *)
Lemma directoryReadFromDNAx_not_Ok env dinode projId projFolder ctime mtime P fsys r fsys' :
  directoryReadFromDNAx env dinode projId projFolder ctime mtime P fsys = (r, fsys') ->
  isOk r = false ->
  db fsys' = db fsys /\ options fsys' = options fsys
  /\ baseDir2ProjectId fsys' = baseDir2ProjectId fsys
  /\ projId2Desc fsys' = projId2Desc fsys.
Proof.
  unfold directoryReadFromDNAx. intros H Hr.
  apply bind_cases in H as [(dxDir & f1 & Hdesc & H) | [H _]].
  - unfold remote in Hdesc. inversion Hdesc as [[Hd Hf1]]. clear Hdesc.
    apply bind_cases in H as [(posixDir & f2 & Hfix & H) | [H _]].
    + unfold liftRes in Hfix. inversion Hfix as [[Hp Hf2]]. subst f2. clear Hfix.
      apply inTxn_not_Ok in H as (E1 & E2 & E3 & E4 & _); [|exact Hr].
      subst f1. simpl in *. auto.
    + unfold liftRes in H. inversion H; subst. simpl. auto.
  - unfold remote in H. inversion H; subst. simpl. auto.
Qed.

(** ** Paths: a clean absolute directory and a child name *)

#[local] Arguments String.append !s1 s2 : simpl nomatch.

Lemma string_app_assoc (a b c : string) : (a ++ b) ++ c = a ++ (b ++ c).
Proof. induction a as [|x a IH]; simpl; [reflexivity | rewrite IH; reflexivity]. Qed.

Lemma isSimpleName_spec n :
  isSimpleName n = true ->
  n <> "" /\ n <> "." /\ n <> ".." /\ hasSlash n = false.
Proof.
  unfold isSimpleName. rewrite !andb_true_iff, !negb_true_iff, !String.eqb_neq. tauto.
Qed.

Lemma splitSlash_nonempty s : filepath.splitSlash s <> [].
Proof.
  destruct s as [|c s]; simpl; [discriminate|].
  destruct (isSlash c); [discriminate|].
  destruct (filepath.splitSlash s); discriminate.
Qed.

Lemma splitSlash_app_slash a b :
  filepath.splitSlash (a ++ String "/" b)
  = (filepath.splitSlash a ++ filepath.splitSlash b)%list.
Proof.
  induction a as [|c a IH]; simpl; [reflexivity|].
  destruct (isSlash c); [rewrite IH; reflexivity|].
  rewrite IH. destruct (filepath.splitSlash a) as [|h t] eqn:E; [|reflexivity].
  exfalso. eapply splitSlash_nonempty; exact E.
Qed.

Lemma splitSlash_noslash n : hasSlash n = false -> filepath.splitSlash n = [n].
Proof.
  induction n as [|c n IH]; simpl; [reflexivity|].
  intros H. apply orb_false_iff in H as [Hc Hn]. rewrite Hc, (IH Hn). reflexivity.
Qed.

Lemma splitSlash_elements s : Forall (fun c => hasSlash c = false) (filepath.splitSlash s).
Proof.
  induction s as [|c s IH]; simpl; [repeat constructor|].
  destruct (isSlash c) eqn:Hc; [constructor; [reflexivity | exact IH]|].
  destruct (filepath.splitSlash s) as [|h t]; [repeat constructor; simpl; rewrite Hc; reflexivity|].
  inversion IH; subst. constructor; [simpl; rewrite Hc; assumption | assumption].
Qed.

Lemma splitSlash_joinSlash cs :
  Forall (fun c => hasSlash c = false) cs -> cs <> [] ->
  filepath.splitSlash (filepath.joinSlash cs) = cs.
Proof.
  induction cs as [|c cs IH]; [congruence|]. intros Hall _.
  inversion Hall as [|? ? Hc Hcs]; subst.
  destruct cs as [|c' cs'].
  - simpl. apply splitSlash_noslash, Hc.
  - change (filepath.joinSlash (c :: c' :: cs'))
      with (c ++ String "/" (filepath.joinSlash (c' :: cs'))).
    rewrite splitSlash_app_slash, (splitSlash_noslash c Hc), IH by (auto; discriminate).
    reflexivity.
Qed.

Lemma cleanStep_simple rooted stack c :
  isSimpleName c = true -> filepath.cleanStep rooted stack c = c :: stack.
Proof.
  intros (H1 & H2 & H3 & _)%isSimpleName_spec. unfold filepath.cleanStep.
  apply String.eqb_neq in H1, H2, H3. rewrite H1, H2, H3. reflexivity.
Qed.

Lemma cleanStep_empty rooted stack : filepath.cleanStep rooted stack "" = stack.
Proof. reflexivity. Qed.

Lemma fold_cleanStep_simple rooted cs stack :
  Forall (fun c => isSimpleName c = true) cs ->
  fold_left (filepath.cleanStep rooted) cs stack = (rev cs ++ stack)%list.
Proof.
  revert stack. induction cs as [|c cs IH]; intros stack Hall; [reflexivity|].
  inversion Hall; subst. simpl.
  rewrite cleanStep_simple by assumption. rewrite IH by assumption.
  rewrite <- app_assoc. reflexivity.
Qed.

(** On a rooted path, Clean's scan keeps simple names only. *)
Lemma fold_cleanStep_rooted_simple cs stack :
  Forall (fun c => hasSlash c = false) cs ->
  Forall (fun c => isSimpleName c = true) stack ->
  Forall (fun c => isSimpleName c = true) (fold_left (filepath.cleanStep true) cs stack).
Proof.
  revert stack. induction cs as [|c cs IH]; intros stack Hcs Hst; [exact Hst|].
  inversion Hcs as [|? ? Hc Hcs']; subst. simpl. apply IH; [exact Hcs'|].
  unfold filepath.cleanStep.
  destruct (String.eqb c "") eqn:E1; simpl; [exact Hst|].
  destruct (String.eqb c ".") eqn:E2; simpl; [exact Hst|].
  destruct (String.eqb c "..") eqn:E3.
  - destruct stack as [|top rest]; [constructor|].
    inversion Hst; subst.
    destruct (String.eqb top "..") eqn:E4; [|assumption].
    apply String.eqb_eq in E4. subst top. discriminate.
  - constructor; [|exact Hst].
    unfold isSimpleName. rewrite E1, E2, E3, Hc. reflexivity.
Qed.

Lemma Clean_rooted_shape p :
  HasPrefix p "/" = true ->
  exists cs, Forall (fun c => isSimpleName c = true) cs /\ filepath.Clean p = absPath cs.
Proof.
  intros Hp. unfold filepath.Clean.
  destruct (String.eqb p "") eqn:E.
  { apply String.eqb_eq in E. subst. discriminate. }
  rewrite Hp.
  exists (rev (fold_left (filepath.cleanStep true) (filepath.splitSlash p) [])).
  split; [|reflexivity].
  apply Forall_rev, fold_cleanStep_rooted_simple; [apply splitSlash_elements | constructor].
Qed.

Lemma simple_noslash cs :
  Forall (fun c => isSimpleName c = true) cs -> Forall (fun c => hasSlash c = false) cs.
Proof.
  intros H. eapply Forall_impl; [exact H|]. intros c Hc.
  apply isSimpleName_spec in Hc. tauto.
Qed.

Lemma splitSlash_absPath cs :
  Forall (fun c => isSimpleName c = true) cs ->
  filepath.splitSlash (absPath cs) = "" :: (if cs is [] then [""] else cs).
Proof.
  intros H. unfold absPath. simpl. f_equal.
  destruct cs as [|c cs]; [reflexivity|].
  apply splitSlash_joinSlash; [apply simple_noslash, H | discriminate].
Qed.

Lemma HasPrefix_slash s : HasPrefix (String "/" s) "/" = true.
Proof. unfold HasPrefix. simpl. destruct s; reflexivity. Qed.

Lemma HasPrefix_absPath cs rest : HasPrefix (absPath cs ++ rest) "/" = true.
Proof. apply HasPrefix_slash. Qed.

Lemma Clean_absPath cs :
  Forall (fun c => isSimpleName c = true) cs -> filepath.Clean (absPath cs) = absPath cs.
Proof.
  intros H. unfold filepath.Clean.
  change (String.eqb (absPath cs) "") with false. cbv iota.
  rewrite (HasPrefix_slash (filepath.joinSlash cs) : HasPrefix (absPath cs) "/" = true).
  cbv zeta iota.
  rewrite splitSlash_absPath by exact H. simpl fold_left.
  destruct cs as [|c cs]; [reflexivity|].
  rewrite fold_cleanStep_simple by exact H.
  rewrite app_nil_r, rev_involutive. reflexivity.
Qed.

Lemma joinSlash_snoc cs n :
  cs <> [] -> filepath.joinSlash (cs ++ [n]) = filepath.joinSlash cs ++ "/" ++ n.
Proof.
  induction cs as [|c cs IH]; [congruence|]. intros _.
  destruct cs as [|c' cs'].
  - reflexivity.
  - change (filepath.joinSlash ((c :: c' :: cs') ++ [n])%list)
      with (c ++ "/" ++ filepath.joinSlash ((c' :: cs') ++ [n])%list).
    rewrite IH by discriminate.
    change (filepath.joinSlash (c :: c' :: cs'))
      with (c ++ "/" ++ filepath.joinSlash (c' :: cs')).
    rewrite !string_app_assoc. reflexivity.
Qed.

(** The path of a child, as the code builds it. *)
Lemma Clean_child cs n :
  Forall (fun c => isSimpleName c = true) cs -> isSimpleName n = true ->
  filepath.Clean (absPath cs ++ "/" ++ n) = absPath (cs ++ [n]).
Proof.
  intros Hcs Hn. pose proof (isSimpleName_spec n Hn) as (_ & _ & _ & Hslash).
  unfold filepath.Clean.
  change (String.eqb (absPath cs ++ "/" ++ n) "") with false. cbv iota.
  rewrite HasPrefix_absPath. cbv zeta iota.
  change (absPath cs ++ "/" ++ n) with (absPath cs ++ String "/" n).
  rewrite splitSlash_app_slash, splitSlash_absPath, (splitSlash_noslash n Hslash)
    by exact Hcs.
  assert (E : fold_left (filepath.cleanStep true)
                ("" :: (if cs is [] then [""] else cs)) [] = rev cs).
  { destruct cs as [|c cs']; [reflexivity|].
    change (fold_left (filepath.cleanStep true) ("" :: c :: cs') [])
      with (fold_left (filepath.cleanStep true) (c :: cs')
              (filepath.cleanStep true [] "")).
    rewrite cleanStep_empty, fold_cleanStep_simple by exact Hcs.
    apply app_nil_r. }
  assert (F : fold_left (filepath.cleanStep true)
                (("" :: (if cs is [] then [""] else cs)) ++ [n])%list [] = n :: rev cs).
  { rewrite fold_left_app, E. simpl. apply cleanStep_simple, Hn. }
  rewrite F.
  change (rev (n :: rev cs)) with (rev (rev cs) ++ [n])%list.
  rewrite rev_involutive. reflexivity.
Qed.

Lemma hasSlash_app_slash a b : hasSlash (a ++ String "/" b) = true.
Proof.
  induction a as [|c a IH]; simpl; [reflexivity|].
  rewrite IH. apply orb_true_r.
Qed.

Lemma uptoLastSlash_noslash n : hasSlash n = false -> filepath.uptoLastSlash n = "".
Proof. destruct n as [|c n]; [reflexivity|]. simpl hasSlash. intros H. simpl. rewrite H. reflexivity. Qed.

Lemma afterLastSlash_noslash n : hasSlash n = false -> filepath.afterLastSlash n = n.
Proof. destruct n as [|c n]; [reflexivity|]. simpl hasSlash. intros H. simpl. rewrite H. reflexivity. Qed.

Lemma uptoLastSlash_app a n :
  hasSlash n = false -> filepath.uptoLastSlash (a ++ String "/" n) = a ++ "/".
Proof.
  intros Hn. induction a as [|c a IH].
  - simpl. rewrite (uptoLastSlash_noslash n Hn). reflexivity.
  - change (String c a ++ String "/" n) with (String c (a ++ String "/" n)).
    cbn [filepath.uptoLastSlash].
    change (hasSlash (String c (a ++ String "/" n)))
      with (isSlash c || hasSlash (a ++ String "/" n)).
    rewrite hasSlash_app_slash, orb_true_r, IH. reflexivity.
Qed.

Lemma afterLastSlash_app a n :
  hasSlash n = false -> filepath.afterLastSlash (a ++ String "/" n) = n.
Proof.
  intros Hn. induction a as [|c a IH].
  - simpl. apply afterLastSlash_noslash, Hn.
  - change (String c a ++ String "/" n) with (String c (a ++ String "/" n)).
    cbn [filepath.afterLastSlash].
    change (hasSlash (String c (a ++ String "/" n)))
      with (isSlash c || hasSlash (a ++ String "/" n)).
    rewrite hasSlash_app_slash, orb_true_r, IH. reflexivity.
Qed.

Lemma allSlashes_app_name a n :
  n <> "" -> hasSlash n = false -> allSlashes (a ++ n) = false.
Proof.
  intros Hne Hn. induction a as [|c a IH].
  - destruct n as [|c n]; [congruence|]. simpl in *.
    apply orb_false_iff in Hn as [-> _]. reflexivity.
  - change (String c a ++ n) with (String c (a ++ n)). simpl.
    rewrite IH. apply andb_false_r.
Qed.

Lemma stripTrailingSlashes_noslash n :
  hasSlash n = false -> filepath.stripTrailingSlashes n = n.
Proof.
  induction n as [|c n IH]; [reflexivity|]. simpl.
  intros H. apply orb_false_iff in H as [Hc Hn]. rewrite Hc. simpl.
  rewrite (IH Hn). reflexivity.
Qed.

Lemma stripTrailingSlashes_app_name a n :
  n <> "" -> hasSlash n = false -> filepath.stripTrailingSlashes (a ++ n) = a ++ n.
Proof.
  intros Hne Hn. induction a as [|c a IH].
  - simpl. apply stripTrailingSlashes_noslash, Hn.
  - change (String c a ++ n) with (String c (a ++ n)).
    cbn [filepath.stripTrailingSlashes].
    change (allSlashes (String c (a ++ n))) with (isSlash c && allSlashes (a ++ n)).
    rewrite (allSlashes_app_name a n Hne Hn), andb_false_r, IH. reflexivity.
Qed.

Lemma Clean_trailing_slash cs :
  Forall (fun c => isSimpleName c = true) cs ->
  filepath.Clean (absPath cs ++ "/") = absPath cs.
Proof.
  intros Hcs. unfold filepath.Clean.
  change (String.eqb (absPath cs ++ "/") "") with false. cbv iota.
  rewrite HasPrefix_absPath. cbv zeta iota.
  change (absPath cs ++ "/") with (absPath cs ++ String "/" "").
  rewrite splitSlash_app_slash, splitSlash_absPath by exact Hcs.
  assert (F : fold_left (filepath.cleanStep true)
                (("" :: (if cs is [] then [""] else cs)) ++ filepath.splitSlash "")%list []
              = rev cs).
  { rewrite fold_left_app.
    destruct cs as [|c cs']; [reflexivity|].
    change (fold_left (filepath.cleanStep true) ("" :: c :: cs') [])
      with (fold_left (filepath.cleanStep true) (c :: cs')
              (filepath.cleanStep true [] "")).
    rewrite cleanStep_empty, (fold_cleanStep_simple true (c :: cs') [] Hcs).
    rewrite app_nil_r. reflexivity. }
  rewrite F, rev_involutive. reflexivity.
Qed.

(** The path of a child splits into the parent and the child's name. *)
Lemma splitPath_child cs n :
  Forall (fun c => isSimpleName c = true) cs -> isSimpleName n = true ->
  splitPath (absPath (cs ++ [n])) = (absPath cs, n).
Proof.
  intros Hcs Hn. pose proof (isSimpleName_spec n Hn) as (Hne & _ & _ & Hslash).
  assert (E : exists X, absPath (cs ++ [n]) = X ++ String "/" n
                        /\ filepath.Clean (X ++ "/") = absPath cs).
  { destruct cs as [|c cs'].
    - exists "". split; reflexivity.
    - exists (absPath (c :: cs')). split; [|apply Clean_trailing_slash, Hcs].
      unfold absPath. rewrite joinSlash_snoc by discriminate.
      rewrite <- string_app_assoc. reflexivity. }
  destruct E as (X & EX & EC). rewrite EX. unfold splitPath.
  assert (Hroot : String.eqb (X ++ String "/" n) "/" = false).
  { apply String.eqb_neq. destruct X as [|x X]; simpl.
    - intros [= ->]. congruence.
    - intros [= _ H]. destruct X; discriminate. }
  rewrite Hroot. f_equal.
  - unfold filepath.Dir. rewrite uptoLastSlash_app by exact Hslash. exact EC.
  - unfold filepath.Base.
    assert (Hnonempty : String.eqb (X ++ String "/" n) "" = false).
    { apply String.eqb_neq. destruct X; discriminate. }
    rewrite Hnonempty.
    change (X ++ String "/" n) with (X ++ "/" ++ n).
    rewrite <- string_app_assoc.
    rewrite stripTrailingSlashes_app_name by assumption.
    rewrite string_app_assoc.
    change (X ++ "/" ++ n) with (X ++ String "/" n).
    rewrite afterLastSlash_app by exact Hslash.
    apply String.eqb_neq in Hne. rewrite Hne. reflexivity.
Qed.


(** ** directoryLookup *)

Lemma directoryLookup_Some fsys P rc dInfo :
  directoryLookup fsys P = Ok (rc, Some dInfo) ->
  exists r dr,
    namespace (db fsys) !! splitPath P = Some r
    /\ ns_obj_type r = nsDirType
    /\ ns_inode r = DirInfo.inode dInfo
    /\ directories (db fsys) !! DirInfo.inode dInfo = Some dr
    /\ dInfo = DirInfo.mk (ns_inode r) (dr_proj_id dr) (dr_proj_folder dr)
                 (dr_ctime dr) (dr_mtime dr)
    /\ ((rc = dirExistsButNotPopulated /\ dr_populated dr = 0)
        \/ (rc = dirExistAndPopulated /\ dr_populated dr = 1)).
Proof.
  unfold directoryLookup. destruct (splitPath P) as [pd b].
  destruct (namespace (db fsys) !! (pd, b)) as [r|] eqn:Hn; [|discriminate].
  destruct (ns_obj_type r =? nsDirType) eqn:Ht; simpl; [|discriminate].
  destruct (directories (db fsys) !! ns_inode r) as [dr|] eqn:Hd; [|discriminate].
  destruct (dr_populated dr =? 0) eqn:H0.
  - intros [= <- <-]. exists r, dr. simpl. rewrite Hd.
    apply Z.eqb_eq in Ht, H0. auto 10.
  - destruct (dr_populated dr =? 1) eqn:H1; [|discriminate].
    intros [= <- <-]. exists r, dr. simpl. rewrite Hd.
    apply Z.eqb_eq in Ht, H1. auto 10.
Qed.

Lemma directoryLookup_populated fsys P r dr :
  namespace (db fsys) !! splitPath P = Some r ->
  ns_obj_type r = nsDirType ->
  directories (db fsys) !! ns_inode r = Some dr ->
  dr_populated dr = 1 ->
  directoryLookup fsys P
  = Ok (dirExistAndPopulated,
        Some (DirInfo.mk (ns_inode r) (dr_proj_id dr) (dr_proj_folder dr)
                (dr_ctime dr) (dr_mtime dr))).
Proof.
  intros Hn Ht Hd Hp. unfold directoryLookup. destruct (splitPath P) as [pd b].
  rewrite Hn, Ht, Hd, Hp. reflexivity.
Qed.


(** ** C1: what a successful population leaves *)


(** ** C2: a failed population changes nothing in the tables *)

(** C2.  When directoryReadFromDNAx does not return success, the three
    tables are exactly as before the call, so no row was added and every
    directory's populated flag is what it was; and when the remote
    describe fails, its error is the error the caller gets. *)
Theorem directoryReadFromDNAx_failure_keeps_db env dinode projId projFolder ctime mtime
    P fsys :
  (forall r fsys',
      directoryReadFromDNAx env dinode projId projFolder ctime mtime P fsys = (r, fsys') ->
      isOk r = false ->
      db fsys' = db fsys /\ forall Q, directoryLookup fsys' Q = directoryLookup fsys Q)
  /\ (forall msg,
        DxDescribeFolder env projId projFolder = Failed msg ->
        exists fsys',
          directoryReadFromDNAx env dinode projId projFolder ctime mtime P fsys
            = (Err (RemoteError msg), fsys')
          /\ db fsys' = db fsys).
Proof.
  split.
  - intros r fsys' H Hr.
    apply directoryReadFromDNAx_not_Ok in H as (Hdb & _); [|exact Hr].
    split; [exact Hdb|]. intros Q. unfold directoryLookup. rewrite Hdb. reflexivity.
  - intros msg He. unfold directoryReadFromDNAx, bind, remote. rewrite He.
    eexists. split; reflexivity.
Qed.

(** ** C4: the times a population computes, and where they go *)

Lemma MinInt64_spec x y : MinInt64 x y = Z.min x y.
Proof. unfold MinInt64. destruct (Z.gtb_spec x y); lia. Qed.

Lemma MaxInt64_spec x y : MaxInt64 x y = Z.max x y.
Proof. unfold MaxInt64. destruct (Z.ltb_spec x y); lia. Qed.

Lemma ctimeApproxOf_is_min ctime objs :
  is_min (ctimeApproxOf ctime objs)
    (ctime :: List.map DxDescribeDataObject.CtimeSeconds objs).
Proof.
  unfold ctimeApproxOf. revert ctime.
  induction objs as [|o objs IH]; intros ctime; simpl.
  - split; [left; reflexivity|]. intros x [<-|[]]. lia.
  - destruct (IH (MinInt64 ctime (DxDescribeDataObject.CtimeSeconds o))) as [Hin Hle].
    rewrite MinInt64_spec in *. split.
    + destruct Hin as [Hin|Hin]; [|right; right; exact Hin].
      rewrite <- Hin.
      destruct (Z.min_spec ctime (DxDescribeDataObject.CtimeSeconds o)) as [[_ ->]|[_ ->]];
        [left|right; left]; reflexivity.
    + intros x [<-|[<-|Hx]].
      * specialize (Hle _ (or_introl eq_refl)). lia.
      * specialize (Hle _ (or_introl eq_refl)). lia.
      * apply Hle. right. exact Hx.
Qed.

Lemma mtimeApproxOf_is_max mtime objs :
  is_max (mtimeApproxOf mtime objs)
    (mtime :: List.map DxDescribeDataObject.MtimeSeconds objs).
Proof.
  unfold mtimeApproxOf. revert mtime.
  induction objs as [|o objs IH]; intros mtime; simpl.
  - split; [left; reflexivity|]. intros x [<-|[]]. lia.
  - destruct (IH (MaxInt64 mtime (DxDescribeDataObject.MtimeSeconds o))) as [Hin Hle].
    rewrite MaxInt64_spec in *. split.
    + destruct Hin as [Hin|Hin]; [|right; right; exact Hin].
      rewrite <- Hin.
      destruct (Z.max_spec mtime (DxDescribeDataObject.MtimeSeconds o)) as [[_ ->]|[_ ->]];
        [right; left|left]; reflexivity.
    + intros x [<-|[<-|Hx]].
      * specialize (Hle _ (or_introl eq_refl)). lia.
      * specialize (Hle _ (or_introl eq_refl)). lia.
      * apply Hle. right. exact Hx.
Qed.


(** The directory record of [P] itself keeps its times through the call. *)
Lemma directoryReadFromDNAx_own_times env fsys P rc dInfo fsys' :
  directoryLookup fsys P = Ok (rc, Some dInfo) ->
  readFromDNAxOf env (Some dInfo) P fsys = (Ok tt, fsys') ->
  exists dInfo',
    directoryLookup fsys' P = Ok (dirExistAndPopulated, Some dInfo')
    /\ DirInfo.ctime dInfo' = DirInfo.ctime dInfo
    /\ DirInfo.mtime dInfo' = DirInfo.mtime dInfo.
Proof.
  intros Hlook Hrun. simpl in Hrun.
  apply directoryReadFromDNAx_Ok in Hrun
    as (dxDir & posixDir & _ & _ & Hle & _ & _ & _ & _ & _ & _ & _ & Hpop).
  apply directoryLookup_Some in Hlook as (r & dr & Hn & Ht & Hi & Hdr & -> & _).
  simpl in *. apply Hpop in Hdr. destruct Hle as [N _ _]. apply N in Hn.
  eexists. split; [apply (directoryLookup_populated fsys' P r (set_populated dr)); auto|].
  split; reflexivity.
Qed.

(** ** Which errors the writers can return *)











(** ** directoryExists *)






(** ** Lookup in a directory *)





(** ** What inline_data holds *)

Lemma inlineDataOfFile_kindOfFile o :
  inlineDataOfFile (kindOfFile o) o
  = if kindOfFile o =? FK_Symlink then DxDescribeDataObject.SymlinkPath o else "".
Proof.
  unfold inlineDataOfFile.
  destruct ((kindOfFile o =? FK_Regular)
            && (0 <? String.length (DxDescribeDataObject.SymlinkPath o))%nat) eqn:E;
    [|reflexivity].
  exfalso. apply andb_true_iff in E as [Ek El]. apply Z.eqb_eq in Ek.
  unfold kindOfFile in Ek. rewrite El in Ek.
  match type of Ek with
  | (if (?k =? FK_Regular) && true then _ else _) = _ =>
      destruct (k =? FK_Regular) eqn:E2; simpl in Ek
  end.
  - discriminate.
  - apply Z.eqb_neq in E2. congruence.
Qed.

(** A new object's row is written with the kind and inline data passed. *)
Lemma createDataObject_new_row kind projId objId size ctime mtime parentDir fname
    inlineData st inode st' :
  select_by_id objId (tx st) = [] ->
  createDataObject kind projId objId size ctime mtime parentDir fname inlineData st
    = (Ok inode, st') ->
  namespace (tx st') !! (parentDir, fname) = Some (mkNsRow nsDataObjType inode)
  /\ data_objects (tx st') !! inode
     = Some (mkDataObjRow kind objId projId size ctime mtime 1 inlineData).
Proof.
  intros Hsel H.
  apply createDataObject_Ok in H as (_ & Hns & _ & Hcase).
  rewrite Hns, lookup_insert_eq. split; [reflexivity|].
  destruct Hcase as [(_ & _ & _ & ->) | (r & _ & Hr & Hid & _ & _)].
  - apply lookup_insert_eq.
  - exfalso. eapply select_by_id_nil; eassumption.
Qed.

Lemma inTxn_le {A} (body : M TxState A) fsys r fsys' :
  (forall st a st', body st = (Ok a, st') -> tx_le st st') ->
  inTxn body fsys = (r, fsys') -> db_le (db fsys) (db fsys').
Proof.
  intros Hb. unfold inTxn.
  destruct (body _) as [[a|e|m] st'] eqn:Eb; intros H; inversion H; subst; simpl;
    try apply db_le_refl.
  apply Hb in Eb. exact Eb.
Qed.

(** X29.  For strings with no quote character and no NUL, and inline data
    that the column keeps as it is (a text that does not read as a
    number), the inline data of a data-object row is decided when the row
    is written and is not rewritten afterwards:
    - a row written by populateDir for a described object holds the
      object's symlink path when kindOfFile makes it a symlink, and the
      empty string otherwise;
    - a row written for a file of the manifest is a regular file with the
      empty string;
    - the row written by CreateFile is a regular file that holds the
      local staging path;
    - one more link to a recorded object (createDataObject on a known Id)
      and the update of size and mtime (MetadataDbUpdateFile) keep the
      kind and the inline data of every row. *)
Theorem inline_data_by_origin :
  (forall dirPath o st st',
      forallb sqlText [dirPath; DxDescribeDataObject.Id o; DxDescribeDataObject.ProjId o;
                       DxDescribeDataObject.Name o; DxDescribeDataObject.SymlinkPath o]
      = true ->
      keptAsText (DxDescribeDataObject.SymlinkPath o) = true ->
      select_by_id (DxDescribeDataObject.Id o) (tx st) = [] ->
      populateDir_object dirPath o st = (Ok tt, st') ->
      exists i r,
        namespace (tx st') !! (dirPath, DxDescribeDataObject.Name o)
        = Some (mkNsRow nsDataObjType i)
        /\ data_objects (tx st') !! i = Some r
        /\ do_id r = DxDescribeDataObject.Id o
        /\ do_kind r = kindOfFile o
        /\ do_inline_data r
           = if kindOfFile o =? FK_Symlink then DxDescribeDataObject.SymlinkPath o
             else "")
  /\ (forall fl st st',
        forallb sqlText [ManifestFile.ProjId fl; ManifestFile.FileId fl;
                         ManifestFile.Parent fl; ManifestFile.Fname fl] = true ->
        select_by_id (ManifestFile.FileId fl) (tx st) = [] ->
        populateRoot_file fl st = (Ok tt, st') ->
        exists i r,
          namespace (tx st') !! (ManifestFile.Parent fl, ManifestFile.Fname fl)
          = Some (mkNsRow nsDataObjType i)
          /\ data_objects (tx st') !! i = Some r
          /\ do_id r = ManifestFile.FileId fl
          /\ do_kind r = FK_Regular /\ do_inline_data r = "")
  /\ (forall env dir fname localPath fsys fsys1 f fsys',
        forallb sqlText [Dir.FullPath dir; fname; localPath; File.Id f; File.ProjId f]
        = true ->
        keptAsText localPath = true ->
        MetadataDbLookupInDir env (Dir.FullPath dir) fname fsys = (Err ENOENT, fsys1) ->
        select_by_id (File.Id f) (db fsys1) = [] ->
        CreateFile env dir fname localPath fsys = (Ok f, fsys') ->
        exists r,
          namespace (db fsys') !! (Dir.FullPath dir, fname)
          = Some (mkNsRow nsDataObjType (File.Inode f))
          /\ data_objects (db fsys') !! File.Inode f = Some r
          /\ do_id r = File.Id f
          /\ do_kind r = FK_Regular /\ do_inline_data r = localPath
          /\ File.Kind f = FK_Regular /\ File.InlineData f = localPath)
  /\ (forall kind projId objId size ctime mtime parentDir fname inlineData st inode st' i r,
        forallb sqlText [projId; objId; parentDir; fname; inlineData] = true ->
        createDataObject kind projId objId size ctime mtime parentDir fname inlineData st
          = (Ok inode, st') ->
        data_objects (tx st) !! i = Some r ->
        exists r', data_objects (tx st') !! i = Some r'
                   /\ do_kind r' = do_kind r /\ do_inline_data r' = do_inline_data r)
  /\ (forall f fInfoSize fInfoModTime fsys res fsys' i r,
        MetadataDbUpdateFile f fInfoSize fInfoModTime fsys = (res, fsys') ->
        data_objects (db fsys) !! i = Some r ->
        exists r', data_objects (db fsys') !! i = Some r'
                   /\ do_kind r' = do_kind r /\ do_inline_data r' = do_inline_data r).
Proof.
  split; [|split; [|split; [|split]]].
  - intros dirPath o st st' _ _ Hsel H. unfold populateDir_object in H.
    apply bind_Ok in H as (inode & s1 & H & Hret). inversion Hret; subst s1.
    apply (createDataObject_new_row _ _ _ _ _ _ _ _ _ _ _ _ Hsel) in H as [Hn Hd].
    eexists inode, _. split; [exact Hn|]. split; [exact Hd|]. simpl.
    rewrite inlineDataOfFile_kindOfFile. auto.
  - intros fl st st' _ Hsel H. unfold populateRoot_file in H.
    apply bind_Ok in H as (inode & s1 & H & Hret). inversion Hret; subst s1.
    apply (createDataObject_new_row _ _ _ _ _ _ _ _ _ _ _ _ Hsel) in H as [Hn Hd].
    eexists inode, _. split; [exact Hn|]. split; [exact Hd|]. simpl. auto.
  - intros env dir fname localPath fsys fsys1 f fsys' _ _ Hlook Hsel H.
    unfold CreateFile in H. rewrite Hlook in H.
    apply bind_Ok in H as ([projId folder] & f2 & Hproj & H).
    unfold liftRes in Hproj. inversion Hproj as [[Hp Hf2]]. subst f2. clear Hproj.
    apply bind_Ok in H as (fileId & f3 & Hnew & H).
    unfold remote in Hnew. inversion Hnew as [[Hid Hf3]]. clear Hnew.
    apply bind_Ok in H as (inode & f4 & Htx & H).
    inversion H; subst f f4. clear H. simpl in *.
    apply inTxn_Ok in Htx as (st' & Hbody & ->). subst f3. simpl in *.
    apply createDataObject_new_row in Hbody as [Hn Hd]; [|exact Hsel].
    eexists. split; [exact Hn|]. split; [exact Hd|]. simpl. auto 10.
  - intros kind projId objId size ctime mtime parentDir fname inlineData st inode st' i r
      _ H Hi.
    apply createDataObject_le in H. destruct H as [_ _ O].
    apply O in Hi as (r' & Hr' & (n & sz & mt & ->)). eauto.
  - intros f sz mt fsys res fsys' i r H Hi. unfold MetadataDbUpdateFile in H.
    apply inTxn_le in H.
    + destruct H as [_ _ O]. apply O in Hi as (r' & Hr' & (n & sz' & mt' & ->)). eauto.
    + intros st a st' Hex. apply exec_Ok in Hex as (d & Hd & ->).
      inversion Hd; subst d. apply update_size_mtime_le.
Qed.

(** * Concrete runs *)



(** The mount after the population of [/proj]: the rows of the namespace,
    the inode counter, and the link counts. *)
Example fsys_proj_populated_rows :
  List.map fst (map_to_list (namespace (db fsys_proj_populated)))
  ≡ₚ [("", "/"); ("/", "proj"); ("/proj", "a.txt"); ("/proj", "b.txt");
      ("/proj", "sub"); ("/proj", "data.bin");
      ("/proj/data.bin", "1_data.bin"); ("/proj/data.bin", "2_data.bin")]
  /\ inodeCnt fsys_proj_populated = 8
  /\ nlink_inv_b (db fsys_proj_populated) = true.
Proof.
  split; [|split; vm_compute; reflexivity].
  assert (E : exists l, List.map fst (map_to_list (namespace (db fsys_proj_populated))) = l
                        /\ l ≡ₚ [("", "/"); ("/", "proj"); ("/proj", "a.txt");
                                 ("/proj", "b.txt"); ("/proj", "sub"); ("/proj", "data.bin");
                                 ("/proj/data.bin", "1_data.bin");
                                 ("/proj/data.bin", "2_data.bin")]).
  { eexists. split; [vm_compute; reflexivity|]. solve_Permutation. }
  destruct E as (l & -> & Hl). exact Hl.
Qed.


(** C2 on two runs: the platform is down; and the describe succeeds but
    the name [b.txt] is taken, so the transaction is rolled back after the
    rows of [a.txt] were written to it (the inode counter has moved on). *)
Example directoryReadFromDNAx_failures :
  (let out := readFromDNAxOf env_down (Some dInfo_proj) "/proj" fsys_proj in
   out.1 = Err (RemoteError "no route") /\ db out.2 = db fsys_proj)
  /\ (let out := readFromDNAxOf env_demo (Some dInfo_proj) "/proj" fsys_taken in
      out.1 = Err (SqlUnique "namespace") /\ db out.2 = db fsys_taken
      /\ inodeCnt out.2 = 4).
Proof. vm_compute. repeat split; reflexivity. Qed.


(** The link count of [file-A] goes from 1 to 2, with two namespace rows
    on its inode, and no inode is allocated. *)
Example createDataObject_link_counts :
  let st' := snd (createDataObject FK_Regular "project-1" "file-A" 10 50 250
                    "/proj/sub" "a.txt" "" st_linked) in
  (do_nlink <$> data_objects (tx st_linked) !! 3) = Some 1
  /\ (do_nlink <$> data_objects (tx st') !! 3) = Some 2
  /\ nsCount (tx st') 3 = 2%nat
  /\ cnt st' = cnt st_linked.
Proof. vm_compute. repeat split; reflexivity. Qed.



(** The records of [/proj/sub] and of the faux [/proj/data.bin] carry
    ctime 10 = min(10, 50, 60, 55, 65) and mtime 300 = max(200, 250, 300,
    260, 270). *)
Example subdir_times_after_population :
  (directories (db fsys_proj_populated) !! 5)
  = Some (mkDirRow "project-1" "/sub" 0 10 300)
  /\ (directories (db fsys_proj_populated) !! 6)
     = Some (mkDirRow "project-1" "" 1 10 300).
Proof. vm_compute. split; reflexivity. Qed.

(** C5 on the directory that the index returns for a read-only project
    after the bootstrap. *)
Lemma Create_read_only_denied_witness :
  fastLookup fsys_ro_mounted "/" "readonly" = Ok (NodeDir dir_ro_found)
  /\ (Options.ReadOnly (options fsys_ro_mounted) = true
      \/ projectIsReadOnly fsys_ro_mounted dir_ro_found = true)
  /\ Create env_ro dir_ro_found "x.txt" "/var/dxfuse/created_files/1_nonce"
       fsys_ro_mounted
     = (Err EPERM, fsys_ro_mounted)
  /\ remoteLog (snd (Create env_ro dir_ro_found "x.txt"
                       "/var/dxfuse/created_files/1_nonce" fsys_ro_mounted))
     = remoteLog fsys_ro_mounted.
Proof.
  assert (H : Options.ReadOnly (options fsys_ro_mounted) = true
              \/ projectIsReadOnly fsys_ro_mounted dir_ro_found = true)
    by (right; vm_compute; reflexivity).
  split; [vm_compute; reflexivity|]. split; [exact H|].
  exact (Create_read_only_denied env_ro fsys_ro_mounted dir_ro_found "x.txt"
           "/var/dxfuse/created_files/1_nonce" H).
Defined.

(** C5 as it is stated, of CreateFile.  On a read-only mount CreateFile
    returns a file and has made a file-new call.  In the directory of a
    read-only project it makes the file-new call too, and what it returns
    is the platform's refusal, not the permission error. *)
Lemma CreateFile_read_only_counterexample :
  (Options.ReadOnly (options fsys_proj_ro_mount) = true
   /\ (CreateFile env_demo dir_proj "new.txt" "/var/dxfuse/created_files/1_nonce"
         fsys_proj_ro_mount).1
      = Ok (File.mk FK_Regular "file-NEW" "project-1" "new.txt" 0 9
              (secondsToTime 1000) (secondsToTime 1000) 0 1 0 0
              "/var/dxfuse/created_files/1_nonce")
   /\ remoteLog (CreateFile env_demo dir_proj "new.txt"
                   "/var/dxfuse/created_files/1_nonce" fsys_proj_ro_mount).2
      = [CallFileNew "nonce-1" "project-1" "new.txt" "/"])
  /\ (projectIsReadOnly fsys_ro_mounted dir_ro_found = true
      /\ (CreateFile env_ro dir_ro_found "x.txt" "/var/dxfuse/created_files/1_nonce"
            fsys_ro_mounted).1
         = Err (RemoteError "PermissionDenied")
      /\ remoteLog (CreateFile env_ro dir_ro_found "x.txt"
                      "/var/dxfuse/created_files/1_nonce" fsys_ro_mounted).2
         = (remoteLog fsys_ro_mounted
            ++ [CallDescribeFolder "project-ro" "/";
                CallFileNew "nonce-3" "project-ro" "x.txt" "/"])%list).
Proof. vm_compute. repeat split; reflexivity. Qed.

(** CreateFile itself looks at neither the mount option nor the project:
    called on a read-only mount it goes to the platform and writes the
    row.  The refusal is the caller's. *)
Example CreateFile_has_no_gate :
  let out := CreateFile env_demo dir_proj "new.txt" "/var/dxfuse/created_files/1_nonce"
               fsys_proj_ro_mount in
  Options.ReadOnly (options fsys_proj_ro_mount) = true
  /\ out.1 = Ok (File.mk FK_Regular "file-NEW" "project-1" "new.txt" 0 9
                   (secondsToTime 1000) (secondsToTime 1000) 0 1 0 0
                   "/var/dxfuse/created_files/1_nonce")
  /\ remoteLog out.2 = [CallFileNew "nonce-1" "project-1" "new.txt" "/"]
  /\ (do_inline_data <$> data_objects (db out.2) !! 9)
     = Some "/var/dxfuse/created_files/1_nonce".
Proof. vm_compute. repeat split; reflexivity. Qed.


(** The same for a name that [/proj] does not have; one describe was
    made in all. *)
Example lookup_missing_name_twice :
  let out := MetadataDbLookupInDir env_demo "/proj" "nothing" fsys_proj in
  out.1 = Err ENOENT
  /\ MetadataDbLookupInDir env_down "/proj" "nothing" out.2 = (Err ENOENT, out.2)
  /\ remoteLog out.2 = [CallDescribeFolder "project-1" "/"].
Proof. vm_compute. repeat split; reflexivity. Qed.

(** The bootstrap, on a manifest with one project directory and one
    file: the root ends populated, [/proj] waits to be populated, the
    file's row has no inline data. *)
Example MetadataDbPopulateRoot_demo :
  let out := MetadataDbPopulateRoot env_demo manifest_demo fsys_new in
  out.1 = Ok tt
  /\ directoryLookup out.2 "/" = Ok (dirExistAndPopulated, Some (DirInfo.mk 1 "" "" 7 7))
  /\ directoryLookup out.2 "/proj"
     = Ok (dirExistsButNotPopulated, Some (DirInfo.mk 3 "project-1" "/" 10 200))
  /\ fastLookup out.2 "/" "m.txt"
     = Ok (NodeFile (File.mk FK_Regular "file-M" "project-1" "m.txt" 3 2
                       (secondsToTime 40) (secondsToTime 41) 0 1 0 0 ""))
  /\ baseDir2ProjectId out.2 = {[ "/proj" := "project-1" ]}
  /\ nlink_inv_b (db out.2) = true.
Proof. vm_compute. repeat split; reflexivity. Qed.

(** The rows written for a symbolic link and for an applet of the
    platform. *)
Example populateDir_object_inline_data :
  (let st' := snd (populateDir_object "/proj" obj_link st_proj) in
   data_objects (tx st') !! 3
   = Some (mkDataObjRow FK_Symlink "file-L" "project-1" 0 70 280 1 "/etc/hosts"))
  /\ (let st' := snd (populateDir_object "/proj" obj_applet st_proj) in
      data_objects (tx st') !! 3
      = Some (mkDataObjRow FK_Applet "applet-X" "project-1" 0 70 280 1 "")).
Proof. vm_compute. split; reflexivity. Qed.

(** X29, first part, on the symbolic link. *)
Lemma inline_data_by_origin_witness :
  exists i r,
    namespace (tx (snd (populateDir_object "/proj" obj_link st_proj))) !! ("/proj", "hosts")
    = Some (mkNsRow nsDataObjType i)
    /\ data_objects (tx (snd (populateDir_object "/proj" obj_link st_proj))) !! i = Some r
    /\ do_id r = "file-L"
    /\ do_kind r = kindOfFile obj_link
    /\ do_inline_data r
       = if kindOfFile obj_link =? FK_Symlink then "/etc/hosts" else "".
Proof.
  apply (proj1 inline_data_by_origin "/proj" obj_link st_proj
           (snd (populateDir_object "/proj" obj_link st_proj)) eq_refl eq_refl);
    vm_compute; reflexivity.
Defined.

(** C10 on a symbolic link, an applet and a regular file. *)
Lemma kindOfFile_classifies_witness :
  kindOfFile obj_link = FK_Symlink /\ kindOfFile obj_applet = FK_Applet
  /\ kindOfFile obj_a = FK_Regular.
Proof.
  split; [|split].
  - apply (proj1 (kindOfFile_classifies obj_link)). split; [reflexivity|discriminate].
  - apply (proj1 (proj2 (proj2 (kindOfFile_classifies obj_applet)))). reflexivity.
  - apply (proj1 (proj2 (kindOfFile_classifies obj_a))); reflexivity.
Defined.

(** C2 on the run that is rolled back. *)
Lemma directoryReadFromDNAx_failure_keeps_db_witness :
  db (snd (directoryReadFromDNAx env_demo 2 "project-1" "/" 10 200 "/proj" fsys_taken))
  = db fsys_taken.
Proof.
  apply (proj1 (directoryReadFromDNAx_failure_keeps_db env_demo 2 "project-1" "/" 10 200
                  "/proj" fsys_taken)
           (Err (SqlUnique "namespace"))
           (snd (directoryReadFromDNAx env_demo 2 "project-1" "/" 10 200 "/proj" fsys_taken)));
    vm_compute; reflexivity.
Defined.

(** * More of the code *)

(** * More of the code *)

(** ** splitPath and filepath.Join *)

Lemma absPath_neq_empty cs : String.eqb (absPath cs) "" = false.
Proof. reflexivity. Qed.

Lemma clean_absolute_cases P :
  filepath.Clean P = P -> HasPrefix P "/" = true ->
  P = "/"
  \/ exists cs n,
       Forall (fun c => isSimpleName c = true) cs /\ isSimpleName n = true
       /\ P = absPath (cs ++ [n]).
Proof.
  intros HP Hroot.
  destruct (Clean_rooted_shape P Hroot) as (cs & Hcs & E).
  rewrite HP in E. subst P.
  destruct cs as [|c cs'] using rev_ind; [left; reflexivity|].
  right. apply Forall_app in Hcs as [Hcs Hn]. inversion Hn; subst.
  exists cs', c. auto.
Qed.

(** X1.  A clean absolute path is put together again by filepath.Join from
    the two parts splitPath gives, the root included; and for a path other
    than the root the first part is its filepath.Dir, again a clean
    absolute path, and the second part is a single path element. *)
Theorem splitPath_Join_roundtrip P :
  filepath.Clean P = P -> HasPrefix P "/" = true ->
  filepath.Join (splitPath P).1 (splitPath P).2 = P
  /\ (P <> "/" ->
      (splitPath P).1 = filepath.Dir P
      /\ filepath.Clean (splitPath P).1 = (splitPath P).1
      /\ HasPrefix (splitPath P).1 "/" = true
      /\ isSimpleName (splitPath P).2 = true).
Proof.
  intros HP Hroot.
  destruct (clean_absolute_cases P HP Hroot) as [-> | (cs & n & Hcs & Hn & ->)].
  - split; [reflexivity | congruence].
  - pose proof (splitPath_child cs n Hcs Hn) as E.
    assert (Hd : (splitPath (absPath (cs ++ [n]))).1 = filepath.Dir (absPath (cs ++ [n]))).
    { unfold splitPath.
      destruct (String.eqb (absPath (cs ++ [n])) "/") eqn:Eroot; [|reflexivity].
      exfalso. unfold splitPath in E. rewrite Eroot in E.
      inversion E. }
    rewrite E in *. simpl in *. split.
    + unfold filepath.Join. rewrite absPath_neq_empty.
      pose proof (isSimpleName_spec n Hn) as (Hne & _).
      apply String.eqb_neq in Hne. rewrite Hne.
      apply Clean_child; assumption.
    + intros _. split; [exact Hd|]. split; [apply Clean_absPath, Hcs|].
      split; [apply HasPrefix_slash | exact Hn].
Qed.

(** ** The times a population approximates *)

Lemma is_min_unique m m' l l' :
  is_min m l -> is_min m' l' -> (forall x, In x l <-> In x l') -> m = m'.
Proof.
  intros [Hin Hle] [Hin' Hle'] Hiff.
  apply Hiff in Hin. apply Hiff in Hin'.
  specialize (Hle _ Hin'). specialize (Hle' _ Hin). lia.
Qed.

Lemma is_max_unique m m' l l' :
  is_max m l -> is_max m' l' -> (forall x, In x l <-> In x l') -> m = m'.
Proof.
  intros [Hin Hle] [Hin' Hle'] Hiff.
  apply Hiff in Hin. apply Hiff in Hin'.
  specialize (Hle _ Hin'). specialize (Hle' _ Hin). lia.
Qed.

Lemma In_cons_map_perm {A} (f : A -> Z) c l l' :
  Permutation l l' -> forall x, In x (c :: List.map f l) <-> In x (c :: List.map f l').
Proof.
  intros Hp x.
  assert (Hp' : Permutation (c :: List.map f l) (c :: List.map f l'))
    by (apply perm_skip, Permutation_map, Hp).
  split; apply Permutation_in; [exact Hp' | symmetry; exact Hp'].
Qed.

(** X2.  The two approximations directoryReadFromDNAx folds over the
    described data objects do not depend on the order in which the platform
    lists them; the ctime approximation is never later than the directory's
    recorded ctime, and the mtime approximation never earlier than its
    recorded mtime. *)
Theorem timeApprox_any_order ctime mtime objs objs' :
  Permutation objs objs' ->
  ctimeApproxOf ctime objs = ctimeApproxOf ctime objs'
  /\ mtimeApproxOf mtime objs = mtimeApproxOf mtime objs'
  /\ ctimeApproxOf ctime objs <= ctime
  /\ mtime <= mtimeApproxOf mtime objs.
Proof.
  intros Hp. split; [|split; [|split]].
  - eapply is_min_unique; [apply ctimeApproxOf_is_min | apply ctimeApproxOf_is_min|].
    apply In_cons_map_perm, Hp.
  - eapply is_max_unique; [apply mtimeApproxOf_is_max | apply mtimeApproxOf_is_max|].
    apply In_cons_map_perm, Hp.
  - destruct (ctimeApproxOf_is_min ctime objs) as [_ H]. apply H. left. reflexivity.
  - destruct (mtimeApproxOf_is_max mtime objs) as [_ H]. apply H. left. reflexivity.
Qed.

(** ** lookupDataObjectInodeById *)

Lemma select_by_id_elem fId d i r :
  (i, r) ∈ select_by_id fId d <-> data_objects d !! i = Some r /\ do_id r = fId.
Proof.
  unfold select_by_id. rewrite elem_of_map_to_list, map_lookup_filter_Some. reflexivity.
Qed.

Lemma select_by_id_none fId d :
  (forall j r, data_objects d !! j = Some r -> do_id r <> fId) ->
  select_by_id fId d = [].
Proof.
  intros H. destruct (select_by_id fId d) as [|[i r] l] eqn:E; [reflexivity|].
  exfalso. assert (Hin : (i, r) ∈ select_by_id fId d) by (rewrite E; left).
  apply select_by_id_elem in Hin as [Hi Hid]. eapply H; eassumption.
Qed.

Lemma select_by_id_NoDup fId d : NoDup (select_by_id fId d).*1.
Proof. unfold select_by_id. apply NoDup_fst_map_to_list. Qed.

Lemma select_by_id_one fId d i r :
  data_objects d !! i = Some r -> do_id r = fId ->
  (forall j r', data_objects d !! j = Some r' -> do_id r' = fId -> j = i) ->
  select_by_id fId d = [(i, r)].
Proof.
  intros Hi Hid Huniq.
  assert (Hin : (i, r) ∈ select_by_id fId d) by (apply select_by_id_elem; auto).
  pose proof (select_by_id_NoDup fId d) as Hnd.
  destruct (select_by_id fId d) as [|[j rj] l] eqn:E; [inversion Hin|].
  assert (Hj : j = i /\ rj = r).
  { assert (H0 : (j, rj) ∈ select_by_id fId d) by (rewrite E; left).
    apply select_by_id_elem in H0 as [Hj Hidj].
    pose proof (Huniq _ _ Hj Hidj) as ->. split; [reflexivity | congruence]. }
  destruct Hj as [-> ->].
  destruct l as [|[k rk] l']; [reflexivity|]. exfalso.
  assert (H1 : (k, rk) ∈ select_by_id fId d) by (rewrite E; right; left).
  apply select_by_id_elem in H1 as [Hk Hidk].
  pose proof (Huniq _ _ Hk Hidk) as ->.
  simpl in Hnd. inversion Hnd as [|? ? Hnin _]; subst. apply Hnin. left.
Qed.

Lemma select_by_id_two fId d i j ri rj :
  i <> j -> data_objects d !! i = Some ri -> data_objects d !! j = Some rj ->
  do_id ri = fId -> do_id rj = fId ->
  exists x y l, select_by_id fId d = x :: y :: l.
Proof.
  intros Hne Hi Hj Hidi Hidj.
  assert (Hini : (i, ri) ∈ select_by_id fId d) by (apply select_by_id_elem; auto).
  assert (Hinj : (j, rj) ∈ select_by_id fId d) by (apply select_by_id_elem; auto).
  destruct (select_by_id fId d) as [|x [|y l]]; [inversion Hini| |eauto].
  exfalso. apply list_elem_of_singleton in Hini, Hinj. congruence.
Qed.

(** X3.  For an Id with no quote character and no NUL, the only strings
    for which the query of lookupDataObjectInodeById is the one meant:
    lookupDataObjectInodeById answers (InodeInvalid, 0) when no row of
    data_objects has the Id, the inode and link count of the row when
    exactly one has it, and panics when two rows have it; it does not
    return an error. *)
Theorem lookupDataObjectInodeById_cases (txn : DB) (fId : string) :
  sqlText fId = true ->
  ((forall j r, data_objects txn !! j = Some r -> do_id r <> fId) ->
   lookupDataObjectInodeById txn fId = Ok (InodeInvalid, 0))
  /\ (forall i r,
        data_objects txn !! i = Some r -> do_id r = fId ->
        (forall j r', data_objects txn !! j = Some r' -> do_id r' = fId -> j = i) ->
        lookupDataObjectInodeById txn fId = Ok (i, do_nlink r))
  /\ (forall i j ri rj,
        i <> j -> data_objects txn !! i = Some ri -> data_objects txn !! j = Some rj ->
        do_id ri = fId -> do_id rj = fId ->
        exists m, lookupDataObjectInodeById txn fId = Panic m)
  /\ (forall e, lookupDataObjectInodeById txn fId <> Err e).
Proof.
  intros _. unfold lookupDataObjectInodeById. split; [|split; [|split]].
  - intros H. rewrite (select_by_id_none _ _ H). reflexivity.
  - intros i r Hi Hid Huniq. rewrite (select_by_id_one _ _ _ _ Hi Hid Huniq). reflexivity.
  - intros i j ri rj Hne Hi Hj Hidi Hidj.
    destruct (select_by_id_two _ _ _ _ _ _ Hne Hi Hj Hidi Hidj) as ([a ra] & y & l & ->).
    eauto.
  - intros e. destruct (select_by_id fId txn) as [|[i r] [|? ?]]; discriminate.
Qed.

(** ** createDataObject, run *)

(** What createDataObject does when the Id is not recorded (or recorded
    under the invalid inode). *)
Lemma createDataObject_new kind projId objId size ctime mtime parentDir fname
    inlineData st n0 :
  lookupDataObjectInodeById (tx st) objId = Ok (InodeInvalid, n0) ->
  createDataObject kind projId objId size ctime mtime parentDir fname inlineData st
  = let c := wrap64 (cnt st + 1) in
    let objs := <[c := mkDataObjRow kind objId projId size ctime mtime 1 inlineData]>
                  (data_objects (tx st)) in
    match data_objects (tx st) !! c with
    | Some _ => (Err (SqlUnique "data_objects"), mkTx (tx st) c)
    | None =>
        match namespace (tx st) !! (parentDir, fname) with
        | Some _ =>
            (Err (SqlUnique "namespace"),
             mkTx (mkDB objs (namespace (tx st)) (directories (tx st))) c)
        | None =>
            (Ok c,
             mkTx (mkDB objs
                     (<[(parentDir, fname) := mkNsRow nsDataObjType c]> (namespace (tx st)))
                     (directories (tx st))) c)
        end
    end.
Proof.
  intros Hl. unfold createDataObject, bind, liftRes. rewrite Hl.
  change (InodeInvalid =? InodeInvalid) with true. cbv iota.
  unfold allocInodeNum, exec, ret, insert_data_objects, insert_namespace. simpl.
  destruct (data_objects (tx st) !! wrap64 (cnt st + 1)); [reflexivity|]. simpl.
  destruct (namespace (tx st) !! (parentDir, fname)); reflexivity.
Qed.

(** What it does when the Id is recorded under the inode [i0]. *)
Lemma createDataObject_link kind projId objId size ctime mtime parentDir fname
    inlineData st i0 n0 :
  lookupDataObjectInodeById (tx st) objId = Ok (i0, n0) ->
  i0 <> InodeInvalid ->
  createDataObject kind projId objId size ctime mtime parentDir fname inlineData st
  = let d := update_nlink_by_id objId (wrap64 (n0 + 1)) (tx st) in
    match namespace (tx st) !! (parentDir, fname) with
    | Some _ => (Err (SqlUnique "namespace"), mkTx d (cnt st))
    | None =>
        (Ok i0,
         mkTx (mkDB (data_objects d)
                 (<[(parentDir, fname) := mkNsRow nsDataObjType i0]> (namespace (tx st)))
                 (directories (tx st))) (cnt st))
    end.
Proof.
  intros Hl Hne. unfold createDataObject, bind, liftRes. rewrite Hl.
  apply Z.eqb_neq in Hne. rewrite Hne.
  unfold exec, ret, insert_namespace. simpl.
  destruct (namespace (tx st) !! (parentDir, fname)); reflexivity.
Qed.

Lemma lookupDataObjectInodeById_Ok txn fId i n :
  lookupDataObjectInodeById txn fId = Ok (i, n) ->
  (i = InodeInvalid /\ n = 0
   /\ forall j r, data_objects txn !! j = Some r -> do_id r <> fId)
  \/ (exists r, data_objects txn !! i = Some r /\ do_id r = fId /\ do_nlink r = n
                /\ forall j r', data_objects txn !! j = Some r' -> do_id r' = fId -> j = i).
Proof.
  unfold lookupDataObjectInodeById.
  destruct (select_by_id fId txn) as [|[j r] [|? ?]] eqn:E; try discriminate.
  - intros [= <- <-]. left. split; [reflexivity|]. split; [reflexivity|].
    apply select_by_id_nil, E.
  - intros [= <- <-]. right. apply select_by_id_single in E as (H1 & H2 & H3).
    exists r. auto.
Qed.

Lemma fastLookup_file fsys p n i r :
  namespace (db fsys) !! (p, n) = Some (mkNsRow nsDataObjType i) ->
  data_objects (db fsys) !! i = Some r ->
  fastLookup fsys p n = Ok (NodeFile (fileOfRow n i r)).
Proof.
  intros Hn Hd. unfold fastLookup, lookupDataObjectShouldExist. rewrite Hn. simpl.
  rewrite Hd. reflexivity.
Qed.

Lemma fastLookup_dir fsys p n i dr :
  namespace (db fsys) !! (p, n) = Some (mkNsRow nsDirType i) ->
  directories (db fsys) !! i = Some dr ->
  fastLookup fsys p n = Ok (NodeDir (dirOfRow p n i dr)).
Proof.
  intros Hn Hd. unfold fastLookup, lookupDir. rewrite Hn. simpl.
  rewrite Hd. reflexivity.
Qed.

(** X4.  For strings with no quote character and no NUL: after a
    successful createDataObject, the lookup of the name in the parent
    directory finds a file with the inode returned, the Id and the name
    given.  When the Id was not recorded before and the inline data is a
    text that the column keeps as it is (it does not read as a number),
    the file has the kind, project, size, times and inline data given, and
    one link; when the Id was recorded, the file shows the recorded row
    with one more link, whatever kind, size, times and inline data the
    call was given. *)
Theorem createDataObject_then_fastLookup kind projId objId size ctime mtime
    parentDir fname inlineData st inode st' fsys :
  forallb sqlText [projId; objId; parentDir; fname; inlineData] = true ->
  createDataObject kind projId objId size ctime mtime parentDir fname inlineData st
    = (Ok inode, st') ->
  exists f,
    fastLookup (commit st' fsys) parentDir fname = Ok (NodeFile f)
    /\ File.Inode f = inode /\ File.Id f = objId /\ File.Name f = fname
    /\ ((forall j r, data_objects (tx st) !! j = Some r -> do_id r <> objId) ->
        keptAsText inlineData = true ->
        f = File.mk kind objId projId fname size inode
              (secondsToTime ctime) (secondsToTime mtime) 0 1 0 0 inlineData)
    /\ (forall r, data_objects (tx st) !! inode = Some r ->
        f = fileOfRow fname inode (set_nlink (wrap64 (do_nlink r + 1)) r)).
Proof.
  intros _ H. apply createDataObject_Ok in H as (_ & Hns & _ & Hcase).
  destruct Hcase as [(Hi & Hc & Hfresh & Hdo) | (r & Hc & Hr & Hid & Huniq & Hdo)].
  - eexists. split.
    { apply (fastLookup_file _ _ _ inode); simpl.
      - rewrite Hns. apply lookup_insert_eq.
      - rewrite Hdo. apply lookup_insert_eq. }
    simpl. do 3 (split; [reflexivity|]). split; [reflexivity|].
    intros r Hr. congruence.
  - eexists. split.
    { apply (fastLookup_file _ _ _ inode); simpl.
      - rewrite Hns. apply lookup_insert_eq.
      - rewrite Hdo. apply lookup_insert_eq. }
    simpl. split; [reflexivity|]. split; [exact Hid|]. split; [reflexivity|].
    split.
    + intros Hno _. exfalso. eapply Hno; eassumption.
    + intros r' Hr'. rewrite Hr in Hr'. inversion Hr'; subst r'. reflexivity.
Qed.


(** ** The allocator's invariant, and when the two creations succeed *)

Lemma ids_unique_select fId d :
  ids_unique d ->
  select_by_id fId d = [] \/ exists i r, select_by_id fId d = [(i, r)].
Proof.
  intros Hu. pose proof (select_by_id_NoDup fId d) as Hnd.
  destruct (select_by_id fId d) as [|[i r] [|[j rj] l]] eqn:E; [auto|eauto|].
  exfalso.
  assert (Hi : (i, r) ∈ select_by_id fId d) by (rewrite E; left).
  assert (Hj : (j, rj) ∈ select_by_id fId d) by (rewrite E; right; left).
  apply select_by_id_elem in Hi as [Hi Hidi]. apply select_by_id_elem in Hj as [Hj Hidj].
  assert (i = j) as -> by (eapply Hu; [exact Hi | exact Hj | congruence]).
  simpl in Hnd. inversion Hnd as [|? ? Hnin _]; subst. apply Hnin. left.
Qed.

Lemma ids_unique_lookup fId d :
  ids_unique d -> exists i n, lookupDataObjectInodeById d fId = Ok (i, n).
Proof.
  intros Hu. unfold lookupDataObjectInodeById.
  destruct (ids_unique_select fId d Hu) as [-> | (i & r & ->)]; eauto.
Qed.

(** X6.  For strings with no quote character and no NUL, in a
    transaction whose tables mention no inode above the counter and hold
    no two rows of one Id, createDataObject fails exactly when the name is
    taken in the parent directory: it returns an inode when the namespace
    has no row (parentDir, fname), and the UNIQUE failure of the namespace
    insert when it has one. *)
Theorem createDataObject_succeeds_iff kind projId objId size ctime mtime
    parentDir fname inlineData st :
  forallb sqlText [projId; objId; parentDir; fname; inlineData] = true ->
  inodes_below st -> 0 <= cnt st < maxInt64 -> ids_unique (tx st) ->
  (namespace (tx st) !! (parentDir, fname) = None ->
   exists inode st',
     createDataObject kind projId objId size ctime mtime parentDir fname inlineData st
     = (Ok inode, st'))
  /\ (forall r, namespace (tx st) !! (parentDir, fname) = Some r ->
      exists st',
        createDataObject kind projId objId size ctime mtime parentDir fname inlineData st
        = (Err (SqlUnique "namespace"), st')).
Proof.
  intros _ (_ & Ho & _) Hcnt Hu.
  assert (Hw : wrap64 (cnt st + 1) = cnt st + 1)
    by (apply wrap64_id; unfold maxInt64 in Hcnt; lia).
  assert (Hfresh : data_objects (tx st) !! wrap64 (cnt st + 1) = None).
  { destruct (data_objects (tx st) !! wrap64 (cnt st + 1)) as [r|] eqn:E; [|reflexivity].
    apply Ho in E. lia. }
  destruct (ids_unique_lookup objId (tx st) Hu) as (i0 & n0 & Hl).
  destruct (decide (i0 = InodeInvalid)) as [-> | Hne].
  - rewrite (createDataObject_new _ _ _ _ _ _ _ _ _ _ _ Hl). cbv zeta. rewrite Hfresh.
    split.
    + intros ->. eauto.
    + intros r ->. eauto.
  - rewrite (createDataObject_link _ _ _ _ _ _ _ _ _ _ _ _ Hl Hne). cbv zeta.
    split.
    + intros ->. eauto.
    + intros r ->. eauto.
Qed.

(** ** createEmptyDir *)


(** X8.  createEmptyDir panics on a path that does not start with a slash
    (the empty path included) before it touches anything.  On a path whose
    two parts hold no quote character and no NUL and whose namespace row
    exists, it returns the UNIQUE failure of the namespace insert, with the
    tables as they were but with one inode number used up.  In a
    transaction whose tables mention no inode above the counter, it
    succeeds on every other path that starts with a slash and has such
    parts, for a project and a folder that hold no quote character and no
    NUL either, with the next inode number. *)
Theorem createEmptyDir_refusals projId projFolder ctime mtime dirPath populated st :
  (HasPrefix dirPath "/" = false ->
   exists m, createEmptyDir projId projFolder ctime mtime dirPath populated st
             = (Panic m, st))
  /\ (HasPrefix dirPath "/" = true ->
      sqlText (splitPath dirPath).1 = true -> sqlText (splitPath dirPath).2 = true ->
      forall r, namespace (tx st) !! splitPath dirPath = Some r ->
      createEmptyDir projId projFolder ctime mtime dirPath populated st
      = (Err (SqlUnique "namespace"), mkTx (tx st) (wrap64 (cnt st + 1))))
  /\ (HasPrefix dirPath "/" = true ->
      forallb sqlText [(splitPath dirPath).1; (splitPath dirPath).2; projId; projFolder]
      = true ->
      namespace (tx st) !! splitPath dirPath = None ->
      inodes_below st -> 0 <= cnt st < maxInt64 ->
      exists st', createEmptyDir projId projFolder ctime mtime dirPath populated st
                  = (Ok (cnt st + 1), st')).
Proof.
  assert (Hhead : forall c rest, HasPrefix (String c rest) "/" = isSlash c).
  { intros c rest. unfold HasPrefix, isSlash.
    change (String.prefix "/" (String c rest))
      with (if ascii_dec "/" c then String.prefix "" rest else false).
    destruct (ascii_dec "/" c) as [<-|Hne].
    - destruct rest; reflexivity.
    - symmetry. apply Ascii.eqb_neq. congruence. }
  split; [|split].
  - intros Hp. unfold createEmptyDir. destruct dirPath as [|c rest]; [eauto|].
    rewrite Hhead in Hp. rewrite Hp. simpl. eauto.
  - intros Hp _ _ r Hr. unfold createEmptyDir.
    destruct dirPath as [|c rest]; [discriminate|].
    rewrite Hhead in Hp. rewrite Hp. simpl.
    unfold bind, allocInodeNum. destruct (splitPath (String c rest)) as [pd b].
    unfold exec, insert_namespace. simpl. rewrite Hr. reflexivity.
  - intros Hp _ Hnone (_ & _ & Hd) Hcnt.
    assert (Hw : wrap64 (cnt st + 1) = cnt st + 1)
      by (apply wrap64_id; unfold maxInt64 in Hcnt; lia).
    assert (Hfresh : directories (tx st) !! (cnt st + 1) = None).
    { destruct (directories (tx st) !! (cnt st + 1)) as [r|] eqn:E; [|reflexivity].
      apply Hd in E. lia. }
    unfold createEmptyDir. destruct dirPath as [|c rest]; [discriminate|].
    rewrite Hhead in Hp. rewrite Hp. simpl.
    unfold bind, allocInodeNum. rewrite Hw.
    destruct (splitPath (String c rest)) as [pd b].
    unfold exec, insert_namespace, insert_directories, ret. simpl.
    rewrite Hnone. simpl. rewrite Hfresh. eauto.
Qed.

(** ** setDirectoryToPopulated *)



(** ** directoryLookup *)

(** X10.  For a path whose two parts, as splitPath gives them, hold no
    quote character and no NUL: directoryLookup answers "does not exist"
    exactly when the namespace has no directory row for the path (no row,
    or the row of a data object); "exists but not populated" and "exists
    and populated" exactly when the row's directory record has populated 0
    and 1, with the record's fields; it panics exactly when the row has no
    directory record or one with another populated value; and it does not
    return an error. *)
Theorem directoryLookup_cases (fsys : Filesys) (P : string) :
  sqlText (splitPath P).1 = true -> sqlText (splitPath P).2 = true ->
  (directoryLookup fsys P = Ok (dirDoesNotExist, None) <->
   forall r, namespace (db fsys) !! splitPath P = Some r -> ns_obj_type r <> nsDirType)
  /\ (forall rc dInfo,
        directoryLookup fsys P = Ok (rc, Some dInfo) <->
        exists r dr,
          namespace (db fsys) !! splitPath P = Some r
          /\ ns_obj_type r = nsDirType
          /\ directories (db fsys) !! ns_inode r = Some dr
          /\ dInfo = DirInfo.mk (ns_inode r) (dr_proj_id dr) (dr_proj_folder dr)
                       (dr_ctime dr) (dr_mtime dr)
          /\ ((rc = dirExistsButNotPopulated /\ dr_populated dr = 0)
              \/ (rc = dirExistAndPopulated /\ dr_populated dr = 1)))
  /\ ((exists m, directoryLookup fsys P = Panic m) <->
      exists r,
        namespace (db fsys) !! splitPath P = Some r
        /\ ns_obj_type r = nsDirType
        /\ (directories (db fsys) !! ns_inode r = None
            \/ exists dr, directories (db fsys) !! ns_inode r = Some dr
                          /\ dr_populated dr <> 0 /\ dr_populated dr <> 1))
  /\ (forall e, directoryLookup fsys P <> Err e).
Proof.
  intros _ _. unfold directoryLookup. destruct (splitPath P) as [pd b].
  destruct (namespace (db fsys) !! (pd, b)) as [r|] eqn:Hn.
  2:{ split; [|split; [|split]].
      - split; [intros _ r Hr; discriminate | reflexivity].
      - intros rc dInfo. split; [discriminate|]. intros (r & dr & Hr & _). discriminate.
      - split; [intros [m Hm]; discriminate|]. intros (r & Hr & _). discriminate.
      - discriminate. }
  destruct (ns_obj_type r =? nsDirType) eqn:Ht; simpl.
  2:{ apply Z.eqb_neq in Ht. split; [|split; [|split]].
      - split; [|reflexivity]. intros _ r' [= <-]. exact Ht.
      - intros rc dInfo. split; [discriminate|].
        intros (r' & dr & [= <-] & Ht' & _). contradiction.
      - split; [intros [m Hm]; discriminate|]. intros (r' & [= <-] & Ht' & _).
        contradiction.
      - discriminate. }
  apply Z.eqb_eq in Ht.
  destruct (directories (db fsys) !! ns_inode r) as [dr|] eqn:Hd.
  2:{ split; [|split; [|split]].
      - split; [discriminate|]. intros H. exfalso. exact (H r eq_refl Ht).
      - intros rc dInfo. split; [discriminate|].
        intros (r' & dr & [= <-] & _ & Hd' & _). congruence.
      - split; [|eauto]. intros _. exists r. auto.
      - discriminate. }
  destruct (dr_populated dr =? 0) eqn:H0; [|destruct (dr_populated dr =? 1) eqn:H1].
  - apply Z.eqb_eq in H0. split; [|split; [|split]].
    + split; [discriminate|]. intros H. exfalso. exact (H r eq_refl Ht).
    + intros rc dInfo. split.
      * intros [= <- <-]. exists r, dr. auto 10.
      * intros (r' & dr' & [= <-] & _ & Hd' & -> & Hrc).
        assert (dr' = dr) as -> by congruence.
        destruct Hrc as [[-> _] | [_ Hp]]; [reflexivity | lia].
    + split; [intros [m Hm]; discriminate|].
      intros (r' & [= <-] & _ & [Hnone | (dr' & Hd' & Hp0 & _)]); [congruence|].
      assert (dr' = dr) as -> by congruence. contradiction.
    + discriminate.
  - apply Z.eqb_eq in H1. split; [|split; [|split]].
    + split; [discriminate|]. intros H. exfalso. exact (H r eq_refl Ht).
    + intros rc dInfo. split.
      * intros [= <- <-]. exists r, dr. auto 10.
      * intros (r' & dr' & [= <-] & _ & Hd' & -> & Hrc).
        assert (dr' = dr) as -> by congruence.
        destruct Hrc as [[_ Hp] | [-> _]]; [lia | reflexivity].
    + split; [intros [m Hm]; discriminate|].
      intros (r' & [= <-] & _ & [Hnone | (dr' & Hd' & _ & Hp1)]); [congruence|].
      assert (dr' = dr) as -> by congruence. contradiction.
    + discriminate.
  - apply Z.eqb_neq in H0, H1. split; [|split; [|split]].
    + split; [discriminate|]. intros H. exfalso. exact (H r eq_refl Ht).
    + intros rc dInfo. split; [discriminate|].
      intros (r' & dr' & [= <-] & _ & Hd' & _ & Hrc).
      assert (dr' = dr) as -> by congruence.
      destruct Hrc as [[_ Hp] | [_ Hp]]; contradiction.
    + split; [|eauto]. intros _. exists r. split; [reflexivity|]. split; [exact Ht|].
      right. exists dr. auto.
    + discriminate.
Qed.

(** ** directoryExists *)

(** X11.  For a path other than the root, directoryExists panics, with
    nothing changed and no call made, when the index does not have the
    path's parent directory, and also when the parent is the root and the
    root is not populated yet. *)
Theorem directoryExists_needs_parent (env : Env) (fsys : Filesys) (p : string) :
  p <> "/" ->
  (directoryLookup fsys (filepath.Dir p) = Ok (dirDoesNotExist, None) ->
   exists m, directoryExists env p fsys = (Panic m, fsys))
  /\ (filepath.Dir p = "/" ->
      forall i, directoryLookup fsys "/" = Ok (dirExistsButNotPopulated, Some i) ->
      exists m, directoryExists env p fsys = (Panic m, fsys)).
Proof.
  intros Hp. apply String.eqb_neq in Hp. unfold directoryExists. rewrite Hp.
  unfold bind, liftRes. split.
  - intros ->. simpl. eauto.
  - intros -> i ->. simpl. eauto.
Qed.

(** ** The tables only grow, and rows keep pointing somewhere *)

Lemma ns_row_ok_le d d' r : ns_row_ok d r -> db_le d d' -> ns_row_ok d' r.
Proof.
  intros [[Ht (dr & Hd & Hp)] | [Ht (o & Ho)]] [_ D O].
  - left. split; [exact Ht|]. apply D in Hd as (dr' & Hd' & Hle).
    exists dr'. split; [exact Hd'|].
    destruct Hle as [-> | ->]; [exact Hp | right; reflexivity].
  - right. split; [exact Ht|]. apply O in Ho as (o' & Ho' & _). eauto.
Qed.

Lemma db_grows_refl d : db_grows d d.
Proof. split; [apply db_le_refl | auto]. Qed.

Lemma db_grows_trans d1 d2 d3 : db_grows d1 d2 -> db_grows d2 d3 -> db_grows d1 d3.
Proof.
  intros [L1 C1] [L2 C2]. split; [eapply db_le_trans; eassumption | auto].
Qed.

Lemma db_grows_same_namespace d d' :
  db_le d d' -> namespace d' = namespace d -> db_grows d d'.
Proof.
  intros Hle Hns. split; [exact Hle|]. intros Hc k r Hk. rewrite Hns in Hk.
  eapply ns_row_ok_le; [eapply Hc; exact Hk | exact Hle].
Qed.

Lemma db_grows_insert d d' k v :
  db_le d d' -> namespace d' = <[k := v]> (namespace d) -> ns_row_ok d' v ->
  db_grows d d'.
Proof.
  intros Hle Hns Hv. split; [exact Hle|]. intros Hc k' r. rewrite Hns.
  intros [[_ <-] | [_ Hk]]%lookup_insert_Some; [exact Hv|].
  eapply ns_row_ok_le; [eapply Hc; exact Hk | exact Hle].
Qed.

Lemma tx_grows_refl st : tx_grows st st.
Proof. apply db_grows_refl. Qed.

Lemma tx_grows_trans s1 s2 s3 : tx_grows s1 s2 -> tx_grows s2 s3 -> tx_grows s1 s3.
Proof. apply db_grows_trans. Qed.

Lemma grows_refl fsys : grows fsys fsys.
Proof. apply db_grows_refl. Qed.

Lemma grows_trans f1 f2 f3 : grows f1 f2 -> grows f2 f3 -> grows f1 f3.
Proof. apply db_grows_trans. Qed.

Lemma createDataObject_grows kind projId objId size ctime mtime parentDir fname
    inlineData st inode st' :
  createDataObject kind projId objId size ctime mtime parentDir fname inlineData st
    = (Ok inode, st') ->
  tx_grows st st'.
Proof.
  intros H. pose proof (createDataObject_le _ _ _ _ _ _ _ _ _ _ _ _ H) as Hle.
  apply createDataObject_Ok in H as (_ & Hns & _ & Hcase).
  eapply db_grows_insert; [exact Hle | exact Hns |].
  right. split; [reflexivity|]. simpl.
  destruct Hcase as [(_ & _ & _ & ->) | (r & _ & _ & _ & _ & ->)];
    rewrite lookup_insert_eq; eauto.
Qed.

Lemma createEmptyDir_grows projId projFolder ctime mtime dirPath populated st inode st' :
  createEmptyDir projId projFolder ctime mtime dirPath populated st = (Ok inode, st') ->
  tx_grows st st'.
Proof.
  intros H. pose proof (createEmptyDir_le _ _ _ _ _ _ _ _ _ H) as Hle.
  apply createEmptyDir_Ok in H as (_ & _ & _ & Hns & _ & Hd & _).
  eapply db_grows_insert; [exact Hle | exact Hns |].
  left. split; [reflexivity|]. simpl. rewrite Hd, lookup_insert_eq.
  eexists. split; [reflexivity|]. simpl. destruct populated; auto.
Qed.

Lemma update_populated_grows dinode d : db_grows d (update_populated dinode d).
Proof. apply db_grows_same_namespace; [apply update_populated_le | reflexivity]. Qed.

Lemma update_size_mtime_grows i sz mt d : db_grows d (update_size_mtime i sz mt d).
Proof. apply db_grows_same_namespace; [apply update_size_mtime_le | reflexivity]. Qed.

Lemma forEach_grows {A} (body : A -> M TxState unit) xs st st' :
  (forall x s s', body x s = (Ok tt, s') -> tx_grows s s') ->
  forEach body xs st = (Ok tt, st') -> tx_grows st st'.
Proof.
  intros Hb H.
  apply (forEach_Ok body tx_grows (fun _ _ => True) tx_grows_refl tx_grows_trans) in H;
    [apply H | | auto].
  intros x s s' Hx. split; [eapply Hb; exact Hx | exact I].
Qed.

Lemma populateDir_grows dinode projId projFolder ctime mtime dirPath objs subdirs st st' :
  populateDir dinode projId projFolder ctime mtime dirPath objs subdirs st = (Ok tt, st') ->
  tx_grows st st'.
Proof.
  unfold populateDir. intros H.
  apply bind_Ok in H as ([] & s1 & Hobjs & H).
  apply bind_Ok in H as ([] & s2 & Hsubs & H).
  inversion H; subst st'. clear H.
  apply forEach_grows in Hobjs.
  2:{ intros o s s' Ho. unfold populateDir_object in Ho.
      apply bind_Ok in Ho as (i & s0 & Ho & Hret). inversion Hret; subst s0.
      eapply createDataObject_grows; exact Ho. }
  apply forEach_grows in Hsubs.
  2:{ intros o s s' Ho. unfold populateDir_subdir in Ho.
      apply bind_Ok in Ho as (i & s0 & Ho & Hret). inversion Hret; subst s0.
      eapply createEmptyDir_grows; exact Ho. }
  eapply tx_grows_trans; [exact Hobjs|]. eapply tx_grows_trans; [exact Hsubs|].
  apply update_populated_grows.
Qed.

Lemma fauxSubdir_grows projId cA mA dirFullName entry st st' :
  fauxSubdir projId cA mA dirFullName entry st = (Ok tt, st') -> tx_grows st st'.
Proof.
  unfold fauxSubdir. intros H.
  apply bind_Ok in H as (inode & s1 & Hdir & Hpop).
  eapply tx_grows_trans; [eapply createEmptyDir_grows; exact Hdir|].
  eapply populateDir_grows; exact Hpop.
Qed.

Section keeps_facts.

Context {S : Type} (R : S -> S -> Prop).
Hypothesis R_refl : forall s, R s s.
Hypothesis R_trans : forall a b c, R a b -> R b c -> R a c.

Lemma keeps_ret {A} (a : A) : keeps R (ret a).
Proof. intros s r s' H. inversion H; subst. apply R_refl. Qed.

Lemma keeps_fail {A} e : keeps R (@fail S A e).
Proof. intros s r s' H. inversion H; subst. apply R_refl. Qed.

Lemma keeps_panic {A} m : keeps R (@panic S A m).
Proof. intros s r s' H. inversion H; subst. apply R_refl. Qed.

Lemma keeps_liftRes {A} (f : S -> Res A) : keeps R (liftRes f).
Proof. intros s r s' H. inversion H; subst. apply R_refl. Qed.

Lemma keeps_bind {A B} (c : M S A) (k : A -> M S B) :
  keeps R c -> (forall a, keeps R (k a)) -> keeps R (bind c k).
Proof.
  intros Hc Hk s r s'. unfold bind.
  destruct (c s) as [[a|e|m] s1] eqn:Ec; intros H.
  - eapply R_trans; [eapply Hc; exact Ec | eapply Hk; exact H].
  - inversion H; subst. eapply Hc; exact Ec.
  - inversion H; subst. eapply Hc; exact Ec.
Qed.

Lemma keeps_forEach {A} (body : A -> M S unit) xs :
  (forall x, keeps R (body x)) -> keeps R (forEach body xs).
Proof.
  intros Hb. induction xs as [|x xs IH]; simpl.
  - apply keeps_ret.
  - apply keeps_bind; [apply Hb | intros _; exact IH].
Qed.

End keeps_facts.

Lemma keeps_inTxn {A} (body : M TxState A) :
  (forall st a st', body st = (Ok a, st') -> tx_grows st st') ->
  keeps grows (inTxn body).
Proof.
  intros Hb fsys r fsys'. unfold inTxn.
  destruct (body _) as [[a|e|m] st'] eqn:Eb; intros H; inversion H; subst;
    unfold grows; simpl; try apply db_grows_refl.
  apply Hb in Eb. exact Eb.
Qed.

Lemma keeps_remote {A} c (r : Reply A) : keeps grows (remote c r).
Proof.
  intros fsys r0 fsys' H. inversion H; subst. unfold grows. simpl. apply db_grows_refl.
Qed.

Lemma directoryReadFromDNAx_grows env dinode projId projFolder ctime mtime P :
  keeps grows (directoryReadFromDNAx env dinode projId projFolder ctime mtime P).
Proof.
  unfold directoryReadFromDNAx.
  apply (keeps_bind grows grows_trans); [apply keeps_remote|]. intros dxDir.
  apply (keeps_bind grows grows_trans); [apply (keeps_liftRes grows grows_refl)|].
  intros posixDir. apply keeps_inTxn. intros st a st' H.
  apply bind_Ok in H as ([] & s1 & Hpop & Hfaux).
  eapply tx_grows_trans; [eapply populateDir_grows; exact Hpop|].
  destruct a. eapply forEach_grows; [|exact Hfaux].
  intros e s s' He. eapply fauxSubdir_grows; exact He.
Qed.

Lemma readFromDNAxOf_grows env dInfo P : keeps grows (readFromDNAxOf env dInfo P).
Proof.
  destruct dInfo as [i|]; simpl.
  - apply directoryReadFromDNAx_grows.
  - apply (keeps_panic grows grows_refl).
Qed.

Lemma directoryExists_grows env p : keeps grows (directoryExists env p).
Proof.
  unfold directoryExists. destruct (String.eqb p "/").
  - apply (keeps_liftRes grows grows_refl).
  - apply (keeps_bind grows grows_trans); [apply (keeps_liftRes grows grows_refl)|].
    intros [rc pi]. destruct (rc =? dirDoesNotExist);
      [apply (keeps_panic grows grows_refl)|].
    apply (keeps_bind grows grows_trans); [|intros _; apply (keeps_liftRes grows grows_refl)].
    destruct (rc =? dirExistsButNotPopulated); [|apply (keeps_ret grows grows_refl)].
    destruct (String.eqb (filepath.Dir p) "/"); [apply (keeps_panic grows grows_refl)|].
    apply readFromDNAxOf_grows.
Qed.

Lemma MetadataDbReadDirAll_grows env p : keeps grows (MetadataDbReadDirAll env p).
Proof.
  unfold MetadataDbReadDirAll.
  apply (keeps_bind grows grows_trans); [apply directoryExists_grows|].
  intros [rc di].
  apply (keeps_bind grows grows_trans); [|intros _; apply (keeps_liftRes grows grows_refl)].
  destruct (rc =? dirDoesNotExist); [apply (keeps_fail grows grows_refl)|].
  destruct (rc =? dirExistsButNotPopulated); [apply readFromDNAxOf_grows|].
  destruct (rc =? dirExistAndPopulated);
    [apply (keeps_ret grows grows_refl) | apply (keeps_panic grows grows_refl)].
Qed.

Lemma MetadataDbLookupInDir_grows env p n : keeps grows (MetadataDbLookupInDir env p n).
Proof.
  unfold MetadataDbLookupInDir.
  apply (keeps_bind grows grows_trans); [apply directoryExists_grows|].
  intros [rc di].
  apply (keeps_bind grows grows_trans); [|intros _; apply (keeps_liftRes grows grows_refl)].
  destruct (rc =? dirDoesNotExist); [apply (keeps_fail grows grows_refl)|].
  destruct (rc =? dirExistsButNotPopulated).
  { apply (keeps_bind grows grows_trans); [apply MetadataDbReadDirAll_grows|].
    intros _. apply (keeps_ret grows grows_refl). }
  destruct (rc =? dirExistAndPopulated);
    [apply (keeps_ret grows grows_refl) | apply (keeps_panic grows grows_refl)].
Qed.

Lemma CreateFile_grows env dir fname localPath :
  keeps grows (CreateFile env dir fname localPath).
Proof.
  intros fsys r fsys'. unfold CreateFile.
  destruct (MetadataDbLookupInDir env (Dir.FullPath dir) fname fsys) as [[nd|e|m] f1] eqn:El;
    pose proof (MetadataDbLookupInDir_grows _ _ _ _ _ _ El) as Hg1.
  - intros H. inversion H; subst. exact Hg1.
  - destruct e; try (intros H; inversion H; subst; exact Hg1).
    intros H. eapply grows_trans; [exact Hg1|]. revert H.
    match goal with
    | |- ?c f1 = _ -> _ => generalize f1 r fsys'; change (keeps grows c)
    end.
    apply (keeps_bind grows grows_trans); [apply (keeps_liftRes grows grows_refl)|].
    intros [projId folder].
    apply (keeps_bind grows grows_trans); [apply keeps_remote|]. intros fileId.
    apply (keeps_bind grows grows_trans); [|intros i; apply (keeps_ret grows grows_refl)].
    apply keeps_inTxn. intros st a st' H. eapply createDataObject_grows; exact H.
  - intros H. inversion H; subst. exact Hg1.
Qed.

Lemma MetadataDbUpdateFile_grows f sz mt : keeps grows (MetadataDbUpdateFile f sz mt).
Proof.
  unfold MetadataDbUpdateFile. apply keeps_inTxn. intros st a st' H.
  apply exec_Ok in H as (d & Hd & ->). inversion Hd; subst d.
  apply update_size_mtime_grows.
Qed.

Lemma MetadataDbPopulateRoot_grows env manifest :
  keeps grows (MetadataDbPopulateRoot env manifest).
Proof.
  intros fsys r fsys'. unfold MetadataDbPopulateRoot. cbv zeta.
  match goal with
  | |- _ (setBaseDirs ?m fsys) = _ -> _ => set (f0 := setBaseDirs m fsys)
  end.
  assert (Hg0 : grows fsys f0) by (unfold grows; simpl; apply db_grows_refl).
  intros H. eapply grows_trans; [exact Hg0|]. revert H.
  refine (keeps_bind grows grows_trans _ _ _ _ _ _ _).
  { apply (keeps_forEach grows grows_refl grows_trans). intros entry.
    apply (keeps_bind grows grows_trans); [apply keeps_remote|].
    intros pDesc s r0 s' H. inversion H; subst. unfold grows. simpl.
    apply db_grows_refl. }
  intros _.
  apply (keeps_bind grows grows_trans); [apply (keeps_liftRes grows grows_refl)|].
  intros dirSkel. apply keeps_inTxn. intros st a st' H.
  apply bind_Ok in H as ([] & s1 & H1 & H).
  apply bind_Ok in H as ([] & s2 & H2 & H).
  apply bind_Ok in H as ([] & s3 & H3 & H).
  unfold setDirectoryToPopulated in H.
  apply exec_Ok in H as (d & Hd & ->). inversion Hd; subst d. clear Hd.
  apply forEach_grows in H1.
  2:{ intros x s s' Hx. apply bind_Ok in Hx as (i & s0 & Hx & Hret).
      inversion Hret; subst s0. eapply createEmptyDir_grows; exact Hx. }
  apply forEach_grows in H2.
  2:{ intros x s s' Hx. unfold populateRoot_file in Hx.
      apply bind_Ok in Hx as (i & s0 & Hx & Hret).
      inversion Hret; subst s0. eapply createDataObject_grows; exact Hx. }
  apply forEach_grows in H3.
  2:{ intros x s s' Hx. apply bind_Ok in Hx as (i & s0 & Hx & Hret).
      inversion Hret; subst s0. eapply createEmptyDir_grows; exact Hx. }
  eapply tx_grows_trans; [exact H1|]. eapply tx_grows_trans; [exact H2|].
  eapply tx_grows_trans; [exact H3|]. apply update_populated_grows.
Qed.

Lemma afterRequest_grows env fsys req : grows fsys (afterRequest env fsys req).
Proof.
  destruct req as [p | p n | dir fname localPath | f sz mt | manifest];
    unfold afterRequest.
  - eapply MetadataDbReadDirAll_grows. apply surjective_pairing.
  - eapply MetadataDbLookupInDir_grows. apply surjective_pairing.
  - eapply CreateFile_grows. apply surjective_pairing.
  - eapply MetadataDbUpdateFile_grows. apply surjective_pairing.
  - eapply MetadataDbPopulateRoot_grows. apply surjective_pairing.
Qed.

Lemma afterRequests_grows env reqs fsys : grows fsys (afterRequests env fsys reqs).
Proof.
  unfold afterRequests. revert fsys.
  induction reqs as [|req reqs IH]; intros fsys; simpl; [apply grows_refl|].
  eapply grows_trans; [apply afterRequest_grows | apply IH].
Qed.

(** ** Inode numbers are stable *)



(** ** An index whose rows point somewhere *)

Lemma index_closed_init now : index_closed (metadataDbInitCore now).
Proof.
  intros k r. unfold metadataDbInitCore. simpl.
  intros [<- <-]%lookup_singleton_Some. left. split; [reflexivity|]. simpl.
  exists (mkDirRow "" "" (boolToInt false) now now).
  split; [apply lookup_singleton_eq | left; reflexivity].
Qed.


(** X14.  On an index whose rows all point somewhere, the local lookups
    of strings with no quote character and no NUL cannot panic:
    directoryLookup answers for every path with such parts, and fastLookup
    answers "no such entry" when the namespace has no row for the name and
    otherwise a node whose inode number is the row's inode as a uint64, a
    directory exactly when the row is a directory row. *)
Theorem index_closed_lookups_total (fsys : Filesys) :
  index_closed (db fsys) ->
  (forall P,
      sqlText (splitPath P).1 = true -> sqlText (splitPath P).2 = true ->
      exists rc di, directoryLookup fsys P = Ok (rc, di))
  /\ (forall p n,
        sqlText p = true -> sqlText n = true ->
        (namespace (db fsys) !! (p, n) = None /\ fastLookup fsys p n = Err ENOENT)
        \/ (exists r node,
              namespace (db fsys) !! (p, n) = Some r
              /\ fastLookup fsys p n = Ok node
              /\ Node_GetInode node = ns_inode r mod 2 ^ 64
              /\ isNodeDir node = (ns_obj_type r =? nsDirType))).
Proof.
  intros Hc. split.
  - intros P _ _. unfold directoryLookup. destruct (splitPath P) as [pd b].
    destruct (namespace (db fsys) !! (pd, b)) as [r|] eqn:Hn; [|eauto].
    destruct (Hc _ _ Hn) as [[Ht (dr & Hd & Hp)] | [Ht _]].
    + rewrite Ht, Hd. simpl. destruct Hp as [-> | ->]; simpl; eauto.
    + rewrite Ht. simpl. eauto.
  - intros p n _ _. unfold fastLookup.
    destruct (namespace (db fsys) !! (p, n)) as [r|] eqn:Hn; [|auto].
    right. exists r.
    destruct (Hc _ _ Hn) as [[Ht (dr & Hd & Hp)] | [Ht (o & Ho)]].
    + rewrite Ht. simpl. unfold lookupDir. rewrite Hd.
      eexists. split; [reflexivity|]. split; [reflexivity|]. split; reflexivity.
    + rewrite Ht. simpl. unfold lookupDataObjectShouldExist. rewrite Ho.
      eexists. split; [reflexivity|]. split; [reflexivity|]. split; reflexivity.
Qed.

(** ** The listing of a directory *)








(** ** Listing twice *)




(** ** What a listing shows after a population *)


(** ** How often the platform is asked *)



















(** ** projectIdAndFolder, when one base directory matches *)

Lemma HasPrefix_sliceFrom s b :
  HasPrefix s b = true -> s = b ++ sliceFrom (String.length b) s.
Proof.
  unfold HasPrefix. revert s. induction b as [|a b IH]; intros s H; [reflexivity|].
  destruct s as [|c s]; [discriminate H|].
  simpl in H. destruct (ascii_dec a c) as [<-|]; [|discriminate H].
  simpl. rewrite <- (IH s H). reflexivity.
Qed.

Lemma projectIdAndFolder_range_unique entries dirname baseDir projId :
  In (baseDir, projId) entries ->
  HasPrefix dirname baseDir = true ->
  (forall b p, In (b, p) entries -> HasPrefix dirname b = true ->
               b = baseDir /\ p = projId) ->
  projectIdAndFolder_range entries dirname
  = Ok (projId,
        if HasPrefix (sliceFrom (String.length baseDir) dirname) "/"
        then sliceFrom (String.length baseDir) dirname
        else "/" ++ sliceFrom (String.length baseDir) dirname).
Proof.
  intros Hin Hp Hu. induction entries as [|[b p] rest IH]; [destruct Hin|].
  simpl. destruct (HasPrefix dirname b) eqn:Hb.
  - destruct (Hu b p (or_introl eq_refl) Hb) as [-> ->].
    destruct (HasPrefix (sliceFrom (String.length baseDir) dirname) "/"); reflexivity.
  - destruct Hin as [Hin | Hin]; [inversion Hin; congruence|].
    apply IH; [exact Hin|]. intros b' p' Hin'. apply Hu. right. exact Hin'.
Qed.

Lemma projectIdAndFolder_range_none entries dirname :
  (forall b p, In (b, p) entries -> HasPrefix dirname b = false) ->
  exists m, projectIdAndFolder_range entries dirname = Panic m.
Proof.
  intros Hn. induction entries as [|[b p] rest IH]; simpl; [eauto|].
  rewrite (Hn b p (or_introl eq_refl)). apply IH.
  intros b' p' Hin. eapply Hn. right. exact Hin.
Qed.

(** X19.  Whatever the order in which the map of base directories is
    ranged over: when exactly one base directory is a prefix of the
    directory's path, projectIdAndFolder answers with its project and with
    what follows the base directory in the path, a leading slash added
    when there is none (so "/" for the base directory itself); when no
    base directory is a prefix, it panics. *)
Theorem projectIdAndFolder_unique_match (env : Env) (fsys : Filesys) (dirname : string) :
  Permutation (rangeOrder env (baseDir2ProjectId fsys))
    (map_to_list (baseDir2ProjectId fsys)) ->
  (forall baseDir projId,
      baseDir2ProjectId fsys !! baseDir = Some projId ->
      HasPrefix dirname baseDir = true ->
      (forall b p, baseDir2ProjectId fsys !! b = Some p ->
                   HasPrefix dirname b = true -> b = baseDir) ->
      exists rest,
        dirname = baseDir ++ rest
        /\ projectIdAndFolder env fsys dirname
           = Ok (projId, if HasPrefix rest "/" then rest else "/" ++ rest))
  /\ ((forall b p, baseDir2ProjectId fsys !! b = Some p -> HasPrefix dirname b = false) ->
      exists m, projectIdAndFolder env fsys dirname = Panic m).
Proof.
  intros Hperm.
  assert (Hin : forall b p, In (b, p) (rangeOrder env (baseDir2ProjectId fsys))
                            <-> baseDir2ProjectId fsys !! b = Some p).
  { intros b p. rewrite <- elem_of_map_to_list, <- Hperm.
    symmetry. apply list_elem_of_In. }
  unfold projectIdAndFolder. split.
  - intros baseDir projId Hb Hp Hu.
    exists (sliceFrom (String.length baseDir) dirname).
    split; [apply HasPrefix_sliceFrom, Hp|].
    apply projectIdAndFolder_range_unique; [apply Hin, Hb | exact Hp |].
    intros b p Hbp Hpre. apply Hin in Hbp.
    pose proof (Hu b p Hbp Hpre) as ->. split; [reflexivity | congruence].
  - intros Hn. apply projectIdAndFolder_range_none.
    intros b p Hbp. apply Hin in Hbp. eapply Hn; exact Hbp.
Qed.

(** ** MetadataDbRoot *)

Lemma select_namespace_by_inode_elem i d k r :
  (k, r) ∈ select_namespace_by_inode i d <-> namespace d !! k = Some r /\ ns_inode r = i.
Proof.
  unfold select_namespace_by_inode.
  rewrite elem_of_map_to_list, map_lookup_filter_Some. reflexivity.
Qed.

Lemma select_namespace_by_inode_NoDup i d : NoDup (select_namespace_by_inode i d).*1.
Proof. unfold select_namespace_by_inode. apply NoDup_fst_map_to_list. Qed.

Lemma select_namespace_by_inode_one i d k r :
  namespace d !! k = Some r -> ns_inode r = i ->
  (forall k' r', namespace d !! k' = Some r' -> ns_inode r' = i -> k' = k) ->
  select_namespace_by_inode i d = [(k, r)].
Proof.
  intros Hk Hi Huniq.
  assert (Hin : (k, r) ∈ select_namespace_by_inode i d)
    by (apply select_namespace_by_inode_elem; auto).
  pose proof (select_namespace_by_inode_NoDup i d) as Hnd.
  destruct (select_namespace_by_inode i d) as [|[j rj] l] eqn:E; [inversion Hin|].
  assert (Hj : j = k /\ rj = r).
  { assert (H0 : (j, rj) ∈ select_namespace_by_inode i d) by (rewrite E; left).
    apply select_namespace_by_inode_elem in H0 as [Hj Hij].
    pose proof (Huniq _ _ Hj Hij) as ->. split; [reflexivity | congruence]. }
  destruct Hj as [-> ->].
  destruct l as [|[k2 r2] l']; [reflexivity|]. exfalso.
  assert (H1 : (k2, r2) ∈ select_namespace_by_inode i d) by (rewrite E; right; left).
  apply select_namespace_by_inode_elem in H1 as [Hk2 Hi2].
  pose proof (Huniq _ _ Hk2 Hi2) as ->.
  simpl in Hnd. inversion Hnd as [|? ? Hnin _]; subst. apply Hnin. left.
Qed.

(** X20.  MetadataDbRoot returns the root directory, with inode
    InodeRoot, path "/" and the times of its directory record, when the
    namespace row ("", "/") is the one row that bears InodeRoot, as it is
    after initialisation; it returns an error when no namespace row bears
    InodeRoot, and an error too when two of them do. *)
Theorem MetadataDbRoot_cases (fsys : Filesys) :
  (forall dr,
      namespace (db fsys) !! ("", "/") = Some (mkNsRow nsDirType InodeRoot) ->
      (forall k r, namespace (db fsys) !! k = Some r -> ns_inode r = InodeRoot ->
                   k = ("", "/")) ->
      directories (db fsys) !! InodeRoot = Some dr ->
      MetadataDbRoot fsys
      = Ok (Dir.mk "/" "/" "/" InodeRoot (secondsToTime (dr_ctime dr))
              (secondsToTime (dr_mtime dr)) 0 0 0 "" "" false))
  /\ ((forall k r, namespace (db fsys) !! k = Some r -> ns_inode r <> InodeRoot) ->
      MetadataDbRoot fsys = Err (OtherError "Could not find root directory"))
  /\ (forall k1 k2 r1 r2,
        k1 <> k2 ->
        namespace (db fsys) !! k1 = Some r1 -> ns_inode r1 = InodeRoot ->
        namespace (db fsys) !! k2 = Some r2 -> ns_inode r2 = InodeRoot ->
        MetadataDbRoot fsys = Err (OtherError "Found more than one root directory")).
Proof.
  unfold MetadataDbRoot. split; [|split].
  - intros dr Hroot Huniq Hd.
    rewrite (select_namespace_by_inode_one InodeRoot _ _ _ Hroot eq_refl Huniq). simpl.
    unfold lookupDir. rewrite Hd. reflexivity.
  - intros Hnone.
    destruct (select_namespace_by_inode InodeRoot (db fsys)) as [|[k r] l] eqn:E;
      [reflexivity|]. exfalso.
    assert (Hin : (k, r) ∈ select_namespace_by_inode InodeRoot (db fsys))
      by (rewrite E; left).
    apply select_namespace_by_inode_elem in Hin as [Hk Hi]. eapply Hnone; eassumption.
  - intros k1 k2 r1 r2 Hne H1 Hi1 H2 Hi2.
    assert (Hin1 : (k1, r1) ∈ select_namespace_by_inode InodeRoot (db fsys))
      by (apply select_namespace_by_inode_elem; auto).
    assert (Hin2 : (k2, r2) ∈ select_namespace_by_inode InodeRoot (db fsys))
      by (apply select_namespace_by_inode_elem; auto).
    destruct (select_namespace_by_inode InodeRoot (db fsys)) as [|[k r] [|y l]];
      [inversion Hin1| |reflexivity].
    exfalso. apply list_elem_of_singleton in Hin1, Hin2. congruence.
Qed.

(** ** MetadataDbUpdateFile *)




(** ** populateDir needs new names *)



(** ** The command line *)

Lemma parseManifest_projects_ids env ids :
  Forall (fun a => HasPrefix a "project-" = true) ids ->
  parseManifest_projects env ids = Ok ids.
Proof.
  induction 1 as [|a ids Ha _ IH]; simpl; [reflexivity|].
  unfold lookupProject. rewrite Ha.
  assert (Hne : String.eqb a "" = false).
  { destruct a; [discriminate | reflexivity]. }
  rewrite Hne, IH. reflexivity.
Qed.

(** X23.  parseManifest, on a mount point followed by project Ids (names
    that start with "project-"), asks the platform for no project and
    returns the manifest made of these Ids, in their order, unless there is
    exactly one of them and it ends in ".json".  A single argument that
    ends in ".json" is always read as a manifest file, also when it starts
    with "project-".  A name the platform resolves to the empty Id is
    reported by its name, and the arguments after it are not looked at. *)
Theorem parseManifest_cases (env : CliEnv) (mountpoint : string) :
  (forall ids,
      Forall (fun a => HasPrefix a "project-" = true) ids ->
      length ids <> 1%nat \/ HasSuffix (nth 0 ids "") ".json" = false ->
      parseManifest env (mountpoint :: ids)
      = ofReply RemoteError (MakeManifestFromProjectIds env ids))
  /\ (forall a,
        HasSuffix a ".json" = true ->
        parseManifest env [mountpoint; a]
        = match ofReply OtherError (ReadManifest env a) with
          | Ok manifest => ofReply RemoteError (FillInMissingFields env manifest)
          | Err e => Err e
          | Panic m => Panic m
          end)
  /\ (forall ids a rest,
        Forall (fun a => HasPrefix a "project-" = true) ids ->
        HasPrefix a "project-" = false ->
        DxFindProject env a = Got "" ->
        length (ids ++ a :: rest) <> 1%nat ->
        parseManifest env (mountpoint :: ids ++ a :: rest)
        = Err (OtherError ("no project with name " ++ a))).
Proof.
  split; [|split].
  - intros ids Hids Hcase. unfold parseManifest.
    assert (E : (length (mountpoint :: ids) =? 2)%nat
                && HasSuffix (nth 1 (mountpoint :: ids) "") ".json" = false).
    { simpl nth. destruct Hcase as [Hl | Hs]; [|rewrite Hs; apply andb_false_r].
      apply andb_false_iff. left. apply Nat.eqb_neq. simpl. lia. }
    rewrite E. simpl tl. rewrite (parseManifest_projects_ids env ids Hids). reflexivity.
  - intros a Ha. unfold parseManifest. simpl nth. rewrite Ha. reflexivity.
  - intros ids a rest Hids Ha Hfind Hlen. unfold parseManifest.
    assert (E : (length (mountpoint :: ids ++ a :: rest) =? 2)%nat = false).
    { apply Nat.eqb_neq. simpl. simpl in Hlen. lia. }
    rewrite E. simpl tl. cbv iota. simpl andb. cbv iota.
    assert (F : parseManifest_projects env (ids ++ a :: rest)
                = Err (OtherError ("no project with name " ++ a))).
    { clear E Hlen. induction Hids as [|b ids Hb _ IH]; simpl.
      - unfold lookupProject. rewrite Ha, Hfind. reflexivity.
      - unfold lookupProject at 1. rewrite Hb.
        assert (Hne : String.eqb b "" = false) by (destruct b; [discriminate | reflexivity]).
        rewrite Hne, IH. reflexivity. }
    rewrite F. reflexivity.
Qed.

(** ** Directories that are known stay known *)




(** ** CreateFile *)




(** ** Faux subdirectories *)




(** ** The bootstrap *)



(** * Concrete runs of the further properties *)

Lemma inodes_below_b_correct st : inodes_below_b st = true -> inodes_below st.
Proof.
  unfold inodes_below_b, inodes_below.
  rewrite !andb_true_iff, !forallb_forall. intros [[H1 H2] H3].
  split; [|split].
  - intros k r Hk. apply Z.leb_le. apply (H1 (k, r)).
    apply list_elem_of_In, elem_of_map_to_list. exact Hk.
  - intros i r Hi. apply Z.leb_le. apply (H2 (i, r)).
    apply list_elem_of_In, elem_of_map_to_list. exact Hi.
  - intros i r Hi. apply Z.leb_le. apply (H3 (i, r)).
    apply list_elem_of_In, elem_of_map_to_list. exact Hi.
Qed.

Lemma ids_unique_b_correct d : ids_unique_b d = true -> ids_unique d.
Proof.
  unfold ids_unique_b, ids_unique. rewrite forallb_forall.
  intros H i j ri rj Hi Hj Heq.
  assert (Hin : forall k r, data_objects d !! k = Some r ->
                            In (k, r) (map_to_list (data_objects d))).
  { intros k r Hk. apply list_elem_of_In, elem_of_map_to_list. exact Hk. }
  pose proof (H (i, ri) (Hin _ _ Hi)) as Hrow. rewrite forallb_forall in Hrow.
  pose proof (Hrow (j, rj) (Hin _ _ Hj)) as Hb. simpl in Hb.
  apply orb_true_iff in Hb as [Hb|Hb].
  - apply negb_true_iff, String.eqb_neq in Hb. contradiction.
  - apply Z.eqb_eq. exact Hb.
Qed.

Lemma st_proj_no_data_objects j r : data_objects (tx st_proj) !! j = Some r -> False.
Proof.
  change (data_objects (tx st_proj)) with (∅ : gmap Z DataObjRow).
  rewrite lookup_empty. discriminate.
Qed.

Lemma splitPath_Join_roundtrip_witness :
  (filepath.Clean "/proj/sub" = "/proj/sub" /\ HasPrefix "/proj/sub" "/" = true)
  /\ filepath.Join (splitPath "/proj/sub").1 (splitPath "/proj/sub").2 = "/proj/sub"
  /\ (splitPath "/proj/sub").1 = filepath.Dir "/proj/sub".
Proof.
  split; [split; reflexivity|].
  destruct (splitPath_Join_roundtrip "/proj/sub" eq_refl eq_refl) as [H1 H2].
  split; [exact H1|]. apply H2. discriminate.
Defined.

Lemma timeApprox_any_order_witness :
  ctimeApproxOf 100 [obj_a; obj_b] = ctimeApproxOf 100 [obj_b; obj_a]
  /\ mtimeApproxOf 100 [obj_a; obj_b] = mtimeApproxOf 100 [obj_b; obj_a]
  /\ ctimeApproxOf 100 [obj_a; obj_b] <= 100
  /\ 100 <= mtimeApproxOf 100 [obj_a; obj_b].
Proof.
  apply (timeApprox_any_order 100 100 [obj_a; obj_b] [obj_b; obj_a]). apply perm_swap.
Defined.

Lemma lookupDataObjectInodeById_cases_witness :
  lookupDataObjectInodeById (tx st_proj) "file-A" = Ok (InodeInvalid, 0)
  /\ (forall e, lookupDataObjectInodeById (tx st_linked) "file-A" <> Err e).
Proof.
  split.
  - apply (proj1 (lookupDataObjectInodeById_cases (tx st_proj) "file-A" eq_refl)).
    intros j r Hj _. exact (st_proj_no_data_objects j r Hj).
  - apply (lookupDataObjectInodeById_cases (tx st_linked) "file-A" eq_refl).
Defined.

Lemma createEmptyDir_refusals_witness :
  (exists m, createEmptyDir "project-1" "/sub" 10 300 "proj/sub" false st_proj
             = (Panic m, st_proj))
  /\ createEmptyDir "project-1" "/" 10 300 "/proj" false st_proj
     = (Err (SqlUnique "namespace"), mkTx (tx st_proj) (wrap64 (cnt st_proj + 1)))
  /\ (exists st', createEmptyDir "project-1" "/other" 10 300 "/proj/other" false st_linked
                  = (Ok (cnt st_linked + 1), st')).
Proof.
  assert (H1 : inodes_below st_linked)
    by (apply inodes_below_b_correct; vm_compute; reflexivity).
  assert (Hc : cnt st_linked = 8) by (vm_compute; reflexivity).
  assert (H2 : 0 <= cnt st_linked < maxInt64) by (rewrite Hc; unfold maxInt64; lia).
  split; [|split].
  - apply (proj1 (createEmptyDir_refusals "project-1" "/sub" 10 300 "proj/sub" false
                    st_proj)).
    reflexivity.
  - apply (proj1 (proj2 (createEmptyDir_refusals "project-1" "/" 10 300 "/proj" false
                           st_proj)) eq_refl eq_refl eq_refl (mkNsRow nsDirType 2)).
    vm_compute. reflexivity.
  - apply (proj2 (proj2 (createEmptyDir_refusals "project-1" "/other" 10 300
                           "/proj/other" false st_linked)) eq_refl eq_refl);
      [vm_compute; reflexivity | exact H1 | exact H2].
Defined.

Lemma directoryLookup_cases_witness :
  directoryLookup fsys_proj "/proj" = Ok (dirExistsButNotPopulated, Some dInfo_proj)
  /\ directoryLookup fsys_proj "/proj/sub" = Ok (dirDoesNotExist, None).
Proof.
  split.
  - apply (proj1 (proj2 (directoryLookup_cases fsys_proj "/proj" eq_refl eq_refl))).
    exists (mkNsRow nsDirType 2), (mkDirRow "project-1" "/" 0 10 200).
    split; [vm_compute; reflexivity|]. split; [reflexivity|].
    split; [vm_compute; reflexivity|]. split; [reflexivity|].
    left. split; reflexivity.
  - apply (proj1 (directoryLookup_cases fsys_proj "/proj/sub" eq_refl eq_refl)).
    intros r Hr. exfalso. revert Hr. vm_compute. discriminate.
Defined.

Lemma createDataObject_then_fastLookup_witness :
  exists f,
    fastLookup
      (commit (snd (createDataObject FK_Regular "project-1" "file-A" 10 50 250
                      "/proj" "a.txt" "" st_proj)) fsys_proj) "/proj" "a.txt"
    = Ok (NodeFile f)
    /\ File.Inode f = 3 /\ File.Id f = "file-A" /\ File.Name f = "a.txt"
    /\ File.InlineData f = "".
Proof.
  assert (H : createDataObject FK_Regular "project-1" "file-A" 10 50 250
                "/proj" "a.txt" "" st_proj
              = (Ok 3, snd (createDataObject FK_Regular "project-1" "file-A" 10 50 250
                              "/proj" "a.txt" "" st_proj)))
    by (vm_compute; reflexivity).
  destruct (createDataObject_then_fastLookup FK_Regular "project-1" "file-A" 10 50 250
              "/proj" "a.txt" "" st_proj 3 _ fsys_proj eq_refl H)
    as (f & H1 & H2 & H3 & H4 & H5 & _).
  exists f. split; [exact H1|]. split; [exact H2|]. split; [exact H3|].
  split; [exact H4|].
  rewrite (H5 (fun j r Hj _ => st_proj_no_data_objects j r Hj) eq_refl). reflexivity.
Defined.


Lemma createDataObject_succeeds_iff_witness :
  (exists inode st',
      createDataObject FK_Regular "project-1" "file-N" 1 2 3 "/proj" "new.txt" "" st_linked
      = (Ok inode, st'))
  /\ (exists st',
        createDataObject FK_Regular "project-1" "file-N" 1 2 3 "/proj" "a.txt" "" st_linked
        = (Err (SqlUnique "namespace"), st')).
Proof.
  assert (H1 : inodes_below st_linked)
    by (apply inodes_below_b_correct; vm_compute; reflexivity).
  assert (Hc : cnt st_linked = 8) by (vm_compute; reflexivity).
  assert (H2 : 0 <= cnt st_linked < maxInt64) by (rewrite Hc; unfold maxInt64; lia).
  assert (H3 : ids_unique (tx st_linked))
    by (apply ids_unique_b_correct; vm_compute; reflexivity).
  split.
  - apply (proj1 (createDataObject_succeeds_iff FK_Regular "project-1" "file-N" 1 2 3
                    "/proj" "new.txt" "" st_linked eq_refl H1 H2 H3)).
    vm_compute. reflexivity.
  - apply (proj2 (createDataObject_succeeds_iff FK_Regular "project-1" "file-N" 1 2 3
                    "/proj" "a.txt" "" st_linked eq_refl H1 H2 H3)
             (mkNsRow nsDataObjType 3)).
    vm_compute. reflexivity.
Defined.


Lemma directoryExists_needs_parent_witness :
  exists m, directoryExists env_demo "/nowhere/x" fsys_proj = (Panic m, fsys_proj).
Proof.
  assert (H : "/nowhere/x" <> "/") by discriminate.
  apply (proj1 (directoryExists_needs_parent env_demo fsys_proj "/nowhere/x" H)).
  vm_compute. reflexivity.
Defined.


Lemma index_closed_lookups_total_witness :
  (exists rc di, directoryLookup fsys_mounted "/proj/sub" = Ok (rc, di))
  /\ ((namespace (db fsys_mounted) !! ("/proj", "a.txt") = None
       /\ fastLookup fsys_mounted "/proj" "a.txt" = Err ENOENT)
      \/ (exists r node,
            namespace (db fsys_mounted) !! ("/proj", "a.txt") = Some r
            /\ fastLookup fsys_mounted "/proj" "a.txt" = Ok node
            /\ Node_GetInode node = ns_inode r mod 2 ^ 64
            /\ isNodeDir node = (ns_obj_type r =? nsDirType))).
Proof.
  assert (Hc : index_closed (db fsys_mounted)).
  { apply (afterRequests_grows env_demo
             [ReqPopulateRoot manifest_demo; ReqReadDirAll "/proj"] fsys_new).
    apply index_closed_init. }
  destruct (index_closed_lookups_total fsys_mounted Hc) as [H1 H2].
  split; [apply (H1 "/proj/sub"); reflexivity | apply (H2 "/proj" "a.txt"); reflexivity].
Defined.




Lemma projectIdAndFolder_unique_match_witness :
  exists rest,
    "/proj/sub" = "/proj" ++ rest
    /\ projectIdAndFolder env_demo fsys_proj "/proj/sub"
       = Ok ("project-1", if HasPrefix rest "/" then rest else "/" ++ rest).
Proof.
  apply (proj1 (projectIdAndFolder_unique_match env_demo fsys_proj "/proj/sub"
                  (Permutation_refl _)) "/proj" "project-1").
  - reflexivity.
  - reflexivity.
  - intros b p Hb _.
    change (baseDir2ProjectId fsys_proj)
      with ({[ "/proj" := "project-1" ]} : gmap string string) in Hb.
    apply lookup_singleton_Some in Hb as [Hb _]. symmetry. exact Hb.
Defined.






